(** * Elections scraper: district extraction, aggregation, export and chart

    A shallow embedding of the two scripts of the repository,

    - [src/elections-scraper.py]  (module [V1] below), and
    - [src/elections_scraper.py]  (module [V2] below),

    together with the Python built-ins and the library calls they rely on.

    Conventions of the embedding:

    - a Python [str] is a Rocq [string]; a character is a code point in
      the range 0..255, so that [chr 160] is the non-breaking space;
    - a parsed document (a BeautifulSoup object) is a tree of tags and text
      nodes; [find_all], [find] and [select_one] walk it in document order;
    - a Python [dict] is an association list in insertion order with unique
      keys ([Dict]); the file system is a finite map from paths to entries;
    - effects are explicit: a computation takes the world (standard output
      and file system) and returns an outcome, either a value or a raised
      exception, with the new world.  The network is a function from URLs
      to responses, fixed for a run. *)

From Stdlib Require Import String Ascii List ZArith Lia Bool Permutation Sorted.
From stdpp Require Import gmap strings.
Import ListNotations.

Open Scope string_scope.
Open Scope list_scope.
Open Scope stdpp_scope.

(* ===================================================================== *)
(** ** Python string built-ins *)
(* ===================================================================== *)

Module PyStr.

Definition code (c : ascii) : nat := nat_of_ascii c.

(** [str.isspace] on the code points below 256. *)
Definition isspace (c : ascii) : bool :=
  let n := code c in
  (((9 <=? n) && (n <=? 13)) || ((28 <=? n) && (n <=? 32))
   || (n =? 133) || (n =? 160))%nat.

(** The characters [int] skips around a literal: the ASCII white space
    and the two non-ASCII spaces below 256. *)
Definition int_space (c : ascii) : bool :=
  let n := code c in
  (((9 <=? n) && (n <=? 13)) || (n =? 32) || (n =? 133) || (n =? 160))%nat.

Definition isdigit (c : ascii) : bool :=
  let n := code c in ((48 <=? n) && (n <=? 57))%nat.

Fixpoint lstrip_with (p : ascii -> bool) (s : string) : string :=
  match s with
  | EmptyString => EmptyString
  | String c s' => if p c then lstrip_with p s' else s
  end.

Fixpoint rstrip_with (p : ascii -> bool) (s : string) : string :=
  match s with
  | EmptyString => EmptyString
  | String c s' =>
      match rstrip_with p s' with
      | EmptyString => if p c then EmptyString else String c EmptyString
      | r => String c r
      end
  end.

(** [s.strip()] *)
Definition strip (s : string) : string :=
  rstrip_with isspace (lstrip_with isspace s).

(** [s.split(sep)] for a separator of one character: the fields between
    the occurrences of [sep], never an empty list. *)
Fixpoint split (sep : ascii) (s : string) : list string :=
  match s with
  | EmptyString => [EmptyString]
  | String c s' =>
      if Ascii.eqb c sep then EmptyString :: split sep s'
      else match split sep s' with
           | h :: t => String c h :: t
           | [] => [String c EmptyString]
           end
  end.

(** [s.split(sep, 1)]: [None] when [sep] does not occur. *)
Fixpoint split_once (sep : ascii) (s : string) : option (string * string) :=
  match s with
  | EmptyString => None
  | String c s' =>
      if Ascii.eqb c sep then Some (EmptyString, s')
      else match split_once sep s' with
           | Some (a, b) => Some (String c a, b)
           | None => None
           end
  end.

(** [c in s] *)
Fixpoint contains_char (c : ascii) (s : string) : bool :=
  match s with
  | EmptyString => false
  | String d s' => Ascii.eqb d c || contains_char c s'
  end.

(** [s.startswith(pre)] *)
Fixpoint startswith (s pre : string) : bool :=
  match pre, s with
  | EmptyString, _ => true
  | String a pre', String b s' => Ascii.eqb a b && startswith s' pre'
  | String _ _, EmptyString => false
  end.

(** [sub in s] *)
Fixpoint contains (sub s : string) : bool :=
  startswith s sub ||
  match s with
  | EmptyString => false
  | String _ s' => contains sub s'
  end.

Fixpoint drop (n : nat) (s : string) : string :=
  match n, s with
  | S k, String _ s' => drop k s'
  | _, _ => s
  end.

(** [s.replace(old, new)]: the occurrences of [old] are replaced from the
    left, without overlap; [skip] counts the characters of a match still
    to be passed over.  For an empty [old] Python puts [new] around every
    character. *)
Fixpoint replace_from (old new : string) (skip : nat) (s : string) : string :=
  match s with
  | EmptyString => EmptyString
  | String c s' =>
      match skip with
      | S k => replace_from old new k s'
      | O =>
          if startswith s old
          then new +:+ replace_from old new (String.length old - 1) s'
          else String c (replace_from old new 0 s')
      end
  end.

Fixpoint intersperse (new s : string) : string :=
  match s with
  | EmptyString => new
  | String c s' => new +:+ String c (intersperse new s')
  end.

Definition replace (old new s : string) : string :=
  match old with
  | EmptyString => intersperse new s
  | _ => replace_from old new 0 s
  end.

(** [s.endswith(suffix)] *)
Definition endswith (s suffix : string) : bool :=
  (String.length suffix <=? String.length s)%nat &&
  String.eqb (drop (String.length s - String.length suffix) s) suffix.

(** The digits of a decimal literal: digits with single underscores
    between them.  [seen] tells whether the previous character was a
    digit. *)
Fixpoint digits_value (s : string) (acc : Z) (seen : bool) : option Z :=
  match s with
  | EmptyString => if seen then Some acc else None
  | String c s' =>
      if isdigit c
      then digits_value s' (10 * acc + Z.of_nat (code c - 48)) true
      else if Ascii.eqb c "_" && seen then digits_value s' acc false
      else None
  end.

(** [int(s)] in base 10, [None] for [ValueError].  (CPython 3.11 and
    later also refuses literals of more than 4300 digits; that guard is a
    run-time setting and is not part of the model.) *)
Definition int (s : string) : option Z :=
  match rstrip_with int_space (lstrip_with int_space s) with
  | String "+" r => digits_value r 0 false
  | String "-" r => option_map Z.opp (digits_value r 0 false)
  | t => digits_value t 0 false
  end.

(** [os.path.splitext(p)[0]]: the path without the extension of its last
    component; leading dots of that component do not start an
    extension.  [pre] is the text read so far, [best] the root found so
    far, and [lead] is true while only dots of the current component
    have been read. *)
Fixpoint splitext_scan (s : string) (pre : string) (lead : bool)
         (best : option string) : option string :=
  match s with
  | EmptyString => best
  | String c s' =>
      if Ascii.eqb c "/" then splitext_scan s' (pre +:+ "/") true None
      else if Ascii.eqb c "."
      then splitext_scan s' (pre +:+ ".") lead (if lead then best else Some pre)
      else splitext_scan s' (pre +:+ String c EmptyString) false best
  end.

Definition splitext_root (p : string) : string :=
  match splitext_scan p "" true None with
  | Some r => r
  | None => p
  end.

End PyStr.

Definition nbsp : string := String "160"%char EmptyString.
Definition newline : string := String "010"%char EmptyString.
Definition tab : string := String "009"%char EmptyString.
Definition cr : string := String "013"%char EmptyString.
Definition dquote : string := String "034"%char EmptyString.

(* ===================================================================== *)
(** ** Python dictionaries: insertion order, unique keys *)
(* ===================================================================== *)

Module Dict.
Section Defs.
Context {V : Type}.

(** [d.get(k)] *)
Fixpoint get (d : list (string * V)) (k : string) : option V :=
  match d with
  | [] => None
  | (k', v) :: d' => if String.eqb k' k then Some v else get d' k
  end.

(** [d[k] = v]: a known key keeps its position, a new key goes last. *)
Fixpoint set (k : string) (v : V) (d : list (string * V))
  : list (string * V) :=
  match d with
  | [] => [(k, v)]
  | (k', v') :: d' =>
      if String.eqb k' k then (k', v) :: d' else (k', v') :: set k v d'
  end.

(** [dict(pairs)] *)
Definition of_pairs (l : list (string * V)) : list (string * V) :=
  fold_left (fun d kv => set (fst kv) (snd kv) d) l [].

Definition keys (d : list (string * V)) : list string := map fst d.
Definition values (d : list (string * V)) : list V := map snd d.
End Defs.
End Dict.

(* ===================================================================== *)
(** ** Parsed documents and the BeautifulSoup queries the scripts use *)
(* ===================================================================== *)

#[warnings="-register-all"]
Inductive node : Type :=
| Text (s : string)
| Tag (name : string) (attrs : list (string * string)) (children : list node).

Module Soup.

(** [el.text], [el.get_text()]: the text nodes below [el], concatenated. *)
Fixpoint get_text (n : node) : string :=
  match n with
  | Text s => s
  | Tag _ _ cs =>
      (fix go (l : list node) : string :=
         match l with
         | [] => EmptyString
         | c :: l' => get_text c +:+ go l'
         end) cs
  end.

(** The nodes strictly below [n], in document order. *)
Fixpoint descendants (n : node) : list node :=
  match n with
  | Text _ => []
  | Tag _ _ cs =>
      (fix go (l : list node) : list node :=
         match l with
         | [] => []
         | c :: l' => c :: descendants c ++ go l'
         end) cs
  end.

(** [el.get(attribute)]; [None] is Python's [None]. *)
Definition get (n : node) (attribute : string) : option string :=
  match n with
  | Text _ => None
  | Tag _ attrs _ => Dict.get attrs attribute
  end.

(** The white-space separated values of a multi-valued attribute
    ([class], and [headers] on a table cell). *)
Fixpoint tokens_from (s : string) (cur : string) : list string :=
  match s with
  | EmptyString => match cur with EmptyString => [] | _ => [cur] end
  | String c s' =>
      if PyStr.isspace c
      then match cur with
           | EmptyString => tokens_from s' EmptyString
           | _ => cur :: tokens_from s' EmptyString
           end
      else tokens_from s' (cur +:+ String c EmptyString)
  end.

Definition tokens (s : string) : list string := tokens_from s EmptyString.

Fixpoint join (sep : string) (l : list string) : string :=
  match l with
  | [] => EmptyString
  | [x] => x
  | x :: l' => x +:+ sep +:+ join sep l'
  end.

(** A multi-valued attribute matches when one of its values, or all of
    them joined by single spaces, is one of the wanted strings. *)
Definition value_matches (value : string) (wanted : list string) : bool :=
  let vs := tokens value in
  existsb (fun w => existsb (String.eqb w) vs || String.eqb w (join " " vs))
          wanted.

(** One keyword filter of [find_all]: attribute name and wanted values. *)
Definition attr_matches (n : node) (flt : string * list string) : bool :=
  match get n (fst flt) with
  | Some value => value_matches value (snd flt)
  | None => false
  end.

Definition tag_matches (name : string) (filters : list (string * list string))
           (n : node) : bool :=
  match n with
  | Text _ => false
  | Tag nm _ _ => String.eqb nm name && forallb (attr_matches n) filters
  end.

(** [el.find_all(name, attr=wanted, ...)] *)
Definition find_all (root : node) (name : string)
           (filters : list (string * list string)) : list node :=
  List.filter (tag_matches name filters) (descendants root).

(** [el.find(name, attr=wanted, ...)] *)
Definition find (root : node) (name : string)
           (filters : list (string * list string)) : option node :=
  head (find_all root name filters).

(** A selector [name:-soup-contains("text")]. *)
Record selector := { sel_tag : string; sel_contains : string }.

Definition selects (sel : selector) (n : node) : bool :=
  match n with
  | Text _ => false
  | Tag nm _ _ =>
      String.eqb nm (sel_tag sel) && PyStr.contains (sel_contains sel) (get_text n)
  end.

(** [el.select_one(selector)] *)
Definition select_one (root : node) (sel : selector) : option node :=
  head (List.filter (selects sel) (descendants root)).

(** [str(el)], as it appears in a message. *)
Fixpoint render (n : node) : string :=
  match n with
  | Text s => s
  | Tag nm attrs cs =>
      "<" +:+ nm
      +:+ fold_right (fun kv acc =>
                        " " +:+ fst kv +:+ "=" +:+ dquote +:+ snd kv +:+ dquote +:+ acc)
                     EmptyString attrs
      +:+ ">"
      +:+ (fix go (l : list node) : string :=
             match l with
             | [] => EmptyString
             | c :: l' => render c +:+ go l'
             end) cs
      +:+ "</" +:+ nm +:+ ">"
  end.

End Soup.

(* ===================================================================== *)
(** ** Exceptions, records, data frames, the world *)
(* ===================================================================== *)

(** The classes below [Exception] that occur in the scripts and in the
    library calls they make. *)
Inductive exn_class : Type :=
| AttributeError | ValueError | KeyError | TypeError | IndexError
| FileExistsError | FileNotFoundError | OSError.

(** [SystemExit] is raised by [sys.exit]; it is not an [Exception], so
    [except Exception] lets it through. *)
Inductive exn : Type :=
| Exception (cls : exn_class) (msg : string)
| SystemExit (status : Z).

Definition exn_class_eqb (a b : exn_class) : bool :=
  match a, b with
  | AttributeError, AttributeError | ValueError, ValueError
  | KeyError, KeyError | TypeError, TypeError | IndexError, IndexError
  | FileExistsError, FileExistsError | FileNotFoundError, FileNotFoundError
  | OSError, OSError => true
  | _, _ => false
  end.

(** [except (C1, ..., Cn)] *)
Definition except_classes (classes : list exn_class) (e : exn) : bool :=
  match e with
  | Exception cls _ => existsb (exn_class_eqb cls) classes
  | SystemExit _ => false
  end.

(** [except Exception] *)
Definition except_Exception (e : exn) : bool :=
  match e with
  | Exception _ _ => true
  | SystemExit _ => false
  end.

(** [str(error)] *)
Definition exn_str (e : exn) : string :=
  match e with
  | Exception _ msg => msg
  | SystemExit _ => EmptyString
  end.

(** The per-district dictionary; [None] in a field is Python's [None]. *)
Record district_data : Type := {
  location : string;
  political_parties_votes : option (list (string * Z));
  count_registered : option Z;
  count_envelopes : option Z;
  count_valid : option Z
}.

Inductive count_key : Type := Count_registered | Count_envelopes | Count_valid.

(** The key of the dictionary each constructor stands for. *)
Definition key_name (k : count_key) : string :=
  match k with
  | Count_registered => "count_registered"
  | Count_envelopes => "count_envelopes"
  | Count_valid => "count_valid"
  end.

(** [district_data[key] = value] for one of the three count keys. *)
Definition set_count (k : count_key) (v : Z) (d : district_data) : district_data :=
  match k with
  | Count_registered =>
      {| location := location d;
         political_parties_votes := political_parties_votes d;
         count_registered := Some v;
         count_envelopes := count_envelopes d;
         count_valid := count_valid d |}
  | Count_envelopes =>
      {| location := location d;
         political_parties_votes := political_parties_votes d;
         count_registered := count_registered d;
         count_envelopes := Some v;
         count_valid := count_valid d |}
  | Count_valid =>
      {| location := location d;
         political_parties_votes := political_parties_votes d;
         count_registered := count_registered d;
         count_envelopes := count_envelopes d;
         count_valid := Some v |}
  end.

Definition set_location (name : string) (d : district_data) : district_data :=
  {| location := name;
     political_parties_votes := political_parties_votes d;
     count_registered := count_registered d;
     count_envelopes := count_envelopes d;
     count_valid := count_valid d |}.

Definition set_votes (v : option (list (string * Z))) (d : district_data)
  : district_data :=
  {| location := location d;
     political_parties_votes := v;
     count_registered := count_registered d;
     count_envelopes := count_envelopes d;
     count_valid := count_valid d |}.

(** The dictionary literal both scripts start a district with. *)
Definition empty_district_data : district_data :=
  {| location := EmptyString;
     political_parties_votes := Some [];
     count_registered := None;
     count_envelopes := None;
     count_valid := None |}.

(** Values held by a data frame. *)
Inductive pyval : Type :=
| VStr (s : string)
| VInt (z : Z)
| VNone
| VNaN
| VDict (d : list (string * Z)).

Record DataFrame : Type := {
  columns : list string;
  index : list string;
  rows : list (list pyval)
}.

Inductive file_content : Type :=
| CsvFile (index_label : string) (table : DataFrame)
| PngChart (bars : list (string * Z))
| OtherFile (bytes : string).

Inductive entry : Type :=
| Dir
| File (content : file_content).

(** What a run can change: the lines printed so far (oldest first) and the
    file system, keyed by path. *)
Record World : Type := {
  stdout : list string;
  fs : gmap string entry
}.

Inductive outcome (A : Type) : Type :=
| Ret (a : A)
| Raise (e : exn).
Arguments Ret {A} a.
Arguments Raise {A} e.

Definition M (A : Type) : Type := World -> outcome A * World.

Definition ret {A} (a : A) : M A := fun w => (Ret a, w).

Definition raise {A} (e : exn) : M A := fun w => (Raise e, w).

Definition bind {A B} (m : M A) (k : A -> M B) : M B :=
  fun w =>
    match m w with
    | (Ret a, w') => k a w'
    | (Raise e, w') => (Raise e, w')
    end.

(** [try: m  except <handles> as e: handler e] *)
Definition try_except {A} (m : M A) (handles : exn -> bool)
           (handler : exn -> M A) : M A :=
  fun w =>
    match m w with
    | (Ret a, w') => (Ret a, w')
    | (Raise e, w') => if handles e then handler e w' else (Raise e, w')
    end.

(** [try: m  except <handles> as e: handler e  else: orelse a]; the
    [else] block is not protected by the handler. *)
Definition try_except_else {A B} (m : M A) (handles : exn -> bool)
           (handler : exn -> M B) (orelse : A -> M B) : M B :=
  fun w =>
    match m w with
    | (Ret a, w') => orelse a w'
    | (Raise e, w') => if handles e then handler e w' else (Raise e, w')
    end.

(** The world after some more lines have been printed. *)
Definition add_lines (w : World) (lines : list string) : World :=
  {| stdout := stdout w ++ lines; fs := fs w |}.

(** [print(line)]; one entry of [stdout] per call. *)
Definition print (line : string) : M unit :=
  fun w => (Ret tt, add_lines w [line]).

Definition get_fs : M (gmap string entry) := fun w => (Ret (fs w), w).

Definition put_fs (f : gmap string entry) : M unit :=
  fun w => (Ret tt, {| stdout := stdout w; fs := f |}).

Definition lift {A} (o : outcome A) : M A := fun w => (o, w).

Declare Scope py_scope.
Delimit Scope py_scope with py.
Notation "x <- m ;; k" := (bind m (fun x => k))
  (at level 100, m at next level, right associativity) : py_scope.
Notation "m ;;; k" := (bind m (fun _ => k))
  (at level 100, right associativity) : py_scope.
Open Scope py_scope.

(** [for x in l: acc = body x acc], where [body] may print and raise. *)
Fixpoint for_each {A S} (l : list A) (body : A -> S -> M S) (acc : S) : M S :=
  match l with
  | [] => ret acc
  | x :: l' => acc' <- body x acc ;; for_each l' body acc'
  end.

Definition initial_world : World := {| stdout := []; fs := ∅ |}.

(* ===================================================================== *)
(** ** Library calls: urllib.parse, requests, os, pandas, matplotlib *)
(* ===================================================================== *)

Module Url.

Definition hex_value (c : ascii) : option nat :=
  let n := PyStr.code c in
  if ((48 <=? n) && (n <=? 57))%nat then Some (n - 48)
  else if ((65 <=? n) && (n <=? 70))%nat then Some (n - 55)
  else if ((97 <=? n) && (n <=? 102))%nat then Some (n - 87)
  else None.

(** [unquote]: a [%XX] escape becomes the character of code [XX]; a
    [%] that starts no escape is kept.  (urllib decodes the escaped bytes
    as UTF-8; on escapes below [%80] that is the character of that
    code.) *)
Fixpoint unquote (s : string) : string :=
  match s with
  | EmptyString => EmptyString
  | String c rest =>
      match rest with
      | String a (String b r) =>
          match Ascii.eqb c "%", hex_value a, hex_value b with
          | true, Some x, Some y => String (ascii_of_nat (16 * x + y)) (unquote r)
          | _, _, _ => String c (unquote rest)
          end
      | _ => String c (unquote rest)
      end
  end.

(** [urlparse(url).query]: tabs and line breaks are removed, the fragment
    is cut at the first [#], and the query is what follows the first [?].
    The scheme and the network location are split off before and contain
    neither character.  urlparse raises [ValueError] only for a malformed
    network location; every URL the scripts parse starts with the fixed
    base, whose network location is [volby.cz]. *)
Definition urlparse_query (url : string) : string :=
  let url := PyStr.replace newline "" (PyStr.replace cr "" (PyStr.replace tab "" url)) in
  let url := match PyStr.split_once "#" url with
             | Some (u, _) => u
             | None => url
             end in
  match PyStr.split_once "?" url with
  | Some (_, query) => query
  | None => EmptyString
  end.

(** [parse_qsl(qs)]: fields are separated by [&]; a field without [=] or
    with an empty value is dropped. *)
Definition parse_qsl (qs : string) : list (string * string) :=
  flat_map
    (fun name_value =>
       match PyStr.split_once "=" name_value with
       | None => []
       | Some (name, value) =>
           match value with
           | EmptyString => []
           | _ => [(unquote (PyStr.replace "+" " " name),
                    unquote (PyStr.replace "+" " " value))]
           end
       end)
    (PyStr.split "&" qs).

(** [parse_qs(qs)]: every name with the list of its values, in order. *)
Definition parse_qs (qs : string) : list (string * list string) :=
  fold_left
    (fun parsed_result nv =>
       match Dict.get parsed_result (fst nv) with
       | Some vs => Dict.set (fst nv) (vs ++ [snd nv]) parsed_result
       | None => Dict.set (fst nv) [snd nv] parsed_result
       end)
    (parse_qsl qs) [].

End Url.

(** What [requests.get(url)] followed by [raise_for_status()] gives: the
    parsed body, or an exception of a class below [RequestException] with
    its class name and message. *)
Inductive response : Type :=
| Page (content : node)
| RequestException (class_name : string) (message : string).

Module Os.

(** [os.path.join("Results", name)] *)
Definition path_join (dir name : string) : string :=
  match name with
  | String "/" _ => name
  | _ => dir +:+ "/" +:+ name
  end.

(** [os.path.exists(path)]; paths are compared as written. *)
Definition path_exists (path : string) : M bool :=
  f <- get_fs ;;
  ret (match f !! path with Some _ => true | None => false end).

(** [os.makedirs(path, exist_ok=True)] for a path of one component. *)
Definition makedirs (path : string) : M unit :=
  f <- get_fs ;;
  match f !! path with
  | Some Dir => ret tt
  | Some (File _) =>
      raise (Exception FileExistsError
               ("[Errno 17] File exists: '" +:+ path +:+ "'"))
  | None => put_fs (<[path := Dir]> f)
  end.

(** The directory part of a path: the text before the last [/]; [None]
    when the file lies in the working directory or in the root. *)
Fixpoint parent_scan (s : string) (pre : string) (best : option string)
  : option string :=
  match s with
  | EmptyString => best
  | String c s' =>
      if Ascii.eqb c "/"
      then parent_scan s' (pre +:+ "/")
             (match pre with EmptyString => None | _ => Some pre end)
      else parent_scan s' (pre +:+ String c EmptyString) best
  end.

Definition parent (path : string) : option string :=
  parent_scan path EmptyString None.

(** Paths are the keys of the file system and are compared as written;
    the statements about files are made for output names without [/],
    for which the written path [Results/name] is in normal form. *)
Definition parent_is_dir (f : gmap string entry) (path : string) : bool :=
  match parent path with
  | None => true
  | Some d => match f !! d with Some Dir => true | _ => false end
  end.

(** [open(path, "w")] and write [content]: the directory must exist and
    the path must not be a directory; an existing file is replaced. *)
Definition write_file (path : string) (content : file_content) : M unit :=
  f <- get_fs ;;
  if negb (parent_is_dir f path)
  then raise (Exception FileNotFoundError
                ("[Errno 2] No such file or directory: '" +:+ path +:+ "'"))
  else match f !! path with
       | Some Dir =>
           raise (Exception OSError
                    ("[Errno 21] Is a directory: '" +:+ path +:+ "'"))
       | _ => put_fs (<[path := File content]> f)
       end.

End Os.

Module Pandas.

Definition record_keys : list string :=
  ["location"; "political_parties_votes"; "count_registered";
   "count_envelopes"; "count_valid"].

Definition of_count (o : option Z) : pyval :=
  match o with Some z => VInt z | None => VNone end.

Definition record_row (d : district_data) : list pyval :=
  [VStr (location d);
   match political_parties_votes d with Some v => VDict v | None => VNone end;
   of_count (count_registered d);
   of_count (count_envelopes d);
   of_count (count_valid d)].

(** [pd.DataFrame.from_dict(data, orient='index')]: one row per key; the
    columns are the keys of the records, so there is none when [data] is
    empty.  A cell holds the value of the record; the type pandas stores
    a column in (a count column with a missing value becomes a column of
    floats) is not modelled. *)
Definition from_dict_index (data : list (string * district_data)) : DataFrame :=
  {| columns := match data with [] => [] | _ => record_keys end;
     index := Dict.keys data;
     rows := map (fun kv => record_row (snd kv)) data |}.

Fixpoint position (c : string) (cols : list string) : option nat :=
  match cols with
  | [] => None
  | c' :: cols' =>
      if String.eqb c' c then Some 0
      else option_map S (position c cols')
  end.

Fixpoint positions (wanted cols : list string) : option (list nat) :=
  match wanted with
  | [] => Some []
  | c :: wanted' =>
      match position c cols, positions wanted' cols with
      | Some i, Some l => Some (i :: l)
      | _, _ => None
      end
  end.

(** [df[[c1, ..., cn]]]: [KeyError] when a label is not a column. *)
Definition select (df : DataFrame) (wanted : list string) : outcome DataFrame :=
  match positions wanted (columns df) with
  | Some ps =>
      Ret {| columns := wanted;
             index := index df;
             rows := map (fun r => map (fun i => nth i r VNaN) ps) (rows df) |}
  | None =>
      Raise (Exception KeyError
               ("[" +:+ Soup.join ", " wanted +:+ "] not in index"))
  end.

(** [df.drop([c], axis=1)] *)
Definition drop (df : DataFrame) (c : string) : outcome DataFrame :=
  match position c (columns df) with
  | Some _ => select df (List.filter (fun c' => negb (String.eqb c' c)) (columns df))
  | None => Raise (Exception KeyError ("['" +:+ c +:+ "'] not found in axis"))
  end.

(** [df[c]]: the values of one column. *)
Definition column (df : DataFrame) (c : string) : outcome (list pyval) :=
  match position c (columns df) with
  | Some i => Ret (map (fun r => nth i r VNaN) (rows df))
  | None => Raise (Exception KeyError ("'" +:+ c +:+ "'"))
  end.

Definition series_of (v : pyval) : list (string * Z) :=
  match v with
  | VDict d => d
  | _ => []
  end.

(** The labels of the series, each once, in the order first met. *)
Definition union_labels (series : list (list (string * Z))) : list string :=
  fold_left
    (fun seen s =>
       fold_left (fun seen' k => if existsb (String.eqb k) seen' then seen'
                                 else seen' ++ [k])
                 (Dict.keys s) seen)
    series [].

(** [column.apply(pd.Series)]: every dictionary becomes a row over the
    union of the labels; a missing label gives [NaN].  The numbers stand
    as the integers of the dictionaries; pandas stores a column with a
    [NaN] as floats, which is not modelled. *)
Definition apply_series (idx : list string) (values : list pyval) : DataFrame :=
  let series := map series_of values in
  let labels := union_labels series in
  {| columns := labels;
     index := idx;
     rows := map (fun s => map (fun k => match Dict.get s k with
                                         | Some z => VInt z
                                         | None => VNaN
                                         end) labels) series |}.

(** [pd.concat([a, b], axis=1)] of two frames over the same index. *)
Definition concat_columns (a b : DataFrame) : DataFrame :=
  {| columns := columns a ++ columns b;
     index := index a;
     rows := map (fun rr => fst rr ++ snd rr) (combine (rows a) (rows b)) |}.

(** [df.to_csv(path, index_label=label, ...)]: pandas refuses a path
    whose directory does not exist. *)
Definition to_csv (df : DataFrame) (path label : string) : M unit :=
  f <- get_fs ;;
  if negb (Os.parent_is_dir f path)
  then raise (Exception OSError
                ("Cannot save file into a non-existent directory: '"
                 +:+ match Os.parent path with Some d => d | None => "" end
                 +:+ "'"))
  else Os.write_file path (CsvFile label df).

End Pandas.

Module Pyplot.

(** [plt.bar(names, totals)] followed by [plt.savefig(path)]. *)
Definition savefig (bars : list (string * Z)) (path : string) : M unit :=
  Os.write_file path (PngChart bars).

End Pyplot.

(** [sorted(items, key=lambda item: item[1], reverse=True)]: descending by
    value; items of equal value keep their order. *)
Fixpoint insert_desc (x : string * Z) (l : list (string * Z))
  : list (string * Z) :=
  match l with
  | [] => [x]
  | y :: l' => if (snd y <=? snd x)%Z then x :: l else y :: insert_desc x l'
  end.

Definition sorted_by_value_desc (l : list (string * Z)) : list (string * Z) :=
  fold_right insert_desc [] l.

(* ===================================================================== *)
(** ** Functions that read the same in both scripts *)
(* ===================================================================== *)

(** [int(text)] as a computation: [ValueError] when the text is no decimal
    literal.  The message quotes the text as it is; Python quotes
    [repr(text)], which is the same for a text without quotes, backslashes
    and control characters.  The statements that hold for every cell text
    leave the message open. *)
Definition py_int (text : string) : M Z :=
  match PyStr.int text with
  | Some z => ret z
  | None =>
      raise (Exception ValueError
               ("invalid literal for int() with base 10: '" +:+ text +:+ "'"))
  end.

(** [[f(x) for x in l]], stopping at the first exception. *)
Fixpoint map_M {A B} (f : A -> M B) (l : list A) : M (list B) :=
  match l with
  | [] => ret []
  | x :: l' => y <- f x ;; ys <- map_M f l' ;; ret (y :: ys)
  end.

(** The truth value of a string, and of a string or [None]. *)
Definition truthy (s : string) : bool :=
  match s with EmptyString => false | _ => true end.

Definition truthy_opt (o : option string) : bool :=
  match o with Some s => truthy s | None => false end.

(** [get_soup(url)] (elections-scraper.py 19-35, elections_scraper.py
    20-39). *)
Definition get_soup (net : string -> response) (url : string) : M node :=
  match net url with
  | Page content => ret content
  | RequestException class_name message =>
      print ("ERROR: Failed to fetch the page '" +:+ url +:+ "'" +:+ newline
             +:+ class_name +:+ ": " +:+ message) ;;;
      raise (SystemExit 1)
  end.

(** [get_code_from_url(url, parameter_name)] (elections-scraper.py
    152-172, elections_scraper.py 288-311): the first value of the
    parameter in the query string, or [None]. *)
Definition get_code_from_url (url parameter_name : string) : option string :=
  let query_dict := Url.parse_qs (Url.urlparse_query url) in
  match Dict.get query_dict parameter_name with
  | Some (v :: _) => Some v
  | _ => None
  end.

(** [clean_data(text, char_to_remove)] (elections-scraper.py 206-214,
    elections_scraper.py 359-371). *)
Definition clean_data (text char_to_remove : string) : string :=
  PyStr.replace char_to_remove "" text.

(** The default arguments, the same in both scripts. *)
Definition base_url : string := "https://volby.cz/pls/ps2017nss/".
Definition district_selector : Soup.selector :=
  {| Soup.sel_tag := "h3"; Soup.sel_contains := "Obec:" |}.
Definition vote_headers : list string := ["t1sa2 t1sb3"; "t2sa2 t2sb3"].
Definition count_headers : list (count_key * string) :=
  [(Count_registered, "sa2"); (Count_envelopes, "sa3"); (Count_valid, "sa6")].

(** The status the interpreter exits with. *)
Definition exit_status {A} (o : outcome A) : Z :=
  match o with
  | Ret _ => 0
  | Raise (SystemExit status) => status
  | Raise (Exception _ _) => 1
  end.

(** [party_votes[party] = party_votes.get(party, 0) + votes] over the
    items of every district, as both scripts do before charting. *)
Definition items (v : option (list (string * Z))) : M (list (string * Z)) :=
  match v with
  | Some d => ret d
  | None =>
      raise (Exception AttributeError
               "'NoneType' object has no attribute 'items'")
  end.

Definition add_votes (pv : string * Z) (party_votes : list (string * Z))
  : list (string * Z) :=
  Dict.set (fst pv)
           (match Dict.get party_votes (fst pv) with
            | Some t => t
            | None => 0
            end + snd pv)%Z
           party_votes.

Definition sum_party_votes (data : list (string * district_data))
  : M (list (string * Z)) :=
  for_each (Dict.values data)
           (fun district party_votes =>
              its <- items (political_parties_votes district) ;;
              for_each its (fun pv acc => ret (add_votes pv acc)) party_votes)
           [].

(** [dict(sorted(party_votes.items(), key=..., reverse=True)[:10])] *)
Definition top_10 (party_votes : list (string * Z)) : list (string * Z) :=
  Dict.of_pairs (firstn 10 (sorted_by_value_desc party_votes)).

(** The frame [get_csv] builds before it touches the file system. *)
Definition csv_frame (data : list (string * district_data)) : M DataFrame :=
  let df := Pandas.from_dict_index data in
  df <- lift (Pandas.select df ["location"; "count_registered"; "count_envelopes";
                                "count_valid"; "political_parties_votes"]) ;;
  scalars <- lift (Pandas.drop df "political_parties_votes") ;;
  votes <- lift (Pandas.column df "political_parties_votes") ;;
  ret (Pandas.concat_columns scalars (Pandas.apply_series (index df) votes)).

(* ===================================================================== *)
(** ** src/elections_scraper.py *)
(* ===================================================================== *)

Module V2.
Section Run.

Variable net : string -> response.

(** [collect_url(link, attribute, base_url)], lines 82-102. *)
Definition collect_url (link : option node) (attribute base_url : string)
: option string :=
match link with
| Some l =>
    match Soup.get l attribute with
    | Some href => if truthy href then Some (base_url +:+ href) else None
    | None => None
    end
| None => None
end.

(** The body of the loop of [extract_all_district_links], lines 68-77:
  one cell, the links so far, the links after. *)
Definition link_step (base_url link_tag_name attribute_name : string)
         (cell : node) (all_links : list string) : M (list string) :=
let link := Soup.find cell link_tag_name [] in
let complete_url := collect_url link attribute_name base_url in
if negb (truthy_opt complete_url)
then print "WARNING: Failed to obtain complete URL for a link." ;;;
     ret all_links
else ret (all_links ++ match complete_url with
                       | Some u => [u]
                       | None => []
                       end).

(** [extract_all_district_links(page, ...)], lines 42-79. *)
Definition extract_all_district_links
         (page : node)
         (base_url container_tag container_class link_tag_name
                   attribute_name : string) : M (list string) :=
for_each (Soup.find_all page container_tag [("class", [container_class])])
         (link_step base_url link_tag_name attribute_name)
         [].

(** [get_district_name(soup, district)], lines 163-178. *)
Definition get_district_name (soup : node) (district : Soup.selector)
: M (option string) :=
match Soup.select_one soup district with
| Some district_name_element =>
    match PyStr.split ":" (PyStr.strip (Soup.get_text district_name_element)) with
    | _ :: name :: _ => ret (Some name)
    | _ => raise (Exception IndexError "list index out of range")
    end
| None => ret None
end.

(** [extract_headers_data(district_data, soup, headers, container_tag,
  class_name)], lines 181-213; [record] is the dictionary
  [district_data], and the updated dictionary is returned. *)
Definition extract_headers_data (record : district_data) (soup : node)
         (headers : list (count_key * string))
         (container_tag class_name : string) : M district_data :=
for_each headers
         (fun kh record =>
            let key := fst kh in
            let header := snd kh in
            try_except
              (match Soup.find soup container_tag
                               [("class", [class_name]); ("headers", [header])] with
               | Some cell =>
                   v <- py_int (clean_data (Soup.get_text cell) nbsp) ;;
                   ret (set_count key v record)
               | None =>
                   print ("WARNING: Data cell not found for header " +:+ header
                          +:+ " in district " +:+ location record) ;;;
                   ret record
               end)
              (except_classes [AttributeError; ValueError; KeyError])
              (fun error =>
                 print ("ERROR: An error occurred while extracting data for header '"
                        +:+ header +:+ "': " +:+ exn_str error) ;;;
                 ret record))
         record.

(** [get_votes_of_parties(page, ...)], lines 314-356; [None] when no
  party-name cell is found. *)
Definition get_votes_of_parties (page : node)
         (party_name_class votes_class : string) (headers : list string)
         (container_tag : string) : M (option (list (string * Z))) :=
let political_parties :=
  Soup.find_all page container_tag [("class", [party_name_class])] in
match political_parties with
| [] => ret None
| _ =>
    try_except_else
      (ret (map (fun party => PyStr.strip (Soup.get_text party))
                political_parties))
      except_Exception
      (fun error =>
         print ("ERROR occurred while extracting votes of parties: "
                +:+ exn_str error) ;;;
         ret (Some []))
      (fun party_names =>
         let political_parties_votes :=
           Soup.find_all page container_tag
                         [("class", [votes_class]); ("headers", headers)] in
         votes_count <-
           map_M (fun votes =>
                    py_int (clean_data (PyStr.strip (Soup.get_text votes)) nbsp))
                 political_parties_votes ;;
         ret (Some (Dict.of_pairs (combine party_names votes_count))))
end.

(** [extract_district_data(...)], lines 105-160. *)
Definition extract_district_data (individual_district_soup : node)
         (district : Soup.selector)
         (registered_header envelopes_header valid_header
                            container_tag class_name : string)
: M (option district_data) :=
let record := empty_district_data in
district_name <- get_district_name individual_district_soup district ;;
if negb (truthy_opt district_name) then ret None
else
  let record :=
    set_location (match district_name with Some n => n | None => "" end)
                 record in
  votes <- get_votes_of_parties individual_district_soup
                                "overflow_name" "cislo" vote_headers "td" ;;
  let record := set_votes votes record in
  let headers := [(Count_registered, registered_header);
                  (Count_envelopes, envelopes_header);
                  (Count_valid, valid_header)] in
  record <- extract_headers_data record individual_district_soup
                                 headers container_tag class_name ;;
  ret (Some record).

(** The body of the loop of [extract_all_districts_data], lines 263-283:
  one link, the dictionary so far, the dictionary after. *)
Definition district_step (district : Soup.selector)
         (registered_header envelopes_header valid_header
                            container_tag class_name : string)
         (district_link : string)
         (all_district_data : list (string * district_data))
: M (list (string * district_data)) :=
try_except
  (individual_district_soup <- get_soup net district_link ;;
   match get_code_from_url district_link "xobec" with
   | None =>
       print ("ERROR: District code not found for link: " +:+ district_link) ;;;
       ret all_district_data
   | Some code =>
       record <- extract_district_data individual_district_soup district
                   registered_header envelopes_header valid_header
                   container_tag class_name ;;
       match record with
       | Some d => ret (Dict.set code d all_district_data)
       | None => ret all_district_data
       end
   end)
  except_Exception
  (fun error =>
     print ("Error: An exception occurred for district " +:+ district_link
            +:+ ": " +:+ exn_str error) ;;;
     ret all_district_data).

(** [extract_all_districts_data(soup)], lines 216-285, with its default
  arguments.  (The progress bar goes to standard error and is left
  out.) *)
Definition extract_all_districts_data (soup : node)
: M (list (string * district_data)) :=
links <- extract_all_district_links soup base_url "td" "cislo" "a" "href" ;;
for_each links (district_step district_selector "sa2" "sa3" "sa6" "td" "cislo") [].

(** [add_extension(filename, extension)], lines 478-493. *)
Definition add_extension (filename extension : string) : string :=
if PyStr.endswith filename ("." +:+ extension) then filename
else filename +:+ "." +:+ extension.

(** [get_csv(data, filename)], lines 374-418. *)
Definition get_csv (data : list (string * district_data)) (filename : string)
: M unit :=
df <- csv_frame data ;;
Os.makedirs "Results" ;;;
let file_path := Os.path_join "Results" (add_extension filename "csv") in
exists_ <- Os.path_exists file_path ;;
if (exists_ : bool)
then raise (Exception FileExistsError
              ("File " +:+ filename +:+ " already exists."))
else
  Pandas.to_csv df file_path "code" ;;;
  print ("CSV FILE SUCCESSFULLY CREATED: '" +:+ file_path +:+ "'").

(** [plot_top_10_parties(data, filename)], lines 427-475. *)
Definition plot_top_10_parties (data : list (string * district_data))
         (filename : string) : M unit :=
party_votes <- sum_party_votes data ;;
let top_10_parties := top_10 party_votes in
let plot_filename :=
  add_extension ("Top_10_Parties_of_" +:+ PyStr.splitext_root filename) "png" in
let file_path := Os.path_join "Results" plot_filename in
Pyplot.savefig top_10_parties file_path ;;;
print ("BAR PLOT SUCCESSFULLY CREATED: '" +:+ file_path +:+ "'").

(** [elections_scraper(url, filename)], lines 496-503. *)
Definition elections_scraper (url filename : string) : M unit :=
print ("DOWNLOADING DATA FROM THE SELECTED URL: '" +:+ url +:+ "'") ;;;
soup <- get_soup net url ;;
dict_of_data <- extract_all_districts_data soup ;;
get_csv dict_of_data filename ;;;
plot_top_10_parties dict_of_data filename ;;;
print "PROCESS SUCCESSFULLY FINISHED".

(** The script body, lines 506-514; [argv] is [sys.argv]. *)
Definition main (argv : list string) : M unit :=
match argv with
| [_; territorial_url; territorial_filename] =>
    elections_scraper territorial_url territorial_filename
| _ =>
    print ("Usage:" +:+ newline
           +:+ "$ python election_scraper.py <district_url> <filename>") ;;;
    raise (SystemExit 1)
end.

End Run.
End V2.

(* ===================================================================== *)
(** ** src/elections-scraper.py *)
(* ===================================================================== *)

Module V1.
Section Run.

Variable net : string -> response.

(** The body of the loop of [all_district_links], lines 58-67.
  [link.get] on a missing link is an [AttributeError]; the handler
  names [TypeError] and [KeyError]. *)
Definition link_step (base_url link_tag_name attribute_name : string)
         (cell : node) (all_links : list string) : M (list string) :=
let link := Soup.find cell link_tag_name [] in
try_except
  (href <- match link with
           | Some l => ret (Soup.get l attribute_name)
           | None =>
               raise (Exception AttributeError
                        "'NoneType' object has no attribute 'get'")
           end ;;
   if negb (truthy_opt href)
   then raise (Exception ValueError
                 ("Link or attribute '" +:+ attribute_name
                  +:+ "' not found in cell: " +:+ Soup.render cell))
   else ret (all_links ++ match href with
                          | Some h => [base_url +:+ h]
                          | None => []
                          end))
  (except_classes [TypeError; KeyError])
  (fun _ =>
     print ("WARNING: Link or attribute '" +:+ attribute_name
            +:+ "' not found in cell: " +:+ Soup.render cell) ;;;
     ret all_links).

(** [all_district_links(page, ...)], lines 38-69. *)
Definition all_district_links
         (page : node)
         (base_url container_tag container_class link_tag_name
                   attribute_name : string) : M (list string) :=
for_each (Soup.find_all page container_tag [("class", [container_class])])
         (link_step base_url link_tag_name attribute_name)
         [].

(** [get_votes_of_parties(page, ...)], lines 175-203. *)
Definition get_votes_of_parties (page : node)
         (party_name_class votes_class : string) (headers : list string)
         (container_tag : string) : M (list (string * Z)) :=
try_except
  (let political_parties :=
     Soup.find_all page container_tag [("class", [party_name_class])] in
   let party_names :=
     map (fun party => PyStr.strip (Soup.get_text party)) political_parties in
   let political_parties_votes :=
     Soup.find_all page container_tag
                   [("class", [votes_class]); ("headers", headers)] in
   votes_count <-
     map_M (fun votes =>
              py_int (clean_data (PyStr.strip (Soup.get_text votes)) nbsp))
           political_parties_votes ;;
   ret (Dict.of_pairs (combine party_names votes_count)))
  except_Exception
  (fun e =>
     print ("ERROR occurred while extracting votes of parties: "
            +:+ exn_str e) ;;;
     ret []).

(** The body of the loop of [global_data], lines 102-147.  The handler
  of the outer [try] prints [district_name], which is empty until the
  heading has been read; the part of the body after that assignment
  is therefore wrapped by the same handler with the name filled in. *)
Definition district_step (district : Soup.selector)
         (registered_header envelopes_header valid_header
                            container_tag class_name : string)
         (district_link : string)
         (all_global : list (string * district_data))
: M (list (string * district_data)) :=
let handler (district_name : string) (e : exn) :=
  print ("Error: An exception occurred for district " +:+ district_name
         +:+ ": " +:+ exn_str e) ;;;
  ret all_global in
try_except
  (let record := empty_district_data in
   individual_district_soup <- get_soup net district_link ;;
   match Soup.select_one individual_district_soup district with
   | Some district_name_element =>
       match PyStr.split ":" (PyStr.strip (Soup.get_text district_name_element)) with
       | _ :: district_name :: _ =>
           try_except
             (let record := set_location district_name record in
              match get_code_from_url district_link "xobec" with
              | None =>
                  print ("ERROR: District code not found for link: "
                         +:+ district_link) ;;;
                  ret all_global
              | Some code =>
                  votes <- get_votes_of_parties individual_district_soup
                             "overflow_name" "cislo" vote_headers "td" ;;
                  let record := set_votes (Some votes) record in
                  let headers := [(Count_registered, registered_header);
                                  (Count_envelopes, envelopes_header);
                                  (Count_valid, valid_header)] in
                  record <-
                    for_each headers
                      (fun kh record =>
                         let key := fst kh in
                         let header := snd kh in
                         try_except
                           (match Soup.find individual_district_soup container_tag
                                            [("class", [class_name]);
                                             ("headers", [header])] with
                            | Some cell =>
                                v <- py_int (clean_data (Soup.get_text cell) nbsp) ;;
                                ret (set_count key v record)
                            | None =>
                                print ("ERROR: Data cell not found for header "
                                       +:+ header +:+ " in district "
                                       +:+ district_name) ;;;
                                ret record
                            end)
                           (except_classes [AttributeError; ValueError; KeyError])
                           (fun e =>
                              print ("ERROR: An error occurred while extracting data for header '"
                                     +:+ header +:+ "': " +:+ exn_str e) ;;;
                              ret record))
                      record ;;
                  ret (Dict.set code record all_global)
              end)
             except_Exception
             (handler district_name)
       | _ => raise (Exception IndexError "list index out of range")
       end
   | None =>
       print ("ERROR: District name not found for link: " +:+ district_link) ;;;
       ret all_global
   end)
  except_Exception
  (handler EmptyString).

(** [global_data(soup)], lines 72-149, with its default arguments; the
  links are extracted outside the [try]. *)
Definition global_data (soup : node) : M (list (string * district_data)) :=
links <- all_district_links soup base_url "td" "cislo" "a" "href" ;;
for_each links (district_step district_selector "sa2" "sa3" "sa6" "td" "cislo") [].

(** [add_extension(filename, extension)], lines 298-300. *)
Definition add_extension (filename extension : string) : string :=
filename +:+ "." +:+ extension.

(** [get_csv(data, filename)], lines 217-253. *)
Definition get_csv (data : list (string * district_data)) (filename : string)
: M unit :=
df <- csv_frame data ;;
Os.makedirs "Results" ;;;
let file_path := Os.path_join "Results" (add_extension filename "csv") in
exists_ <- Os.path_exists file_path ;;
if (exists_ : bool)
then raise (Exception FileExistsError
              ("File " +:+ filename +:+ " already exists."))
else
  Pandas.to_csv df file_path "code" ;;;
  print ("CSV FILE SUCCESSFULLY CREATED: '" +:+ filename +:+ ".csv'").

(** [plot_top_10_parties(data, filename)], lines 262-295. *)
Definition plot_top_10_parties (data : list (string * district_data))
         (filename : string) : M unit :=
party_votes <- sum_party_votes data ;;
let top_10_parties := top_10 party_votes in
let file_path :=
  Os.path_join "Results"
               (add_extension ("Top_10_Parties_of_" +:+ filename) "png") in
Pyplot.savefig top_10_parties file_path ;;;
print ("BAR PLOT SUCCESSFULLY CREATED: 'Top_10_Parties_of_" +:+ filename
       +:+ ".png'").

(** [elections_scraper(url, filename)], lines 303-310. *)
Definition elections_scraper (url filename : string) : M unit :=
print ("DOWNLOADING DATA FROM THE SELECTED URL: '" +:+ url +:+ "'") ;;;
soup <- get_soup net url ;;
dict_of_data <- global_data soup ;;
get_csv dict_of_data filename ;;;
plot_top_10_parties dict_of_data filename ;;;
print "PROCESS SUCCESSFULLY FINISHED".

(** The script body, lines 313-326.  argparse takes an argument that
    starts with [-] for an option; such argument vectors are outside this
    model ([None]).  For the others it wants exactly the two positional
    arguments and otherwise writes its usage to standard error and exits
    with status 2. *)
Definition plain (arg : string) : bool := negb (PyStr.startswith arg "-").

Definition main (argv : list string) : option (M unit) :=
  match argv with
  | [] => None
  | _ :: args =>
      if forallb plain args
      then Some match args with
                | [url; filename] => elections_scraper url filename
                | _ => raise (SystemExit 2)
                end
      else None
  end.

End Run.
End V1.

(* ===================================================================== *)
(** ** Sample documents *)
(* ===================================================================== *)

Module Sample.

Definition document (body : list node) : node :=
  Tag "[document]" [] [Tag "html" [] [Tag "body" [] body]].

(** A cell of the index table holding a link. *)
Definition link_cell (href label : string) : node :=
  Tag "td" [("class", "cislo"); ("headers", "t1sa1 t1sb1")]
      [Tag "a" [("href", href)] [Text label]].

(** A cell of the index table without a link. *)
Definition bare_cell (label : string) : node :=
  Tag "td" [("class", "cislo"); ("headers", "t1sa1 t1sb1")] [Text label].

(** A cell of the index table whose link has no [href]. *)
Definition anchor_cell (label : string) : node :=
  Tag "td" [("class", "cislo"); ("headers", "t1sa1 t1sb1")]
      [Tag "a" [("name", label)] [Text label]].

Definition index_page (cells : list node) : node :=
  document [Tag "table" [] [Tag "tr" [] cells]].

Definition heading (text : string) : node := Tag "h3" [] [Text text].

Definition count_cell (header text : string) : node :=
  Tag "td" [("class", "cislo"); ("headers", header)] [Text text].

Definition party_cell (name : string) : node :=
  Tag "td" [("class", "overflow_name"); ("headers", "t1sa1 t1sb2")] [Text name].

Definition vote_cell (text : string) : node :=
  Tag "td" [("class", "cislo"); ("headers", "t1sa2 t1sb3")] [Text text].

(** A district page: headings, the three count cells that are given, and
    a table with one row per party. *)
Definition district_page (headings : list string)
           (counts : list (string * string))
           (parties votes : list string) : node :=
  document
    (map heading headings
     ++ [Tag "table" [] [Tag "tr" [] (map (fun hc => count_cell (fst hc) (snd hc)) counts)]]
     ++ [Tag "table" []
             (map (fun n => Tag "tr" [] [party_cell n]) parties
              ++ map (fun v => Tag "tr" [] [vote_cell v]) votes)]).

(** A network that serves the given pages and fails elsewhere. *)
Definition serve (pages : list (string * node)) (url : string) : response :=
  match Dict.get pages url with
  | Some p => Page p
  | None => RequestException "ConnectionError" "no route to host"
  end.

Definition three_counts : list (string * string) :=
  [("sa2", "205"); ("sa3", "145"); ("sa6", "144")].

End Sample.

(* ===================================================================== *)
(** ** Vocabulary of the statements *)
(* ===================================================================== *)

(** The line [get_soup] prints for a failed fetch. *)
Definition fetch_diagnostic (url class_name message : string) : string :=
  "ERROR: Failed to fetch the page '" +:+ url +:+ "'" +:+ newline
  +:+ class_name +:+ ": " +:+ message.

(** The cells the scripts look for, with their default arguments. *)
Definition index_cells (page : node) : list node :=
  Soup.find_all page "td" [("class", ["cislo"])].

Definition party_cells (page : node) : list node :=
  Soup.find_all page "td" [("class", ["overflow_name"])].

Definition vote_cells (page : node) : list node :=
  Soup.find_all page "td" [("class", ["cislo"]); ("headers", vote_headers)].

Definition party_names (page : node) : list string :=
  map (fun party => PyStr.strip (Soup.get_text party)) (party_cells page).

(** The number a vote cell holds, if its text is a decimal literal. *)
Definition vote_value (cell : node) : option Z :=
  PyStr.int (clean_data (PyStr.strip (Soup.get_text cell)) nbsp).

(** The number the count cell of a header holds: [None] when the page has
    no such cell or its text is no decimal literal. *)
Definition count_value (page : node) (header : string) : option Z :=
  match Soup.find page "td" [("class", ["cislo"]); ("headers", [header])] with
  | Some cell => PyStr.int (clean_data (Soup.get_text cell) nbsp)
  | None => None
  end.

(** The reference of the first link of an index cell, if it has one. *)
Definition cell_href (cell : node) : option string :=
  match Soup.find cell "a" [] with
  | Some link =>
      match Soup.get link "href" with
      | Some href => if truthy href then Some href else None
      | None => None
      end
  | None => None
  end.

(** The warning of the link extractor of elections_scraper.py. *)
Definition link_warning : string :=
  "WARNING: Failed to obtain complete URL for a link.".

(** The absolute URLs of the cells that have a reference, in the order of
    the cells, and one warning for every cell that has none. *)
Definition links_of (cells : list node) : list string :=
  flat_map (fun c => match cell_href c with
                     | Some h => [base_url +:+ h]
                     | None => []
                     end) cells.

Definition warnings_of (cells : list node) : list string :=
  flat_map (fun c => match cell_href c with
                     | Some _ => []
                     | None => [link_warning]
                     end) cells.

(** The elements of a list, each once, in the order of first occurrence. *)
Definition seen_step (seen : list string) (k : string) : list string :=
  if existsb (String.eqb k) seen then seen else seen ++ [k].

Definition first_seen (l : list string) : list string :=
  fold_left seen_step l [].

(** All values of an optional list, if none is missing. *)
Fixpoint all_some {A} (l : list (option A)) : option (list A) :=
  match l with
  | [] => Some []
  | Some x :: l' => option_map (cons x) (all_some l')
  | None :: _ => None
  end.

(** The last value paired with a key. *)
Fixpoint last_value {V} (l : list (string * V)) (k : string) : option V :=
  match l with
  | [] => None
  | (k', v) :: l' =>
      match last_value l' k with
      | Some v' => Some v'
      | None => if String.eqb k' k then Some v else None
      end
  end.

(** The votes of a party in a district, 0 when it has none there. *)
Definition votes_in (party : string) (d : district_data) : Z :=
  match political_parties_votes d with
  | Some v => match Dict.get v party with Some z => z | None => 0%Z end
  | None => 0%Z
  end.

Definition total_votes (party : string) (data : list (string * district_data)) : Z :=
  fold_right (fun d acc => (votes_in party d + acc)%Z) 0%Z (Dict.values data).

(** The party names of a result set in the order they are met. *)
Definition parties_met (data : list (string * district_data)) : list string :=
  flat_map (fun d => match political_parties_votes d with
                     | Some v => Dict.keys v
                     | None => []
                     end) (Dict.values data).

(** The location name both scripts read: the second colon-separated field
    of the stripped text of the heading. *)
Definition heading_name (page : node) : option string :=
  match Soup.select_one page district_selector with
  | Some el => nth_error (PyStr.split ":" (PyStr.strip (Soup.get_text el))) 1
  | None => None
  end.

(** The record of a page, given its name and its party votes. *)
Definition counted (page : node) (name : string)
           (votes : option (list (string * Z))) : district_data :=
  {| location := name;
     political_parties_votes := votes;
     count_registered := count_value page "sa2";
     count_envelopes := count_value page "sa3";
     count_valid := count_value page "sa6" |}.

(** The numbers of the vote cells, if all of them are decimal literals. *)
Definition vote_values (page : node) : option (list Z) :=
  all_some (map vote_value (vote_cells page)).

(** What one count header does to a record. *)
Definition apply_count (page : node) (kh : count_key * string)
           (record : district_data) : district_data :=
  match count_value page (snd kh) with
  | Some v => set_count (fst kh) v record
  | None => record
  end.


(** The party votes elections_scraper.py stores: [Some None] is Python's
    [None], stored when the page has no party-name cell; the outer [None]
    stands for a vote cell that is no decimal literal. *)
Definition V2_votes (page : node) : option (option (list (string * Z))) :=
  match party_cells page with
  | [] => Some None
  | _ :: _ =>
      option_map (fun vs => Some (Dict.of_pairs (combine (party_names page) vs)))
                 (vote_values page)
  end.

(** The party votes elections-scraper.py stores. *)
Definition V1_votes (page : node) : list (string * Z) :=
  match vote_values page with
  | Some vs => Dict.of_pairs (combine (party_names page) vs)
  | None => []
  end.

(** The entry each script adds for a link and the page behind it. *)
Definition V2_entry (link : string) (page : node) : option (string * district_data) :=
  match get_code_from_url link "xobec", heading_name page, V2_votes page with
  | Some code, Some (String c n), Some votes =>
      Some (code, counted page (String c n) votes)
  | _, _, _ => None
  end.

Definition V1_entry (link : string) (page : node) : option (string * district_data) :=
  match heading_name page, get_code_from_url link "xobec" with
  | Some name, Some code => Some (code, counted page name (Some (V1_votes page)))
  | _, _ => None
  end.

Definition add_entry (e : option (string * district_data))
           (acc : list (string * district_data)) : list (string * district_data) :=
  match e with
  | Some (code, record) => Dict.set code record acc
  | None => acc
  end.

(** The entries added for a list of links, in order. *)
Definition entries (entry : string -> node -> option (string * district_data))
           (net : string -> response) (links : list string)
  : list (string * district_data) :=
  flat_map (fun link =>
              match net link with
              | Page page => match entry link page with Some e => [e] | None => [] end
              | RequestException _ _ => []
              end) links.

Definition fetched (net : string -> response) (link : string) : Prop :=
  exists page, net link = Page page.

(** The first link of a list whose fetch fails, with the class and the
    message of the failure. *)
Fixpoint first_failure (net : string -> response) (links : list string)
  : option (string * string * string) :=
  match links with
  | [] => None
  | link :: links' =>
      match net link with
      | Page _ => first_failure net links'
      | RequestException class_name message => Some (link, class_name, message)
      end
  end.

(** The first fetch of a run that fails: the index page, or else the
    first district page. *)
Definition first_failed_fetch (net : string -> response) (url : string)
  : option (string * string * string) :=
  match net url with
  | Page soup => first_failure net (links_of (index_cells soup))
  | RequestException class_name message => Some (url, class_name, message)
  end.

(** A run that ends in [sys.exit(1)] right after the diagnostic of a failed
    fetch. *)
Definition fatal_fetch {A} (run : M A) (w : World) (url class_name message : string)
  : Prop :=
  exists lines,
    run w = (Raise (SystemExit 1),
             add_lines w (lines ++ [fetch_diagnostic url class_name message])).

(** The district codes of a list of links, in order. *)
Definition codes_of (links : list string) : list string :=
  flat_map (fun link => match get_code_from_url link "xobec" with
                        | Some code => [code]
                        | None => []
                        end) links.

(** The name as a reading of the specification has it: what follows the
    first colon of the heading, stripped. *)
Definition name_after_colon (text : string) : option string :=
  match PyStr.split_once ":" text with
  | Some (_, after) => Some (PyStr.strip after)
  | None => None
  end.

(** The vote cells that hold a decimal literal. *)
Definition parsed_vote_cells (page : node) : list node :=
  List.filter (fun cell => match vote_value cell with
                           | Some _ => true
                           | None => false
                           end) (vote_cells page).

Module Cases.

(** A district page as the site serves it, and the link to it. *)
Definition praha : node :=
  Sample.district_page [newline +:+ "Obec: Praha" +:+ newline]
                       Sample.three_counts ["A"; "B"] ["10"; "3"].
Definition praha_link : string := base_url +:+ "ps311?xjazyk=CZ&xobec=554782".

Definition brno : node :=
  Sample.district_page ["Obec: Brno"] Sample.three_counts ["A"; "B"] ["7"; "0"].
Definition brno_link : string := base_url +:+ "ps311?xjazyk=CZ&xobec=582786".

(** A page whose heading has nothing after the colon. *)
Definition nameless : node :=
  Sample.district_page ["Obec:"] Sample.three_counts ["A"] ["1"].

(** A page without the count cell of the registered voters. *)
Definition no_registered : node :=
  Sample.district_page ["Obec: Praha"] [("sa3", "145"); ("sa6", "144")]
                       ["A"; "B"] ["10"; "3"].

(** A page with a vote cell that holds no number. *)
Definition bad_vote : node :=
  Sample.district_page ["Obec: Praha"] Sample.three_counts ["A"; "B"] ["1"; "x"].

(** A page without party-name cells. *)
Definition no_parties : node :=
  Sample.district_page ["Obec: Praha"] Sample.three_counts [] [].

(** An index page with two cells that link to the same district. *)
Definition twice : node :=
  Sample.index_page [Sample.link_cell "ps311?xjazyk=CZ&xobec=554782" "554782";
                     Sample.link_cell "ps311?xjazyk=CZ&xobec=554782" "554782"].

(** An index page with one cell per district. *)
Definition two_districts : node :=
  Sample.index_page [Sample.link_cell "ps311?xjazyk=CZ&xobec=554782" "554782";
                     Sample.link_cell "ps311?xjazyk=CZ&xobec=582786" "582786"].

(** An index page one of whose cells has no link. *)
Definition with_bare_cell : node :=
  Sample.index_page [Sample.link_cell "ps311?xjazyk=CZ&xobec=554782" "554782";
                     Sample.bare_cell "-"].

(** An index page without cells. *)
Definition empty_index : node := Sample.index_page [].

Definition index_url : string := base_url +:+ "ps32?xjazyk=CZ&xkraj=1&xnumnuts=1100".

Definition net_of (index_page district : node) : string -> response :=
  Sample.serve [(index_url, index_page); (praha_link, district)].

Definition net_two : string -> response :=
  Sample.serve [(index_url, two_districts); (praha_link, praha); (brno_link, brno)].

(** Only the index page can be fetched. *)
Definition net_index_only : string -> response :=
  Sample.serve [(index_url, two_districts)].

End Cases.

(** The items of all districts, in the order the chart loop reads them. *)
Definition all_items (data : list (string * district_data)) : list (string * Z) :=
  flat_map (fun d => match political_parties_votes d with
                     | Some v => v
                     | None => []
                     end) (Dict.values data).

(** The sum of the numbers paired with a party in a list of items. *)
Definition sum_for (party : string) (l : list (string * Z)) : Z :=
  fold_right (fun kv s => if String.eqb (fst kv) party then (snd kv + s)%Z else s)
             0%Z l.

(** Descending by total. *)
Definition by_total_desc (x y : string * Z) : Prop := (snd y <= snd x)%Z.

(** The items with a given total. *)
Definition with_total (v : Z) (l : list (string * Z)) : list (string * Z) :=
  List.filter (fun x => (snd x =? v)%Z) l.

(** A result set whose records all carry a dictionary of party votes. *)
Definition has_votes (d : district_data) : Prop :=
  exists v, political_parties_votes d = Some v /\ List.NoDup (Dict.keys v).

(** [d.get(party, 0)] *)
Definition get0 (d : list (string * Z)) (party : string) : Z :=
  match Dict.get d party with Some z => z | None => 0%Z end.

Module Chart.

Definition record (votes : list (string * Z)) : district_data :=
  {| location := " Praha";
     political_parties_votes := Some votes;
     count_registered := None;
     count_envelopes := None;
     count_valid := None |}.

(** Two districts: party A with 10 and 7 votes, party B with 3 and 0. *)
Definition two : list (string * district_data) :=
  [("554782", record [("A", 10%Z); ("B", 3%Z)]);
   ("582786", record [("A", 7%Z); ("B", 0%Z)])].

(** A world in which the directory of the results exists. *)
Definition with_results : World :=
  {| stdout := []; fs := {[ "Results" := Dir ]} |}.

End Chart.

(** A district page without party-name cells, and a network that serves
    it as the second district of the index page. *)
Definition brno_without_parties : node :=
  Sample.district_page ["Obec: Brno"] Sample.three_counts [] [].

Definition net_without_parties : string -> response :=
  Sample.serve [(Cases.index_url, Cases.two_districts);
                (Cases.praha_link, Cases.praha);
                (Cases.brno_link, brno_without_parties)].

(* ===================================================================== *)
(** ** Vocabulary of the further properties *)
(* ===================================================================== *)

(** The text without the occurrences of one character. *)
Fixpoint without_char (c : ascii) (s : string) : string :=
  match s with
  | EmptyString => EmptyString
  | String d s' =>
      if Ascii.eqb d c then without_char c s' else String d (without_char c s')
  end.

(** The value of the first field of a parsed query that has a given name. *)
Definition first_value (name : string) (fields : list (string * string))
  : option string :=
  option_map snd (List.find (fun nv => String.eqb (fst nv) name) fields).

(** The values of the fields of a parsed query that have a given name. *)
Definition values_of (name : string) (fields : list (string * string))
  : list string :=
  map snd (List.filter (fun nv => String.eqb (fst nv) name) fields).

(** Letters and digits of ASCII. *)
Definition alnum (c : ascii) : bool :=
  let n := PyStr.code c in
  (((48 <=? n) && (n <=? 57)) || ((65 <=? n) && (n <=? 90))
   || ((97 <=? n) && (n <=? 122)))%nat.

Fixpoint all_chars (p : ascii -> bool) (s : string) : bool :=
  match s with
  | EmptyString => true
  | String c s' => p c && all_chars p s'
  end.

(** A query string written from its fields, [name=value] joined by [&],
    and a link of the site with such a query. *)
Definition query_of (fields : list (string * string)) : string :=
  Soup.join "&" (map (fun nv => fst nv +:+ "=" +:+ snd nv) fields).

Definition link_to (page : string) (fields : list (string * string)) : string :=
  base_url +:+ page +:+ "?" +:+ query_of fields.

Definition plain_field (nv : string * string) : Prop :=
  all_chars alnum (fst nv) = true /\ all_chars alnum (snd nv) = true.

Definition not_blank (nv : string * string) : bool :=
  negb (String.eqb (snd nv) EmptyString).

(** A cell of the index table without a usable reference, and the
    exception the link loop of elections-scraper.py raises at such a cell:
    [link.get] on a missing link, or the [ValueError] of the script for a
    link without reference. *)
Definition no_href (cell : node) : bool :=
  match cell_href cell with
  | Some _ => false
  | None => true
  end.

Definition link_error (cell : node) : exn :=
  match Soup.find cell "a" [] with
  | Some _ =>
      Exception ValueError
                ("Link or attribute 'href' not found in cell: " +:+ Soup.render cell)
  | None => Exception AttributeError "'NoneType' object has no attribute 'get'"
  end.

(** What the header loop of elections_scraper.py prints for one header of
    a district of a given name: nothing when the count is read, a warning
    when the cell is missing, and one error line, which ends with the
    message of [int], when the text of the cell is no number. *)
Definition count_lines (page : node) (name header : string) (lines : list string)
  : Prop :=
  match Soup.find page "td" [("class", ["cislo"]); ("headers", [header])] with
  | None =>
      lines = ["WARNING: Data cell not found for header " +:+ header
               +:+ " in district " +:+ name]
  | Some cell =>
      match PyStr.int (clean_data (Soup.get_text cell) nbsp) with
      | Some _ => lines = []
      | None =>
          exists message,
            lines = ["ERROR: An error occurred while extracting data for header '"
                     +:+ header +:+ "': " +:+ message]
      end
  end.

(** The messages of the aggregation loops for a link that gives no
    record. *)
Definition code_not_found (link : string) : string :=
  "ERROR: District code not found for link: " +:+ link.

Definition name_not_found (link : string) : string :=
  "ERROR: District name not found for link: " +:+ link.

Definition district_failed (link message : string) : string :=
  "Error: An exception occurred for district " +:+ link +:+ ": " +:+ message.

(** The frame [csv_frame] builds, in closed form: the four scalar
    columns, then one column per party in the order the parties are first
    met; a district without votes for a party has [NaN] there.  The
    numbers stand as the integers of the records; how pandas stores them
    (as integers, or as floats in a column with a missing value) is not
    modelled, and the statements about the export are made through
    [table_of] below, which leaves the numbers open. *)
Definition vote_cell_of (d : district_data) (party : string) : pyval :=
  match political_parties_votes d with
  | Some v =>
      match Dict.get v party with
      | Some z => VInt z
      | None => VNaN
      end
  | None => VNaN
  end.

Definition csv_row (parties : list string) (d : district_data) : list pyval :=
  [VStr (location d);
   Pandas.of_count (count_registered d);
   Pandas.of_count (count_envelopes d);
   Pandas.of_count (count_valid d)]
    ++ map (vote_cell_of d) parties.

Definition csv_table (data : list (string * district_data)) : DataFrame :=
  {| columns := ["location"; "count_registered"; "count_envelopes"; "count_valid"]
                  ++ first_seen (parties_met data);
     index := Dict.keys data;
     rows := map (fun kv => csv_row (first_seen (parties_met data)) (snd kv)) data |}.




(** A computation that keeps a relation between the world before and the
    world after it, whatever its outcome, and raises only exceptions of a
    given kind. *)
Definition respects {A} (R : World -> World -> Prop) (E : exn -> Prop) (m : M A)
  : Prop :=
  forall w, R w (snd (m w)) /\ forall e, fst (m w) = Raise e -> E e.

(** The paths below the directory of the results, and the worlds that
    differ at most there and at the directory itself. *)
Definition in_results (path : string) : Prop :=
  PyStr.startswith path "Results/" = true.

Definition same_outside_results (w w' : World) : Prop :=
  forall path,
    path <> "Results" -> ~ in_results path -> fs w' !! path = fs w !! path.

(** An exception that ends the process with status 1. *)
Definition ends_with_1 (e : exn) : Prop :=
  forall status, e = SystemExit status -> status = 1%Z.

(** The result set elections_scraper.py builds from an index page when
    every district page is fetched. *)
Definition V2_result_set (net : string -> response) (soup : node)
  : list (string * district_data) :=
  Dict.of_pairs (entries V2_entry net (links_of (index_cells soup))).


(** The usage line of elections_scraper.py. *)
Definition usage : string :=
  "Usage:" +:+ newline +:+ "$ python election_scraper.py <district_url> <filename>".


(* ===================================================================== *)
(** ** Sanity checks of the built-ins *)
(* ===================================================================== *)

Example strip_heading :
  PyStr.strip (newline +:+ "Obec: Praha " +:+ newline) = "Obec: Praha".
Proof. reflexivity. Qed.

Example split_heading :
  PyStr.split ":" "Obec: Praha" = ["Obec"; " Praha"].
Proof. reflexivity. Qed.

Example int_examples :
  map PyStr.int ["12"; " 12 "; "1_000"; "+5"; "-5"; ""; "1__0"; "_1"; "1_";
                 "0x10"; "007"; "- 5"; "+-5"; nbsp +:+ "12";
                 "1" +:+ nbsp +:+ "234"]
  = [Some 12; Some 12; Some 1000; Some 5; Some (-5); None; None; None; None;
     None; Some 7; None; None; Some 12; None]%Z.
Proof. reflexivity. Qed.

Example replace_nbsp :
  PyStr.int (PyStr.replace nbsp "" ("1" +:+ nbsp +:+ "234")) = Some 1234%Z.
Proof. reflexivity. Qed.

Example splitext_examples :
  map PyStr.splitext_root ["out"; "out.csv"; "a.b"; ".csv"; "..a"; ".a.b";
                           "a/b.c"; "a.b/c"; "a."; "a..b"]
  = ["out"; "out"; "a"; ".csv"; "..a"; ".a"; "a/b"; "a.b/c"; "a"; "a."].
Proof. reflexivity. Qed.

Example code_examples :
  map (fun h => get_code_from_url (base_url +:+ h) "xobec")
      ["ps311?xjazyk=CZ&xkraj=12&xobec=506761&xvyber=7103"; "x?xobec=";
       "x?xobec=1&xobec=2"; "x?a#b?xobec=3"; "x?xobec=%41+b"; "x?xobec";
       "x?xobec=1;xobec=2"; "x?xobec=%"; "x?&&xobec=1"; "x?xobec=="]
  = [Some "506761"; None; Some "1"; None; Some "A b"; None;
     Some "1;xobec=2"; Some "%"; Some "1"; Some "="].
Proof. reflexivity. Qed.

Example sorted_example :
  sorted_by_value_desc [("A", 17); ("B", 3); ("C", 17); ("D", 20)]%Z
  = [("D", 20); ("A", 17); ("C", 17); ("B", 3)]%Z.
Proof. reflexivity. Qed.

(* ===================================================================== *)
(** ** The monad: how computations compose *)
(* ===================================================================== *)

Section MonadFacts.

Context {A B : Type}.

Lemma bind_ret_eq (m : M A) (k : A -> M B) (w w' : World) (a : A) :
  m w = (Ret a, w') -> bind m k w = k a w'.
Proof. intros H. unfold bind. now rewrite H. Qed.

Lemma bind_raise_eq (m : M A) (k : A -> M B) (w w' : World) (e : exn) :
  m w = (Raise e, w') -> bind m k w = (Raise e, w').
Proof. intros H. unfold bind. now rewrite H. Qed.

Lemma for_each_app (l1 l2 : list A) (body : A -> B -> M B) (acc : B) (w : World) :
  for_each (l1 ++ l2) body acc w =
  match for_each l1 body acc w with
  | (Ret acc', w') => for_each l2 body acc' w'
  | (Raise e, w') => (Raise e, w')
  end.
Proof.
  revert acc w. induction l1 as [| x l1 IH]; intros acc w; simpl.
  - reflexivity.
  - unfold bind. destruct (body x acc w) as [[s | e] w0]; [apply IH | reflexivity].
Qed.

End MonadFacts.

(** Run the first statement of a sequence, given what it does. *)
Tactic Notation "ret_step" open_constr(H) := rewrite (bind_ret_eq _ _ _ _ _ H).
Tactic Notation "raise_step" open_constr(H) := rewrite (bind_raise_eq _ _ _ _ _ H).

Lemma add_lines_nil (w : World) : add_lines w [] = w.
Proof. destruct w. unfold add_lines. cbn. now rewrite app_nil_r. Qed.

Lemma add_lines_app (w : World) (l1 l2 : list string) :
  add_lines (add_lines w l1) l2 = add_lines w (l1 ++ l2).
Proof. unfold add_lines. cbn. now rewrite app_assoc. Qed.
Lemma append_empty_r (s : string) : s +:+ EmptyString = s.
Proof.
  induction s as [| c s IH]; [reflexivity|].
  change (String c (s +:+ EmptyString) = String c s). now rewrite IH.
Qed.

Section StringFacts.

Variable sep : ascii.

Lemma split_nonempty (s : string) : PyStr.split sep s <> [].
Proof.
  destruct s as [| c s]; cbn; [congruence|].
  destruct (Ascii.eqb c sep); [congruence|].
  destruct (PyStr.split sep s); congruence.
Qed.

(** The first field of a split: it holds no separator, and what follows
    it in the string is the separator and the rest of the split. *)
Lemma split_first (s a : string) (t : list string) :
  PyStr.split sep s = a :: t ->
  PyStr.contains_char sep a = false /\
  match t with
  | [] => s = a
  | _ :: _ => exists s', s = a +:+ String sep s' /\ PyStr.split sep s' = t
  end.
Proof.
  revert a t. induction s as [| c s IH]; intros a t H; cbn in H.
  - inversion H; subst. now split.
  - destruct (Ascii.eqb c sep) eqn:E.
    + apply Ascii.eqb_eq in E. subst c. inversion H; subst. split; [reflexivity|].
      pose proof (split_nonempty s) as Hne.
      destruct (PyStr.split sep s) eqn:Es; [congruence|].
      exists s. now split.
    + destruct (PyStr.split sep s) as [| h t0] eqn:Es.
      * now destruct (split_nonempty s).
      * inversion H; subst. destruct (IH h t eq_refl) as [Hh Ht].
        split; [cbn; now rewrite E, Hh|].
        destruct t as [| b t'].
        -- now subst.
        -- destruct Ht as (s' & -> & Hs'). exists s'. now split.
Qed.

Lemma split_two_fields (s : string) :
  PyStr.contains_char sep s = true ->
  exists a b t, PyStr.split sep s = a :: b :: t.
Proof.
  induction s as [| c s IH]; cbn; [discriminate|].
  intros H. destruct (Ascii.eqb c sep) eqn:E.
  - pose proof (split_nonempty s) as Hne.
    destruct (PyStr.split sep s) as [| b t]; [congruence|]. eauto.
  - cbn in H. destruct (IH H) as (a & b & t & ->). eauto.
Qed.

(** The second field lies between the first separator and the next one,
    or the end of the string. *)
Lemma split_second (s a b : string) (t : list string) :
  PyStr.split sep s = a :: b :: t ->
  exists rest,
    s = a +:+ String sep (b +:+ rest) /\
    PyStr.contains_char sep a = false /\
    PyStr.contains_char sep b = false /\
    (rest = EmptyString \/ exists r, rest = String sep r).
Proof.
  intros H. destruct (split_first _ _ _ H) as [Ha (s' & -> & Hs')].
  destruct (split_first _ _ _ Hs') as [Hb Ht].
  destruct t as [| c t].
  - subst s'. exists EmptyString. repeat split; auto.
    now rewrite append_empty_r.
  - destruct Ht as (s'' & -> & _). exists (String sep s'').
    repeat split; eauto.
Qed.

Lemma contains_char_lstrip (p : ascii -> bool) (s : string) :
  p sep = false ->
  PyStr.contains_char sep (PyStr.lstrip_with p s) = PyStr.contains_char sep s.
Proof.
  intros Hp. induction s as [| c s IH]; cbn; [reflexivity|].
  destruct (p c) eqn:E; [| reflexivity].
  rewrite IH. destruct (Ascii.eqb c sep) eqn:Ec; [| reflexivity].
  apply Ascii.eqb_eq in Ec. congruence.
Qed.

Lemma contains_char_rstrip (p : ascii -> bool) (s : string) :
  p sep = false ->
  PyStr.contains_char sep (PyStr.rstrip_with p s) = PyStr.contains_char sep s.
Proof.
  intros Hp. induction s as [| c s IH]; cbn; [reflexivity|].
  destruct (PyStr.rstrip_with p s) as [| d r] eqn:Er.
  - cbn in IH. rewrite <- IH. destruct (p c) eqn:E; cbn.
    + destruct (Ascii.eqb c sep) eqn:Ec; [| reflexivity].
      apply Ascii.eqb_eq in Ec. congruence.
    + now rewrite orb_false_r.
  - cbn. cbn in IH. now rewrite IH.
Qed.

End StringFacts.

Lemma contains_label_colon (s : string) :
  PyStr.contains "Obec:" s = true -> PyStr.contains_char ":" s = true.
Proof.
  induction s as [| c s IH]; [cbn; discriminate|].
  intros H. cbn [PyStr.contains] in H. apply orb_true_iff in H. destruct H as [H | H].
  - clear IH.
    destruct s as [| c1 [| c2 [| c3 [| c4 s]]]]; cbn [PyStr.startswith] in H;
      repeat (apply andb_true_iff in H; destruct H as [? H]); try discriminate.
    repeat match goal with
           | E : Ascii.eqb _ _ = true |- _ => apply Ascii.eqb_eq in E; subst
           end.
    reflexivity.
  - cbn. rewrite (IH H). apply orb_true_r.
Qed.

Lemma select_one_selects (root : node) (sel : Soup.selector) (el : node) :
  Soup.select_one root sel = Some el -> Soup.selects sel el = true.
Proof.
  unfold Soup.select_one. intros H.
  assert (In el (List.filter (Soup.selects sel) (Soup.descendants root))) as Hin.
  { destruct (List.filter (Soup.selects sel) (Soup.descendants root)); [discriminate|].
    inversion H; subst. now left. }
  apply filter_In in Hin. tauto.
Qed.

(** The heading the fixed selector finds always has a colon, so its
    second field exists. *)
Lemma heading_two_fields (page el : node) :
  Soup.select_one page district_selector = Some el ->
  exists a name t,
    PyStr.split ":" (PyStr.strip (Soup.get_text el)) = a :: name :: t.
Proof.
  intros H. apply select_one_selects in H.
  destruct el as [s | nm attrs cs]; [discriminate|].
  cbn [Soup.selects district_selector Soup.sel_tag Soup.sel_contains] in H.
  apply andb_true_iff in H. destruct H as [_ H].
  apply split_two_fields. unfold PyStr.strip.
  rewrite contains_char_rstrip, contains_char_lstrip by reflexivity.
  now apply contains_label_colon.
Qed.

(* ===================================================================== *)
(** ** Link extraction *)
(* ===================================================================== *)

(** elections_scraper.py: the loop never raises; it appends the URL of
    every cell that has a reference and prints one warning for every cell
    that has none. *)
Lemma V2_link_loop (cells : list node) (acc : list string) (w : World) :
  for_each cells (V2.link_step base_url "a" "href") acc w
  = (Ret (acc ++ links_of cells), add_lines w (warnings_of cells)).
Proof.
  revert acc w. induction cells as [| c cells IH]; intros acc w.
  - cbn. unfold ret. now rewrite app_nil_r, add_lines_nil.
  - cbn [for_each]. unfold bind at 1. unfold V2.link_step at 1.
    unfold links_of, warnings_of. cbn [flat_map].
    fold (links_of cells). fold (warnings_of cells).
    unfold cell_href, V2.collect_url. cbv zeta.
    destruct (Soup.find c "a" []) as [l |]; cbn -[add_lines].
    + destruct (Soup.get l "href") as [h |]; cbn -[add_lines].
      * destruct h as [| ch h]; cbn -[add_lines].
        -- rewrite IH. now rewrite add_lines_app.
        -- change (truthy (base_url +:+ String ch h)) with true.
           cbn -[add_lines]. rewrite IH. now rewrite <- app_assoc.
      * rewrite IH. now rewrite add_lines_app.
    + rewrite IH. now rewrite add_lines_app.
Qed.

Lemma V2_links_spec (page : node) (w : World) :
  V2.extract_all_district_links page base_url "td" "cislo" "a" "href" w
  = (Ret (links_of (index_cells page)),
     add_lines w (warnings_of (index_cells page))).
Proof. unfold V2.extract_all_district_links. apply V2_link_loop. Qed.

(** elections-scraper.py: as long as every cell has a reference the loop
    appends the same URLs and prints nothing. *)
Lemma V1_link_loop_valid (cells : list node) (acc : list string) (w : World) :
  Forall (fun c => cell_href c <> None) cells ->
  for_each cells (V1.link_step base_url "a" "href") acc w
  = (Ret (acc ++ links_of cells), w).
Proof.
  revert acc w. induction cells as [| c cells IH]; intros acc w Hall.
  - cbn. unfold ret. now rewrite app_nil_r.
  - inversion Hall as [| ? ? Hc Hcs]; subst.
    cbn [for_each]. unfold bind at 1. unfold V1.link_step at 1.
    unfold links_of. cbn [flat_map]. fold (links_of cells).
    unfold cell_href in *. cbv zeta.
    destruct (Soup.find c "a" []) as [l |]; [| congruence].
    destruct (Soup.get l "href") as [h |]; [| congruence].
    destruct h as [| ch h]; [cbn in Hc; congruence |].
    cbn -[base_url]. rewrite IH by assumption. now rewrite <- app_assoc.
Qed.

(** elections-scraper.py: the first cell without a link ends the
    extraction with an [AttributeError] that no handler catches. *)
Lemma V1_links_missing_link (page : node) (w : World)
      (before after : list node) (c : node) :
  index_cells page = before ++ c :: after ->
  Forall (fun c => cell_href c <> None) before ->
  Soup.find c "a" [] = None ->
  V1.all_district_links page base_url "td" "cislo" "a" "href" w
  = (Raise (Exception AttributeError "'NoneType' object has no attribute 'get'"), w).
Proof.
  intros Hcells Hbefore Hc.
  unfold V1.all_district_links. fold (index_cells page). rewrite Hcells.
  rewrite for_each_app, V1_link_loop_valid by assumption.
  cbn [for_each]. unfold bind at 1. unfold V1.link_step at 1. cbv zeta.
  rewrite Hc. reflexivity.
Qed.

(** elections-scraper.py: so does the first cell whose link has no
    reference, with a [ValueError]. *)
Lemma V1_links_missing_href (page : node) (w : World)
      (before after : list node) (c link : node) :
  index_cells page = before ++ c :: after ->
  Forall (fun c => cell_href c <> None) before ->
  Soup.find c "a" [] = Some link ->
  truthy_opt (Soup.get link "href") = false ->
  exists msg,
    V1.all_district_links page base_url "td" "cislo" "a" "href" w
    = (Raise (Exception ValueError msg), w).
Proof.
  intros Hcells Hbefore Hc Hh.
  unfold V1.all_district_links. fold (index_cells page). rewrite Hcells.
  rewrite for_each_app, V1_link_loop_valid by assumption.
  cbn [for_each]. unfold bind at 1. unfold V1.link_step at 1. cbv zeta.
  rewrite Hc. unfold try_except, bind, ret. rewrite Hh. cbn. eauto.
Qed.

(* ===================================================================== *)
(** ** Dictionaries *)
(* ===================================================================== *)

Lemma existsb_eqb_In (k : string) (l : list string) :
  existsb (String.eqb k) l = true <-> In k l.
Proof.
  rewrite existsb_exists. split.
  - intros (x & Hx & E). apply String.eqb_eq in E. now subst.
  - intros H. exists k. split; [assumption | apply String.eqb_refl].
Qed.

Lemma existsb_eqb_not_In (k : string) (l : list string) :
  existsb (String.eqb k) l = false <-> ~ In k l.
Proof.
  rewrite <- existsb_eqb_In. destruct (existsb (String.eqb k) l); split; congruence.
Qed.

Section DictFacts.

Context {V : Type}.
Implicit Types (d : list (string * V)) (k : string) (v : V).

Lemma get_In_keys d k : Dict.get d k <> None <-> In k (Dict.keys d).
Proof.
  induction d as [| [k' v'] d IH]; cbn.
  - split; [congruence | tauto].
  - destruct (String.eqb k' k) eqn:E.
    + apply String.eqb_eq in E. subst. split; [auto | congruence].
    + rewrite IH. apply String.eqb_neq in E. split; [auto | intros [? | ?]; [congruence | auto]].
Qed.

Lemma get_None_keys d k : Dict.get d k = None <-> ~ In k (Dict.keys d).
Proof.
  rewrite <- get_In_keys. destruct (Dict.get d k); split; try congruence.
  intros H. exfalso. apply H. congruence.
Qed.

Lemma get_set_eq d k v : Dict.get (Dict.set k v d) k = Some v.
Proof.
  induction d as [| [k' v'] d IH]; cbn.
  - now rewrite String.eqb_refl.
  - destruct (String.eqb k' k) eqn:E; cbn; now rewrite E.
Qed.

Lemma get_set_ne d k k' v : k <> k' -> Dict.get (Dict.set k v d) k' = Dict.get d k'.
Proof.
  intros Hne. induction d as [| [k0 v0] d IH]; cbn.
  - apply String.eqb_neq in Hne. now rewrite Hne.
  - destruct (String.eqb k0 k) eqn:E; cbn.
    + apply String.eqb_eq in E. subst k0.
      apply String.eqb_neq in Hne. now rewrite Hne.
    + destruct (String.eqb k0 k'); [reflexivity | apply IH].
Qed.

(** Writing a key keeps the order: a known key stays where it is, a new
    one goes last. *)
Lemma keys_set d k v : Dict.keys (Dict.set k v d) = seen_step (Dict.keys d) k.
Proof.
  unfold seen_step. induction d as [| [k' v'] d IH]; cbn; [reflexivity|].
  rewrite (String.eqb_sym k k'). destruct (String.eqb k' k) eqn:E; cbn.
  - reflexivity.
  - fold (Dict.keys (Dict.set k v d)). rewrite IH. fold (Dict.keys d).
    now destruct (existsb (String.eqb k) (Dict.keys d)).
Qed.

Lemma keys_fold_set (l : list (string * V)) d :
  Dict.keys (fold_left (fun d kv => Dict.set (fst kv) (snd kv) d) l d)
  = fold_left seen_step (map fst l) (Dict.keys d).
Proof.
  revert d. induction l as [| [k v] l IH]; intros d; cbn [fold_left map fst snd];
    [reflexivity|].
  now rewrite IH, keys_set.
Qed.

Lemma get_fold_set (l : list (string * V)) d k :
  Dict.get (fold_left (fun d kv => Dict.set (fst kv) (snd kv) d) l d) k
  = match last_value l k with
    | Some v => Some v
    | None => Dict.get d k
    end.
Proof.
  revert d. induction l as [| [k' v'] l IH]; intros d;
    cbn [fold_left last_value fst snd]; [reflexivity|].
  rewrite IH. destruct (last_value l k); [reflexivity|].
  destruct (String.eqb k' k) eqn:E.
  - apply String.eqb_eq in E. subst. apply get_set_eq.
  - apply String.eqb_neq in E. now apply get_set_ne.
Qed.

(** [dict(pairs)]: the keys in the order first met, every key with its
    last value. *)
Lemma keys_of_pairs (l : list (string * V)) :
  Dict.keys (Dict.of_pairs l) = first_seen (map fst l).
Proof. unfold Dict.of_pairs, first_seen. apply keys_fold_set. Qed.

Lemma get_of_pairs (l : list (string * V)) k :
  Dict.get (Dict.of_pairs l) k = last_value l k.
Proof.
  unfold Dict.of_pairs. rewrite get_fold_set. now destruct (last_value l k).
Qed.

End DictFacts.

Lemma seen_fold_NoDup (l seen : list string) :
  List.NoDup seen -> List.NoDup (fold_left seen_step l seen).
Proof.
  revert seen. induction l as [| k l IH]; intros seen H; cbn; [assumption|].
  apply IH. unfold seen_step. destruct (existsb (String.eqb k) seen) eqn:E; [assumption|].
  apply existsb_eqb_not_In in E.
  apply List.NoDup_app; auto.
  - constructor; [intros [] | constructor].
  - intros x Hx [<- | []]. contradiction.
Qed.

Lemma seen_fold_In (l seen : list string) (k : string) :
  In k (fold_left seen_step l seen) <-> In k seen \/ In k l.
Proof.
  revert seen. induction l as [| k' l IH]; intros seen; cbn; [tauto|].
  rewrite IH. unfold seen_step.
  destruct (existsb (String.eqb k') seen) eqn:E.
  - apply existsb_eqb_In in E. split; [tauto|]. intros [? | [<- | ?]]; auto.
  - rewrite in_app_iff. cbn. tauto.
Qed.

Lemma seen_fold_fresh (l seen : list string) :
  List.NoDup (seen ++ l) -> fold_left seen_step l seen = seen ++ l.
Proof.
  revert seen. induction l as [| k l IH]; intros seen H; cbn.
  - now rewrite app_nil_r.
  - assert (~ In k seen) as Hk.
    { apply NoDup_remove_2 in H. rewrite in_app_iff in H. tauto. }
    unfold seen_step. apply existsb_eqb_not_In in Hk. rewrite Hk.
    rewrite IH; rewrite <- app_assoc; [reflexivity | exact H].
Qed.

Lemma seen_fold_length (l seen : list string) :
  length (fold_left seen_step l seen) <= length seen + length l.
Proof.
  revert seen. induction l as [| k l IH]; intros seen; cbn; [lia|].
  etransitivity; [apply IH|]. unfold seen_step.
  destruct (existsb (String.eqb k) seen); [lia|]. rewrite length_app. cbn. lia.
Qed.

Lemma first_seen_NoDup (l : list string) : List.NoDup (first_seen l).
Proof. apply seen_fold_NoDup. constructor. Qed.

Lemma first_seen_In (l : list string) (k : string) : In k (first_seen l) <-> In k l.
Proof. unfold first_seen. rewrite seen_fold_In. cbn. tauto. Qed.

Lemma first_seen_id (l : list string) : List.NoDup l -> first_seen l = l.
Proof. intros H. apply (seen_fold_fresh l []). exact H. Qed.

Lemma first_seen_length (l : list string) : length (first_seen l) <= length l.
Proof. apply (seen_fold_length l []). Qed.

(** The list of first occurrences is as long as the list exactly when
    nothing occurs twice. *)
Lemma first_seen_length_NoDup (l : list string) :
  length (first_seen l) = length l <-> List.NoDup l.
Proof.
  split.
  - intros H. apply (@NoDup_incl_NoDup _ (first_seen l)).
    + apply first_seen_NoDup.
    + lia.
    + intros k. apply first_seen_In.
  - intros H. now rewrite first_seen_id.
Qed.

Lemma of_pairs_NoDup {V} (l : list (string * V)) : List.NoDup (Dict.keys (Dict.of_pairs l)).
Proof. rewrite keys_of_pairs. apply first_seen_NoDup. Qed.

Lemma votes_map_M (cells : list node) (w : World) :
  match all_some (map vote_value cells) with
  | Some vs =>
      map_M (fun votes => py_int (clean_data (PyStr.strip (Soup.get_text votes)) nbsp))
            cells w = (Ret vs, w)
  | None =>
      exists msg,
        map_M (fun votes => py_int (clean_data (PyStr.strip (Soup.get_text votes)) nbsp))
              cells w = (Raise (Exception ValueError msg), w)
  end.
Proof.
  set (f := fun votes => py_int (clean_data (PyStr.strip (Soup.get_text votes)) nbsp)).
  induction cells as [| c cells IH]; cbn [map all_some map_M]; [reflexivity|].
  assert (Hc : f c w = match vote_value c with
                       | Some z => (Ret z, w)
                       | None =>
                           (Raise (Exception ValueError
                                     ("invalid literal for int() with base 10: '"
                                      +:+ clean_data (PyStr.strip (Soup.get_text c)) nbsp
                                      +:+ "'")), w)
                       end).
  { unfold f, py_int, vote_value.
    now destruct (PyStr.int (clean_data (PyStr.strip (Soup.get_text c)) nbsp)). }
  destruct (vote_value c) as [z |].
  - destruct (all_some (map vote_value cells)) as [vs |]; cbn [option_map].
    + ret_step Hc. ret_step IH. reflexivity.
    + destruct IH as [msg IH]. exists msg.
      ret_step Hc. raise_step IH. reflexivity.
  - eexists. raise_step Hc. reflexivity.
Qed.

(** The header loop of both scripts, whatever it prints: it never raises,
    and every header fills its field or leaves it alone. *)
Lemma header_loop_spec (page : node)
      (missing : string -> district_data -> string) (failed : string -> exn -> string)
      (headers : list (count_key * string)) (record : district_data) (w : World) :
  exists lines,
    for_each headers
      (fun kh record =>
         try_except
           (match Soup.find page "td" [("class", ["cislo"]); ("headers", [snd kh])] with
            | Some cell =>
                v <- py_int (clean_data (Soup.get_text cell) nbsp) ;;
                ret (set_count (fst kh) v record)
            | None => print (missing (snd kh) record) ;;; ret record
            end)
           (except_classes [AttributeError; ValueError; KeyError])
           (fun e => print (failed (snd kh) e) ;;; ret record))
      record w
    = (Ret (fold_left (fun r kh => apply_count page kh r) headers record),
       add_lines w lines).
Proof.
  match goal with |- context [for_each _ ?b _ _] => set (body := b) end.
  assert (Hstep : forall kh record w,
             exists lines,
               body kh record w = (Ret (apply_count page kh record), add_lines w lines)).
  { intros kh r w0. unfold body, try_except, apply_count, count_value.
    destruct (Soup.find page "td" [("class", ["cislo"]); ("headers", [snd kh])])
      as [cell |].
    - unfold bind, py_int.
      destruct (PyStr.int (clean_data (Soup.get_text cell) nbsp)) as [z |].
      + exists []. cbn [ret]. now rewrite add_lines_nil.
      + eexists. cbn. reflexivity.
    - eexists. cbn. reflexivity. }
  revert record w. induction headers as [| kh headers IH]; intros record w.
  - exists []. cbn. unfold ret. now rewrite add_lines_nil.
  - cbn [for_each fold_left].
    destruct (Hstep kh record w) as [l1 E1].
    destruct (IH (apply_count page kh record) (add_lines w l1)) as [l2 E2].
    exists (l1 ++ l2). ret_step E1. rewrite E2.
    now rewrite add_lines_app.
Qed.

Lemma V2_headers_spec (page : node) (headers : list (count_key * string))
      (record : district_data) (w : World) :
  exists lines,
    V2.extract_headers_data record page headers "td" "cislo" w
    = (Ret (fold_left (fun r kh => apply_count page kh r) headers record),
       add_lines w lines).
Proof.
  exact (header_loop_spec page
           (fun header record =>
              "WARNING: Data cell not found for header " +:+ header
              +:+ " in district " +:+ location record)
           (fun header error =>
              "ERROR: An error occurred while extracting data for header '"
              +:+ header +:+ "': " +:+ exn_str error)
           headers record w).
Qed.

Lemma counted_headers (page : node) (name : string) (votes : option (list (string * Z))) :
  fold_left (fun r kh => apply_count page kh r) count_headers
            (set_votes votes (set_location name empty_district_data))
  = counted page name votes.
Proof.
  unfold counted, count_headers, apply_count. cbn [fold_left fst snd].
  destruct (count_value page "sa2"), (count_value page "sa3"), (count_value page "sa6");
    reflexivity.
Qed.

Lemma V2_get_district_name_spec (page : node) (w : World) :
  V2.get_district_name page district_selector w = (Ret (heading_name page), w).
Proof.
  unfold V2.get_district_name, heading_name.
  destruct (Soup.select_one page district_selector) as [el |] eqn:E; [| reflexivity].
  destruct (heading_two_fields _ _ E) as (a & name & t & ->). reflexivity.
Qed.

(** The party votes of elections_scraper.py: [None] without party-name
    cells, otherwise the names zipped with the numbers, unless a vote
    cell is no decimal literal. *)
Lemma V2_votes_spec (page : node) (w : World) :
  match party_cells page with
  | [] =>
      V2.get_votes_of_parties page "overflow_name" "cislo" vote_headers "td" w
      = (Ret None, w)
  | _ :: _ =>
      match vote_values page with
      | Some vs =>
          V2.get_votes_of_parties page "overflow_name" "cislo" vote_headers "td" w
          = (Ret (Some (Dict.of_pairs (combine (party_names page) vs))), w)
      | None =>
          exists msg,
            V2.get_votes_of_parties page "overflow_name" "cislo" vote_headers "td" w
            = (Raise (Exception ValueError msg), w)
      end
  end.
Proof.
  unfold V2.get_votes_of_parties, vote_values, party_names.
  fold (party_cells page). fold (vote_cells page).
  destruct (party_cells page) as [| p ps] eqn:E; [reflexivity|].
  unfold try_except_else. cbn [ret].
  pose proof (votes_map_M (vote_cells page) w) as H.
  destruct (all_some (map vote_value (vote_cells page))) as [vs |].
  - now ret_step H.
  - destruct H as [msg H]. exists msg. now raise_step H.
Qed.

(** The party votes of elections-scraper.py: the names zipped with the
    numbers, and the empty dictionary with one message when a vote cell
    is no decimal literal. *)
Lemma V1_votes_spec (page : node) (w : World) :
  match vote_values page with
  | Some vs =>
      V1.get_votes_of_parties page "overflow_name" "cislo" vote_headers "td" w
      = (Ret (Dict.of_pairs (combine (party_names page) vs)), w)
  | None =>
      exists line,
        V1.get_votes_of_parties page "overflow_name" "cislo" vote_headers "td" w
        = (Ret [], add_lines w [line])
  end.
Proof.
  unfold V1.get_votes_of_parties, vote_values, party_names.
  fold (party_cells page). fold (vote_cells page).
  unfold try_except.
  pose proof (votes_map_M (vote_cells page) w) as H.
  destruct (all_some (map vote_value (vote_cells page))) as [vs |].
  - now ret_step H.
  - destruct H as [msg H]. raise_step H.
    cbn [except_Exception]. eexists. reflexivity.
Qed.

(* ===================================================================== *)
(** ** One district *)
(* ===================================================================== *)

Lemma V2_extract_district_data_spec (page : node) (w : World) :
  match heading_name page with
  | Some (String c n) =>
      match V2_votes page with
      | Some votes =>
          exists lines,
            V2.extract_district_data page district_selector "sa2" "sa3" "sa6" "td" "cislo" w
            = (Ret (Some (counted page (String c n) votes)), add_lines w lines)
      | None =>
          exists msg,
            V2.extract_district_data page district_selector "sa2" "sa3" "sa6" "td" "cislo" w
            = (Raise (Exception ValueError msg), w)
      end
  | _ =>
      V2.extract_district_data page district_selector "sa2" "sa3" "sa6" "td" "cislo" w
      = (Ret None, w)
  end.
Proof.
  unfold V2.extract_district_data.
  ret_step (V2_get_district_name_spec page w).
  destruct (heading_name page) as [[| c n] |]; cbn [truthy_opt truthy negb];
    try reflexivity.
  pose proof (V2_votes_spec page w) as Hv. unfold V2_votes.
  destruct (party_cells page) as [| p ps].
  - ret_step Hv.
    destruct (V2_headers_spec page count_headers
                (set_votes None (set_location (String c n) empty_district_data)) w)
      as [lines E].
    exists lines. unfold count_headers in E at 1.
    ret_step E. now rewrite counted_headers.
  - destruct (vote_values page) as [vs |]; cbn [option_map].
    + ret_step Hv.
      destruct (V2_headers_spec page count_headers
                  (set_votes (Some (Dict.of_pairs (combine (party_names page) vs)))
                             (set_location (String c n) empty_district_data)) w)
        as [lines E].
      exists lines. unfold count_headers in E at 1.
      ret_step E. now rewrite counted_headers.
    + destruct Hv as [msg Hv]. exists msg. now raise_step Hv.
Qed.

(** elections_scraper.py, one link whose page is fetched: the step never
    raises, and it adds exactly the entry of the link. *)
Lemma V2_district_step_spec (net : string -> response) (link : string) (page : node)
      (acc : list (string * district_data)) (w : World) :
  net link = Page page ->
  exists lines,
    V2.district_step net district_selector "sa2" "sa3" "sa6" "td" "cislo" link acc w
    = (Ret (add_entry (V2_entry link page) acc), add_lines w lines).
Proof.
  intros Hnet. unfold V2.district_step, try_except, get_soup. rewrite Hnet.
  unfold V2_entry.
  rewrite (bind_ret_eq _ _ w w page eq_refl).
  destruct (get_code_from_url link "xobec") as [code |].
  - pose proof (V2_extract_district_data_spec page w) as Hd.
    destruct (heading_name page) as [[| c n] |].
    + ret_step Hd. exists []. cbn. now rewrite add_lines_nil.
    + destruct (V2_votes page) as [votes |].
      * destruct Hd as [lines Hd]. ret_step Hd.
        exists lines. reflexivity.
      * destruct Hd as [msg Hd]. raise_step Hd.
        cbn. eexists. reflexivity.
    + ret_step Hd. exists []. cbn. now rewrite add_lines_nil.
  - cbn. eexists. reflexivity.
Qed.

(** elections-scraper.py, one link whose page is fetched. *)
Lemma V1_district_step_spec (net : string -> response) (link : string) (page : node)
      (acc : list (string * district_data)) (w : World) :
  net link = Page page ->
  exists lines,
    V1.district_step net district_selector "sa2" "sa3" "sa6" "td" "cislo" link acc w
    = (Ret (add_entry (V1_entry link page) acc), add_lines w lines).
Proof.
  intros Hnet. unfold V1.district_step, get_soup. rewrite Hnet.
  unfold V1_entry, heading_name. unfold try_except at 1.
  rewrite (bind_ret_eq _ _ w w page eq_refl).
  destruct (Soup.select_one page district_selector) as [el |] eqn:Esel.
  - destruct (heading_two_fields _ _ Esel) as (a & name & t & ->).
    cbn [nth_error]. unfold try_except at 1.
    destruct (get_code_from_url link "xobec") as [code |].
    + pose proof (V1_votes_spec page w) as Hv. unfold V1_votes.
      assert (exists w1 lines1,
                 V1.get_votes_of_parties page "overflow_name" "cislo" vote_headers "td" w
                 = (Ret match vote_values page with
                        | Some vs => Dict.of_pairs (combine (party_names page) vs)
                        | None => []
                        end, w1) /\ w1 = add_lines w lines1) as (w1 & lines1 & Hv' & ->).
      { destruct (vote_values page).
        - exists w, []. now rewrite add_lines_nil.
        - destruct Hv as [line Hv]. eauto. }
      ret_step Hv'.
      match goal with |- context [set_votes ?v ?r] =>
        destruct (header_loop_spec page
                    (fun header _ =>
                       "ERROR: Data cell not found for header " +:+ header
                       +:+ " in district " +:+ name)
                    (fun header e =>
                       "ERROR: An error occurred while extracting data for header '"
                       +:+ header +:+ "': " +:+ exn_str e)
                    count_headers (set_votes v r) (add_lines w lines1)) as [lines2 E]
      end.
      unfold count_headers in E at 1.
      ret_step E. rewrite counted_headers.
      exists (lines1 ++ lines2). cbn [ret add_entry]. now rewrite add_lines_app.
    + cbn. eexists. reflexivity.
  - cbn. eexists. reflexivity.
Qed.

(* ===================================================================== *)
(** ** The aggregation loop *)
(* ===================================================================== *)

Lemma bind_print {B} (line : string) (k : unit -> M B) (w : World) :
  bind (print line) k w = k tt (add_lines w [line]).
Proof. reflexivity. Qed.

Lemma bind_ret {A B} (a : A) (k : A -> M B) (w : World) :
  bind (ret a) k w = k a w.
Proof. reflexivity. Qed.

Section Aggregation.

Variable net : string -> response.
Variable step : string -> list (string * district_data) -> M (list (string * district_data)).
Variable entry : string -> node -> option (string * district_data).

Hypothesis step_fetched :
  forall link page acc w,
    net link = Page page ->
    exists lines,
      step link acc w = (Ret (add_entry (entry link page) acc), add_lines w lines).

Hypothesis step_failed :
  forall link class_name message acc w,
    net link = RequestException class_name message ->
    step link acc w
    = (Raise (SystemExit 1), add_lines w [fetch_diagnostic link class_name message]).

Lemma loop_fetched (links : list string) (acc : list (string * district_data))
      (w : World) :
  first_failure net links = None ->
  exists lines,
    for_each links step acc w
    = (Ret (fold_left (fun d kv => Dict.set (fst kv) (snd kv) d)
                      (entries entry net links) acc),
       add_lines w lines).
Proof.
  revert acc w. induction links as [| link links IH]; intros acc w H.
  - exists []. cbn. unfold ret. now rewrite add_lines_nil.
  - cbn [first_failure] in H. unfold entries. cbn [for_each flat_map].
    fold (entries entry net links).
    destruct (net link) as [page |] eqn:E; [| discriminate].
    destruct (step_fetched link page acc w E) as [l1 E1].
    destruct (IH (add_entry (entry link page) acc) (add_lines w l1) H) as [l2 E2].
    exists (l1 ++ l2). ret_step E1. rewrite E2, add_lines_app.
    rewrite fold_left_app. unfold add_entry.
    now destruct (entry link page) as [[code record] |].
Qed.

Lemma loop_failed (links : list string) (acc : list (string * district_data))
      (w : World) (link class_name message : string) :
  first_failure net links = Some (link, class_name, message) ->
  fatal_fetch (for_each links step acc) w link class_name message.
Proof.
  revert acc w. induction links as [| l links IH]; intros acc w H; [discriminate|].
  cbn [first_failure] in H. cbn [for_each].
  destruct (net l) as [page | c m] eqn:E.
  - destruct (step_fetched l page acc w E) as [l1 E1].
    destruct (IH (add_entry (entry l page) acc) (add_lines w l1) H) as [l2 E2].
    exists (l1 ++ l2). ret_step E1. rewrite E2, add_lines_app.
    now rewrite app_assoc.
  - inversion H; subst. exists [].
    now raise_step (step_failed _ _ _ acc w E).
Qed.

End Aggregation.

Lemma V2_district_step_failed (net : string -> response)
      (link class_name message : string) (acc : list (string * district_data))
      (w : World) :
  net link = RequestException class_name message ->
  V2.district_step net district_selector "sa2" "sa3" "sa6" "td" "cislo" link acc w
  = (Raise (SystemExit 1), add_lines w [fetch_diagnostic link class_name message]).
Proof.
  intros H. unfold V2.district_step, try_except, bind, get_soup. rewrite H. reflexivity.
Qed.

Lemma V1_district_step_failed (net : string -> response)
      (link class_name message : string) (acc : list (string * district_data))
      (w : World) :
  net link = RequestException class_name message ->
  V1.district_step net district_selector "sa2" "sa3" "sa6" "td" "cislo" link acc w
  = (Raise (SystemExit 1), add_lines w [fetch_diagnostic link class_name message]).
Proof.
  intros H. unfold V1.district_step, try_except, bind, get_soup. rewrite H. reflexivity.
Qed.

(** The result set of elections_scraper.py when every fetch succeeds. *)
Lemma V2_extract_all_fetched (net : string -> response) (soup : node) (w : World) :
  first_failure net (links_of (index_cells soup)) = None ->
  exists lines,
    V2.extract_all_districts_data net soup w
    = (Ret (Dict.of_pairs (entries V2_entry net (links_of (index_cells soup)))),
       add_lines w lines).
Proof.
  intros H. unfold V2.extract_all_districts_data.
  ret_step (V2_links_spec soup w).
  destruct (loop_fetched net _ V2_entry (V2_district_step_spec net)
              (links_of (index_cells soup)) [] (add_lines w (warnings_of (index_cells soup))) H)
    as [lines E].
  exists (warnings_of (index_cells soup) ++ lines). rewrite E. now rewrite add_lines_app.
Qed.

(** The result set of elections-scraper.py when every cell has a reference
    and every fetch succeeds. *)
Lemma V1_global_data_fetched (net : string -> response) (soup : node) (w : World) :
  Forall (fun c => cell_href c <> None) (index_cells soup) ->
  first_failure net (links_of (index_cells soup)) = None ->
  exists lines,
    V1.global_data net soup w
    = (Ret (Dict.of_pairs (entries V1_entry net (links_of (index_cells soup)))),
       add_lines w lines).
Proof.
  intros Hvalid H. unfold V1.global_data, V1.all_district_links.
  fold (index_cells soup).
  ret_step (V1_link_loop_valid _ [] w Hvalid).
  cbn [app].
  apply (loop_fetched net _ V1_entry (V1_district_step_spec net)); assumption.
Qed.

Lemma V2_extract_all_failed (net : string -> response) (soup : node) (w : World)
      (link class_name message : string) :
  first_failure net (links_of (index_cells soup)) = Some (link, class_name, message) ->
  fatal_fetch (V2.extract_all_districts_data net soup) w link class_name message.
Proof.
  intros H. unfold V2.extract_all_districts_data, fatal_fetch.
  ret_step (V2_links_spec soup w).
  destruct (loop_failed net _ V2_entry (V2_district_step_spec net)
              (V2_district_step_failed net) _ []
              (add_lines w (warnings_of (index_cells soup))) _ _ _ H) as [lines E].
  exists (warnings_of (index_cells soup) ++ lines). rewrite E.
  now rewrite add_lines_app, app_assoc.
Qed.

Lemma V1_global_data_failed (net : string -> response) (soup : node) (w : World)
      (link class_name message : string) :
  Forall (fun c => cell_href c <> None) (index_cells soup) ->
  first_failure net (links_of (index_cells soup)) = Some (link, class_name, message) ->
  fatal_fetch (V1.global_data net soup) w link class_name message.
Proof.
  intros Hvalid H. unfold V1.global_data, V1.all_district_links, fatal_fetch.
  fold (index_cells soup).
  ret_step (V1_link_loop_valid _ [] w Hvalid).
  cbn [app].
  apply (loop_failed net _ V1_entry (V1_district_step_spec net)
                     (V1_district_step_failed net)); assumption.
Qed.

(** C5.  A fetch that fails, of the index page or of a district page, ends
    the run: the last line printed is the diagnostic, which names the URL,
    the class of the error and its message, and the process exits with
    status 1.  The handler around a link does not stop it, although it
    turns every other outcome of a link into a normal return. *)
Theorem fetch_failure_is_fatal
        (net : string -> response) (url filename : string) (w : World)
        (failed class_name message : string) :
  first_failed_fetch net url = Some (failed, class_name, message) ->
  fatal_fetch (V2.elections_scraper net url filename) w failed class_name message
  /\ ((forall soup, net url = Page soup ->
                    Forall (fun c => cell_href c <> None) (index_cells soup)) ->
      fatal_fetch (V1.elections_scraper net url filename) w failed class_name message)
  /\ exit_status (@Raise unit (SystemExit 1)) <> 0%Z
  /\ (forall link page acc w0,
         net link = Page page ->
         (exists acc' w',
             V2.district_step net district_selector "sa2" "sa3" "sa6" "td" "cislo"
                              link acc w0 = (Ret acc', w'))
         /\ (exists acc' w',
                V1.district_step net district_selector "sa2" "sa3" "sa6" "td" "cislo"
                                 link acc w0 = (Ret acc', w'))).
Proof.
  intros H. unfold first_failed_fetch in H.
  split; [| split; [| split]].
  - unfold V2.elections_scraper, fatal_fetch.
    rewrite bind_print. unfold get_soup.
    destruct (net url) as [soup | c m] eqn:E.
    + rewrite bind_ret.
      destruct (V2_extract_all_failed net soup
                  (add_lines w ["DOWNLOADING DATA FROM THE SELECTED URL: '" +:+ url +:+ "'"])
                  _ _ _ H) as [lines E1].
      raise_step E1. eexists. rewrite add_lines_app.
      now rewrite app_assoc.
    + inversion H; subst. eexists [_]. unfold bind, print, raise.
      now rewrite add_lines_app.
  - intros Hvalid. unfold V1.elections_scraper, fatal_fetch.
    rewrite bind_print. unfold get_soup.
    destruct (net url) as [soup | c m] eqn:E.
    + rewrite bind_ret.
      destruct (V1_global_data_failed net soup
                  (add_lines w ["DOWNLOADING DATA FROM THE SELECTED URL: '" +:+ url +:+ "'"])
                  _ _ _ (Hvalid soup eq_refl) H) as [lines E1].
      raise_step E1. eexists. rewrite add_lines_app.
      now rewrite app_assoc.
    + inversion H; subst. eexists [_]. unfold bind, print, raise.
      now rewrite add_lines_app.
  - cbn. discriminate.
  - intros link page acc w0 Hp. split.
    + destruct (V2_district_step_spec net link page acc w0 Hp) as [lines E]. eauto.
    + destruct (V1_district_step_spec net link page acc w0 Hp) as [lines E]. eauto.
Qed.

(** Only the index page can be fetched: the first district ends the run. *)
Lemma fetch_failure_is_fatal_witness :
  first_failed_fetch Cases.net_index_only Cases.index_url
  = Some (Cases.praha_link, "ConnectionError", "no route to host")
  /\ fatal_fetch (V2.elections_scraper Cases.net_index_only Cases.index_url "Praha")
                 initial_world Cases.praha_link "ConnectionError" "no route to host".
Proof.
  split; [reflexivity |].
  exact (proj1 (fetch_failure_is_fatal Cases.net_index_only Cases.index_url "Praha"
                  initial_world Cases.praha_link "ConnectionError" "no route to host"
                  eq_refl)).
Defined.

(* ===================================================================== *)
(** ** C1: which districts enter the result set *)
(* ===================================================================== *)

(** C1, as amended.  For a fetched district page on which the extraction
    of the party votes raises nothing: elections_scraper.py adds a record
    exactly when the link carries a district code and the heading gives a
    name that is not empty; elections-scraper.py adds one exactly when the
    link carries a code and the heading is found.  In both, each of the
    three counts is the number of its cell, and null when the cell is
    missing or holds no number; the other fields of the record are not
    affected. *)
Theorem record_inserted_iff
        (net : string -> response) (link : string) (page : node)
        (votes : option (list (string * Z)))
        (acc : list (string * district_data)) (w : World) :
  net link = Page page ->
  V2_votes page = Some votes ->
  (exists lines,
      V2.district_step net district_selector "sa2" "sa3" "sa6" "td" "cislo" link acc w
      = (Ret match get_code_from_url link "xobec", heading_name page with
             | Some code, Some (String c n) =>
                 Dict.set code
                          {| location := String c n;
                             political_parties_votes := votes;
                             count_registered := count_value page "sa2";
                             count_envelopes := count_value page "sa3";
                             count_valid := count_value page "sa6" |}
                          acc
             | _, _ => acc
             end,
         add_lines w lines))
  /\ (exists lines,
         V1.district_step net district_selector "sa2" "sa3" "sa6" "td" "cislo" link acc w
         = (Ret match get_code_from_url link "xobec", heading_name page with
                | Some code, Some name =>
                    Dict.set code
                             {| location := name;
                                political_parties_votes := Some (V1_votes page);
                                count_registered := count_value page "sa2";
                                count_envelopes := count_value page "sa3";
                                count_valid := count_value page "sa6" |}
                             acc
                | _, _ => acc
                end,
            add_lines w lines)).
Proof.
  intros Hnet Hvotes. split.
  - destruct (V2_district_step_spec net link page acc w Hnet) as [lines E].
    exists lines. rewrite E. unfold V2_entry. rewrite Hvotes.
    destruct (get_code_from_url link "xobec"); [| reflexivity].
    now destruct (heading_name page) as [[| c n] |].
  - destruct (V1_district_step_spec net link page acc w Hnet) as [lines E].
    exists lines. rewrite E. unfold V1_entry.
    destruct (heading_name page); destruct (get_code_from_url link "xobec"); reflexivity.
Qed.

(** The page without the cell of the registered voters: the record is
    there, the count is null, everything else is filled. *)
Lemma record_inserted_iff_witness :
  Cases.net_of Cases.two_districts Cases.no_registered Cases.praha_link
  = Page Cases.no_registered
  /\ V2_votes Cases.no_registered = Some (Some [("A", 10%Z); ("B", 3%Z)])
  /\ exists lines,
      V2.district_step (Cases.net_of Cases.two_districts Cases.no_registered)
                       district_selector "sa2" "sa3" "sa6" "td" "cislo"
                       Cases.praha_link [] initial_world
      = (Ret [("554782",
               {| location := " Praha";
                  political_parties_votes := Some [("A", 10%Z); ("B", 3%Z)];
                  count_registered := None;
                  count_envelopes := Some 145%Z;
                  count_valid := Some 144%Z |})],
         add_lines initial_world lines).
Proof.
  split; [reflexivity |]. split; [reflexivity |].
  exact (proj1 (record_inserted_iff
                  (Cases.net_of Cases.two_districts Cases.no_registered)
                  Cases.praha_link Cases.no_registered
                  (Some [("A", 10%Z); ("B", 3%Z)]) [] initial_world
                  eq_refl eq_refl)).
Defined.

(** The claim as stated fails in elections_scraper.py: the link carries a
    code and the heading is found, but its name is empty and no record is
    added. *)
Lemma heading_found_no_record :
  get_code_from_url Cases.praha_link "xobec" = Some "554782"
  /\ Soup.select_one Cases.nameless district_selector
     = Some (Sample.heading "Obec:")
  /\ V2.district_step (Cases.net_of Cases.two_districts Cases.nameless)
                      district_selector "sa2" "sa3" "sa6" "td" "cislo"
                      Cases.praha_link [] initial_world
     = (Ret [], initial_world).
Proof. repeat split; vm_compute; reflexivity. Qed.

(** So does a page with a vote cell that is no number: the handler of the
    link takes the [ValueError] and drops the district. *)
Example bad_vote_no_record :
  fst (V2.district_step (Cases.net_of Cases.two_districts Cases.bad_vote)
                        district_selector "sa2" "sa3" "sa6" "td" "cislo"
                        Cases.praha_link [] initial_world)
  = Ret []
  /\ fst (V1.district_step (Cases.net_of Cases.two_districts Cases.bad_vote)
                           district_selector "sa2" "sa3" "sa6" "td" "cislo"
                           Cases.praha_link [] initial_world)
     = Ret [("554782",
             {| location := " Praha";
                political_parties_votes := Some [];
                count_registered := Some 205%Z;
                count_envelopes := Some 145%Z;
                count_valid := Some 144%Z |})].
Proof. split; vm_compute; reflexivity. Qed.

(* ===================================================================== *)
(** ** C6: the location name *)
(* ===================================================================== *)

(** C6, as amended.  When the fixed selector finds a heading, the name is
    the part of the stripped text of the heading between its first colon
    and the next colon, or the end of the text when there is no other
    colon.  The text is stripped as a whole, before it is split: the white
    space that follows the colon stays in the name. *)
Theorem location_name_field (page el : node) (w : World) :
  Soup.select_one page district_selector = Some el ->
  exists name before rest,
    V2.get_district_name page district_selector w = (Ret (Some name), w)
    /\ heading_name page = Some name
    /\ PyStr.strip (Soup.get_text el) = before +:+ ":" +:+ name +:+ rest
    /\ PyStr.contains_char ":" before = false
    /\ PyStr.contains_char ":" name = false
    /\ (rest = EmptyString \/ exists r, rest = ":" +:+ r).
Proof.
  intros H. destruct (heading_two_fields _ _ H) as (a & name & t & E).
  destruct (split_second _ _ _ _ _ E) as (rest & Hs & Ha & Hn & Hr).
  exists name, a, rest.
  assert (heading_name page = Some name) as Hh.
  { unfold heading_name. now rewrite H, E. }
  repeat split; auto.
  now rewrite V2_get_district_name_spec, Hh.
Qed.

Lemma location_name_field_witness :
  Soup.select_one Cases.brno district_selector = Some (Sample.heading "Obec: Brno")
  /\ exists name before rest,
      V2.get_district_name Cases.brno district_selector initial_world
      = (Ret (Some name), initial_world)
      /\ heading_name Cases.brno = Some name
      /\ PyStr.strip (Soup.get_text (Sample.heading "Obec: Brno"))
         = before +:+ ":" +:+ name +:+ rest
      /\ PyStr.contains_char ":" before = false
      /\ PyStr.contains_char ":" name = false
      /\ (rest = EmptyString \/ exists r, rest = ":" +:+ r).
Proof.
  split; [reflexivity |].
  exact (location_name_field Cases.brno (Sample.heading "Obec: Brno") initial_world eq_refl).
Defined.

(** The claim as stated fails on the heading the site serves: the name
    keeps the space after the colon. *)
Lemma name_keeps_leading_space :
  Soup.select_one Cases.praha district_selector
  = Some (Sample.heading (newline +:+ "Obec: Praha" +:+ newline))
  /\ V2.get_district_name Cases.praha district_selector initial_world
     = (Ret (Some " Praha"), initial_world)
  /\ name_after_colon (newline +:+ "Obec: Praha" +:+ newline) = Some "Praha".
Proof. repeat split; vm_compute; reflexivity. Qed.

(* ===================================================================== *)
(** ** C10: zipping party names and vote counts *)
(* ===================================================================== *)

Lemma all_some_length {A} (l : list (option A)) (vs : list A) :
  all_some l = Some vs -> length vs = length l.
Proof.
  revert vs. induction l as [| [x |] l IH]; intros vs H; cbn in H.
  - now inversion H.
  - destruct (all_some l) as [vs' |]; [| discriminate].
    inversion H; subst. cbn. now rewrite (IH vs' eq_refl).
  - discriminate.
Qed.

(** C10, as amended.  When every vote cell holds a number, the names are
    zipped with the numbers: there are as many pairs as the shorter of
    the two lists of cells has elements, the names beyond the vote cells
    are dropped and nothing is printed, and a name that occurs twice keeps
    its last number.  (elections_scraper.py returns [None] instead when
    there is no party-name cell.)  When a vote cell holds no number,
    elections-scraper.py zips nothing: it prints a message and returns the
    empty dictionary. *)
Theorem party_votes_zipped (page : node) (w : World) :
  (forall vs,
      vote_values page = Some vs ->
      V1.get_votes_of_parties page "overflow_name" "cislo" vote_headers "td" w
      = (Ret (Dict.of_pairs (combine (party_names page) vs)), w)
      /\ V2.get_votes_of_parties page "overflow_name" "cislo" vote_headers "td" w
         = (Ret match party_cells page with
                | [] => None
                | _ :: _ => Some (Dict.of_pairs (combine (party_names page) vs))
                end, w)
      /\ length (combine (party_names page) vs)
         = Nat.min (length (party_cells page)) (length (vote_cells page))
      /\ forall name,
          Dict.get (Dict.of_pairs (combine (party_names page) vs)) name
          = last_value (combine (party_names page) vs) name)
  /\ (vote_values page = None ->
      exists line,
        V1.get_votes_of_parties page "overflow_name" "cislo" vote_headers "td" w
        = (Ret [], add_lines w [line])).
Proof.
  pose proof (V1_votes_spec page w) as H1.
  pose proof (V2_votes_spec page w) as H2.
  split.
  - intros vs Hvs. rewrite Hvs in H1, H2. repeat split.
    + exact H1.
    + now destruct (party_cells page).
    + rewrite length_combine. unfold party_names. rewrite length_map.
      unfold vote_values in Hvs. apply all_some_length in Hvs.
      rewrite length_map in Hvs. now rewrite Hvs.
    + intros name. apply get_of_pairs.
  - intros Hvs. now rewrite Hvs in H1.
Qed.

(** Three names and two numbers, one name twice. *)
Lemma party_votes_zipped_witness :
  vote_values (Sample.district_page ["Obec: Praha"] [] ["A"; "B"; "A"; "C"] ["1"; "2"; "3"])
  = Some [1%Z; 2%Z; 3%Z]
  /\ V1.get_votes_of_parties
       (Sample.district_page ["Obec: Praha"] [] ["A"; "B"; "A"; "C"] ["1"; "2"; "3"])
       "overflow_name" "cislo" vote_headers "td" initial_world
     = (Ret [("A", 3%Z); ("B", 2%Z)], initial_world).
Proof.
  split; [reflexivity |].
  exact (proj1 (proj1 (party_votes_zipped
                         (Sample.district_page ["Obec: Praha"] []
                                               ["A"; "B"; "A"; "C"] ["1"; "2"; "3"])
                         initial_world) [1%Z; 2%Z; 3%Z] eq_refl)).
Defined.

(** The claim as stated fails: two names, two vote cells of which one holds
    a number, so one pair by the claim; elections-scraper.py returns the
    empty dictionary. *)
Lemma one_bad_vote_voids_all :
  Nat.min (length (party_cells Cases.bad_vote))
          (length (parsed_vote_cells Cases.bad_vote)) = 1
  /\ fst (V1.get_votes_of_parties Cases.bad_vote "overflow_name" "cislo"
                                  vote_headers "td" initial_world)
     = Ret [].
Proof. split; vm_compute; reflexivity. Qed.

(** On the same page elections_scraper.py raises. *)
Example one_bad_vote_raises :
  fst (V2.get_votes_of_parties Cases.bad_vote "overflow_name" "cislo"
                               vote_headers "td" initial_world)
  = Raise (Exception ValueError "invalid literal for int() with base 10: 'x'").
Proof. vm_compute. reflexivity. Qed.

(* ===================================================================== *)
(** ** C8: the size of the result set *)
(* ===================================================================== *)

Lemma links_of_length (cells : list node) :
  Forall (fun c => cell_href c <> None) cells ->
  length (links_of cells) = length cells.
Proof.
  induction 1 as [| c cells Hc _ IH]; [reflexivity|].
  unfold links_of. cbn [flat_map]. fold (links_of cells).
  destruct (cell_href c); [| congruence]. cbn. now rewrite IH.
Qed.

Section Entries.

Variable net : string -> response.
Variable entry : string -> node -> option (string * district_data).

(** An entry is keyed by the code of its link. *)
Hypothesis entry_code :
  forall link page code record,
    entry link page = Some (code, record) ->
    get_code_from_url link "xobec" = Some code.

Lemma entries_codes (links : list string) :
  Forall (fun link => exists page, net link = Page page /\ entry link page <> None)
         links ->
  map fst (entries entry net links) = codes_of links
  /\ length (codes_of links) = length links.
Proof.
  induction 1 as [| link links (page & Hp & He) _ [IH1 IH2]]; [now split|].
  unfold entries, codes_of. cbn [flat_map].
  fold (entries entry net links). fold (codes_of links).
  rewrite Hp. destruct (entry link page) as [[code record] |] eqn:E; [| congruence].
  rewrite (entry_code _ _ _ _ E). cbn. now rewrite IH1, IH2.
Qed.

End Entries.

Lemma V2_entry_code (link : string) (page : node) (code : string) (record : district_data) :
  V2_entry link page = Some (code, record) -> get_code_from_url link "xobec" = Some code.
Proof.
  unfold V2_entry. destruct (get_code_from_url link "xobec"); [| discriminate].
  destruct (heading_name page) as [[| c n] |]; try discriminate.
  destruct (V2_votes page); [| discriminate]. now inversion 1.
Qed.

Lemma V1_entry_code (link : string) (page : node) (code : string) (record : district_data) :
  V1_entry link page = Some (code, record) -> get_code_from_url link "xobec" = Some code.
Proof.
  unfold V1_entry. destruct (heading_name page); [| discriminate].
  destruct (get_code_from_url link "xobec"); [| discriminate]. now inversion 1.
Qed.

Lemma Forall_no_failure (net : string -> response) (links : list string) :
  Forall (fetched net) links -> first_failure net links = None.
Proof.
  induction 1 as [| link links [page Hp] _ IH]; [reflexivity|].
  cbn. now rewrite Hp.
Qed.

(** What the two loops have in common once every link has an entry. *)
Lemma result_set_of_entries
      (net : string -> response)
      (entry : string -> node -> option (string * district_data))
      (cells : list node) :
  (forall link page code record,
      entry link page = Some (code, record) ->
      get_code_from_url link "xobec" = Some code) ->
  Forall (fun c => cell_href c <> None) cells ->
  Forall (fun link => exists page, net link = Page page /\ entry link page <> None)
         (links_of cells) ->
  let data := Dict.of_pairs (entries entry net (links_of cells)) in
  Dict.keys data = first_seen (codes_of (links_of cells))
  /\ (length data = length cells <-> List.NoDup (codes_of (links_of cells)))
  /\ forall code, Dict.get data code = last_value (entries entry net (links_of cells)) code.
Proof.
  intros Hcode Hvalid Hall data.
  destruct (entries_codes net entry Hcode _ Hall) as [Hc Hl].
  assert (Dict.keys data = first_seen (codes_of (links_of cells))) as Hk.
  { unfold data. now rewrite keys_of_pairs, Hc. }
  repeat split.
  - exact Hk.
  - intros H. apply first_seen_length_NoDup.
    rewrite <- Hk. unfold Dict.keys. rewrite length_map, H, Hl.
    now rewrite links_of_length.
  - intros H. apply first_seen_length_NoDup in H.
    rewrite <- Hk in H. unfold Dict.keys in H. rewrite length_map in H.
    now rewrite H, Hl, links_of_length.
  - intros code. apply get_of_pairs.
Qed.

(** C8, as amended.  Take an index page all of whose N cells have a
    reference, and suppose every district page is fetched, every link
    carries a code, every heading gives a name that is not empty and the
    extraction of the party votes raises nothing.  Then the result set
    holds one entry per distinct code, in the order the codes are first
    met; it has N entries exactly when no code repeats, and a code that
    repeats keeps the record written last.  This holds for both
    scripts. *)
Theorem result_set_size (net : string -> response) (soup : node) (w : World) :
  Forall (fun c => cell_href c <> None) (index_cells soup) ->
  Forall (fun link =>
            exists page code c n votes,
              net link = Page page
              /\ get_code_from_url link "xobec" = Some code
              /\ heading_name page = Some (String c n)
              /\ V2_votes page = Some votes)
         (links_of (index_cells soup)) ->
  (exists data lines,
      V2.extract_all_districts_data net soup w = (Ret data, add_lines w lines)
      /\ Dict.keys data = first_seen (codes_of (links_of (index_cells soup)))
      /\ (length data = length (index_cells soup)
          <-> List.NoDup (codes_of (links_of (index_cells soup))))
      /\ forall code,
          Dict.get data code
          = last_value (entries V2_entry net (links_of (index_cells soup))) code)
  /\ (exists data lines,
         V1.global_data net soup w = (Ret data, add_lines w lines)
         /\ Dict.keys data = first_seen (codes_of (links_of (index_cells soup)))
         /\ (length data = length (index_cells soup)
             <-> List.NoDup (codes_of (links_of (index_cells soup))))
         /\ forall code,
             Dict.get data code
             = last_value (entries V1_entry net (links_of (index_cells soup))) code).
Proof.
  intros Hvalid Hall.
  assert (first_failure net (links_of (index_cells soup)) = None) as Hfetch.
  { apply Forall_no_failure. eapply List.Forall_impl; [| exact Hall].
    intros link (page & _ & _ & _ & _ & Hp & _). now exists page. }
  split.
  - destruct (V2_extract_all_fetched net soup w Hfetch) as [lines E].
    eexists. exists lines. split; [exact E |].
    apply (result_set_of_entries net V2_entry (index_cells soup) V2_entry_code Hvalid).
    eapply List.Forall_impl; [| exact Hall].
    intros link (page & code & c & n & votes & Hp & Hc & Hn & Hv).
    exists page. split; [exact Hp |]. unfold V2_entry. rewrite Hc, Hn, Hv. discriminate.
  - destruct (V1_global_data_fetched net soup w Hvalid Hfetch) as [lines E].
    eexists. exists lines. split; [exact E |].
    apply (result_set_of_entries net V1_entry (index_cells soup) V1_entry_code Hvalid).
    eapply List.Forall_impl; [| exact Hall].
    intros link (page & code & c & n & votes & Hp & Hc & Hn & Hv).
    exists page. split; [exact Hp |]. unfold V1_entry. rewrite Hc, Hn. discriminate.
Qed.

Lemma two_districts_ok :
  Forall (fun link =>
            exists page code c n votes,
              Cases.net_two link = Page page
              /\ get_code_from_url link "xobec" = Some code
              /\ heading_name page = Some (String c n)
              /\ V2_votes page = Some votes)
         (links_of (index_cells Cases.two_districts)).
Proof.
  repeat constructor.
  - exists Cases.praha, "554782", " "%char, "Praha", (Some [("A", 10%Z); ("B", 3%Z)]).
    repeat split; reflexivity.
  - exists Cases.brno, "582786", " "%char, "Brno", (Some [("A", 7%Z); ("B", 0%Z)]).
    repeat split; reflexivity.
Defined.

Lemma result_set_size_witness :
  exists data lines,
    V2.extract_all_districts_data Cases.net_two Cases.two_districts initial_world
    = (Ret data, add_lines initial_world lines)
    /\ Dict.keys data = ["554782"; "582786"].
Proof.
  destruct (proj1 (result_set_size Cases.net_two Cases.two_districts initial_world
                     ltac:(repeat constructor; discriminate) two_districts_ok))
    as (data & lines & E & Hk & _).
  exists data, lines. split; [exact E | exact Hk].
Defined.

(** The claim as stated fails: two cells with a reference, no warning,
    and one entry, because both links carry the same code. *)
Lemma same_code_one_entry :
  length (index_cells Cases.twice) = 2
  /\ Forall (fun c => cell_href c <> None) (index_cells Cases.twice)
  /\ exists data,
      V2.extract_all_districts_data (Cases.net_of Cases.twice Cases.praha)
                                    Cases.twice initial_world
      = (Ret data, initial_world)
      /\ length data = 1.
Proof.
  split; [reflexivity |]. split; [repeat constructor; discriminate |].
  eexists. split; [vm_compute; reflexivity | reflexivity].
Qed.

(* ===================================================================== *)
(** ** C7: totals and the ten largest *)
(* ===================================================================== *)

Section Sorting.

Lemma insert_desc_perm (x : string * Z) (l : list (string * Z)) :
  Permutation (insert_desc x l) (x :: l).
Proof.
  induction l as [| y l IH]; cbn; [reflexivity|].
  destruct (snd y <=? snd x)%Z; [reflexivity|].
  rewrite IH. apply perm_swap.
Qed.

Lemma sorted_perm (l : list (string * Z)) : Permutation (sorted_by_value_desc l) l.
Proof.
  induction l as [| x l IH]; cbn; [reflexivity|].
  now rewrite insert_desc_perm, IH.
Qed.

Lemma insert_desc_sorted (x : string * Z) (l : list (string * Z)) :
  Sorted by_total_desc l -> Sorted by_total_desc (insert_desc x l).
Proof.
  induction l as [| y l IH]; intros Hs; cbn.
  - repeat constructor.
  - destruct (snd y <=? snd x)%Z eqn:E.
    + constructor; [assumption|]. constructor. unfold by_total_desc. lia.
    + inversion Hs as [| ? ? Hl Hhd]; subst. constructor; [now apply IH|].
      destruct l as [| z l]; cbn.
      * constructor. unfold by_total_desc. lia.
      * destruct (snd z <=? snd x)%Z.
        -- constructor. unfold by_total_desc. lia.
        -- constructor. now inversion Hhd.
Qed.

Lemma sorted_sorted (l : list (string * Z)) :
  StronglySorted by_total_desc (sorted_by_value_desc l).
Proof.
  apply Sorted_StronglySorted.
  - intros x y z Hxy Hyz. unfold by_total_desc in *. lia.
  - induction l as [| x l IH]; cbn; [constructor | now apply insert_desc_sorted].
Qed.

(** An item goes in front of the items it ties with. *)
Lemma insert_desc_with_total (x : string * Z) (l : list (string * Z)) (v : Z) :
  with_total v (insert_desc x l)
  = if (snd x =? v)%Z then x :: with_total v l else with_total v l.
Proof.
  unfold with_total. induction l as [| y l IH]; cbn; [reflexivity|].
  destruct (snd y <=? snd x)%Z eqn:E; cbn; [reflexivity|].
  rewrite IH. destruct (snd x =? v)%Z eqn:Ex; [| reflexivity].
  destruct (snd y =? v)%Z eqn:Ey; [lia | reflexivity].
Qed.

(** The sort is stable: items of equal total keep their order. *)
Lemma sorted_stable (l : list (string * Z)) (v : Z) :
  with_total v (sorted_by_value_desc l) = with_total v l.
Proof.
  induction l as [| x l IH]; [reflexivity|].
  unfold sorted_by_value_desc. cbn [fold_right]. fold (sorted_by_value_desc l).
  rewrite insert_desc_with_total, IH. unfold with_total. cbn.
  now destruct (snd x =? v)%Z.
Qed.

(** What is cut off is not larger than what is kept. *)
Lemma firstn_dominates (n : nat) (l : list (string * Z)) (x y : string * Z) :
  StronglySorted by_total_desc l ->
  In x (firstn n l) -> In y (skipn n l) -> (snd y <= snd x)%Z.
Proof.
  revert l. induction n as [| n IH]; intros l Hs Hx Hy; [destruct Hx|].
  destruct l as [| z l]; [destruct Hx|].
  inversion Hs as [| ? ? Hl Hall]; subst. cbn in Hx, Hy.
  destruct Hx as [<- | Hx].
  - rewrite List.Forall_forall in Hall. apply Hall.
    rewrite <- (firstn_skipn n l). apply in_or_app. now right.
  - now apply (IH l).
Qed.

End Sorting.

Lemma bind_ret_l {A B} (a : A) (k : A -> M B) : bind (ret a) k = k a.
Proof. reflexivity. Qed.

Section Totals.

Lemma set_fresh {V} (d : list (string * V)) (k : string) (v : V) :
  ~ In k (Dict.keys d) -> Dict.set k v d = d ++ [(k, v)].
Proof.
  induction d as [| [k' v'] d IH]; cbn; intros H; [reflexivity|].
  destruct (String.eqb k' k) eqn:E.
  - apply String.eqb_eq in E. tauto.
  - rewrite IH; [reflexivity | tauto].
Qed.

(** A list of pairs with distinct keys is the dictionary it builds. *)
Lemma fold_set_fresh {V} (l d : list (string * V)) :
  List.NoDup (Dict.keys (d ++ l)) ->
  fold_left (fun d kv => Dict.set (fst kv) (snd kv) d) l d = d ++ l.
Proof.
  revert d. induction l as [| [k v] l IH]; intros d H; cbn [fold_left fst snd].
  - now rewrite app_nil_r.
  - unfold Dict.keys in H. rewrite map_app in H. cbn in H.
    assert (~ In k (Dict.keys d)) as Hk.
    { apply NoDup_remove_2 in H. rewrite in_app_iff in H. tauto. }
    rewrite (set_fresh d k v Hk). rewrite IH; rewrite <- app_assoc; [reflexivity|].
    unfold Dict.keys. now rewrite map_app.
Qed.

Lemma of_pairs_id {V} (l : list (string * V)) :
  List.NoDup (Dict.keys l) -> Dict.of_pairs l = l.
Proof. intros H. apply (fold_set_fresh l []). exact H. Qed.

Lemma get_sum_for (v : list (string * Z)) (party : string) :
  List.NoDup (Dict.keys v) ->
  sum_for party v = match Dict.get v party with Some z => z | None => 0%Z end.
Proof.
  induction v as [| [k z] v IH]; intros H; [reflexivity|].
  unfold sum_for. cbn [fold_right Dict.get fst snd]. fold (sum_for party v).
  inversion H as [| ? ? Hk Hv]; subst. rewrite (IH Hv).
  destruct (String.eqb k party) eqn:E; [| reflexivity].
  apply String.eqb_eq in E. subst.
  apply get_None_keys in Hk. rewrite Hk. lia.
Qed.

Lemma sum_for_app (party : string) (l1 l2 : list (string * Z)) :
  sum_for party (l1 ++ l2) = (sum_for party l1 + sum_for party l2)%Z.
Proof.
  induction l1 as [| [k z] l1 IH]; [reflexivity|].
  unfold sum_for. cbn [fold_right app fst snd].
  fold (sum_for party (l1 ++ l2)). fold (sum_for party l1).
  fold (sum_for party l2). rewrite IH.
  destruct (String.eqb k party); lia.
Qed.

Lemma get0_add_votes (pv : string * Z) (acc : list (string * Z)) (party : string) :
  get0 (add_votes pv acc) party
  = (get0 acc party + (if String.eqb (fst pv) party then snd pv else 0))%Z.
Proof.
  unfold get0, add_votes. destruct (String.eqb (fst pv) party) eqn:E.
  - apply String.eqb_eq in E. subst. rewrite get_set_eq. reflexivity.
  - apply String.eqb_neq in E. rewrite get_set_ne by assumption. lia.
Qed.

Lemma keys_add_votes (pv : string * Z) (acc : list (string * Z)) :
  Dict.keys (add_votes pv acc) = seen_step (Dict.keys acc) (fst pv).
Proof. unfold add_votes. apply keys_set. Qed.

(** The inner loop: the totals after the items of one district. *)
Lemma add_items (its acc : list (string * Z)) (w : World) :
  for_each its (fun pv acc => ret (add_votes pv acc)) acc w
  = (Ret (fold_left (fun a pv => add_votes pv a) its acc), w).
Proof.
  revert acc. induction its as [| pv its IH]; intros acc; cbn [for_each fold_left].
  - reflexivity.
  - rewrite bind_ret. apply IH.
Qed.

Lemma fold_add_votes (its acc : list (string * Z)) :
  Dict.keys (fold_left (fun a pv => add_votes pv a) its acc)
  = fold_left seen_step (map fst its) (Dict.keys acc)
  /\ forall party,
      get0 (fold_left (fun a pv => add_votes pv a) its acc) party
      = (get0 acc party + sum_for party its)%Z.
Proof.
  revert acc. induction its as [| pv its IH]; intros acc; cbn [fold_left map].
  - split; [reflexivity|]. intros party. cbn. lia.
  - destruct (IH (add_votes pv acc)) as [Hk Hg]. split.
    + now rewrite Hk, keys_add_votes.
    + intros party. rewrite Hg, get0_add_votes. cbn [sum_for fold_right].
      fold (sum_for party its). destruct (String.eqb (fst pv) party); lia.
Qed.

(** The outer loop, when every record carries a dictionary. *)
Lemma sum_party_votes_loop (ds : list district_data) (acc : list (string * Z))
      (w : World) :
  Forall (fun d => political_parties_votes d <> None) ds ->
  for_each ds
           (fun district party_votes =>
              its <- items (political_parties_votes district) ;;
              for_each its (fun pv acc => ret (add_votes pv acc)) party_votes)
           acc w
  = (Ret (fold_left (fun a pv => add_votes pv a)
                    (flat_map (fun d => match political_parties_votes d with
                                        | Some v => v
                                        | None => []
                                        end) ds) acc), w).
Proof.
  intros H. revert acc. induction H as [| d ds Hd _ IH]; intros acc.
  - reflexivity.
  - cbn [for_each flat_map]. rewrite fold_left_app.
    destruct (political_parties_votes d) as [v |]; [| congruence].
    cbn [items]. rewrite bind_ret_l.
    ret_step (add_items v acc w). apply IH.
Qed.

(** A record without a dictionary stops the chart. *)
Lemma sum_party_votes_None (ds1 ds2 : list district_data) (d : district_data)
      (acc : list (string * Z)) (w : World) :
  Forall (fun d => political_parties_votes d <> None) ds1 ->
  political_parties_votes d = None ->
  for_each (ds1 ++ d :: ds2)
           (fun district party_votes =>
              its <- items (political_parties_votes district) ;;
              for_each its (fun pv acc => ret (add_votes pv acc)) party_votes)
           acc w
  = (Raise (Exception AttributeError "'NoneType' object has no attribute 'items'"), w).
Proof.
  intros H1 Hd. rewrite for_each_app, (sum_party_votes_loop ds1 acc w H1).
  cbn [for_each]. rewrite Hd. reflexivity.
Qed.

Lemma sum_for_districts (party : string) (ds : list district_data) :
  Forall has_votes ds ->
  sum_for party (flat_map (fun d => match political_parties_votes d with
                                    | Some v => v
                                    | None => []
                                    end) ds)
  = fold_right (fun d acc => (votes_in party d + acc)%Z) 0%Z ds.
Proof.
  induction 1 as [| d ds (v & Hv & Hnd) _ IH]; [reflexivity|].
  assert (votes_in party d = sum_for party v) as Hd.
  { unfold votes_in. rewrite Hv. symmetry. now apply get_sum_for. }
  cbn [flat_map fold_right]. now rewrite Hv, sum_for_app, IH, Hd.
Qed.

Lemma sum_for_all_items (party : string) (data : list (string * district_data)) :
  Forall has_votes (Dict.values data) ->
  sum_for party (all_items data) = total_votes party data.
Proof. apply sum_for_districts. Qed.

End Totals.

Lemma parties_met_items (data : list (string * district_data)) :
  map fst (all_items data) = parties_met data.
Proof.
  unfold all_items, parties_met. induction (Dict.values data) as [| d ds IH].
  - reflexivity.
  - cbn [flat_map]. rewrite map_app, IH.
    now destruct (political_parties_votes d).
Qed.

Lemma NoDup_firstn {A} (n : nat) (l : list A) : List.NoDup l -> List.NoDup (firstn n l).
Proof.
  intros H. rewrite <- (firstn_skipn n l) in H. now apply NoDup_app_remove_r in H.
Qed.

(** X23.  For a result set whose records carry their party votes, the
    chart of either script is drawn from the totals: every party met has
    the sum of its votes over all districts, a district without the party
    counting 0, and the parties stand in the order they are first met.
    The bars are the first ten of the totals sorted by descending total;
    the sort is a stable rearrangement of the totals, so parties of equal
    total keep the order in which they were first met, and no party left
    out has more votes than a party shown. *)
Theorem top_10_by_total (data : list (string * district_data)) (w : World) :
  Forall has_votes (Dict.values data) ->
  exists totals,
    sum_party_votes data w = (Ret totals, w)
    /\ (forall filename,
           V2.plot_top_10_parties data filename w
           = (Pyplot.savefig (firstn 10 (sorted_by_value_desc totals))
                             (Os.path_join "Results"
                                (V2.add_extension
                                   ("Top_10_Parties_of_" +:+ PyStr.splitext_root filename)
                                   "png")) ;;;
              print ("BAR PLOT SUCCESSFULLY CREATED: '"
                     +:+ Os.path_join "Results"
                           (V2.add_extension
                              ("Top_10_Parties_of_" +:+ PyStr.splitext_root filename)
                              "png")
                     +:+ "'")) w
           /\ V1.plot_top_10_parties data filename w
              = (Pyplot.savefig (firstn 10 (sorted_by_value_desc totals))
                                (Os.path_join "Results"
                                   (V1.add_extension ("Top_10_Parties_of_" +:+ filename)
                                                     "png")) ;;;
                 print ("BAR PLOT SUCCESSFULLY CREATED: 'Top_10_Parties_of_"
                        +:+ filename +:+ ".png'")) w)
    /\ Dict.keys totals = first_seen (parties_met data)
    /\ (forall party,
           In party (parties_met data) ->
           Dict.get totals party = Some (total_votes party data))
    /\ Permutation (sorted_by_value_desc totals) totals
    /\ StronglySorted by_total_desc (sorted_by_value_desc totals)
    /\ (forall v, with_total v (sorted_by_value_desc totals) = with_total v totals)
    /\ (forall x y,
           In x (firstn 10 (sorted_by_value_desc totals)) ->
           In y totals ->
           ~ In y (firstn 10 (sorted_by_value_desc totals)) ->
           (snd y <= snd x)%Z).
Proof.
  intros Hvotes.
  set (totals := fold_left (fun a pv => add_votes pv a) (all_items data) []).
  assert (sum_party_votes data w = (Ret totals, w)) as Hsum.
  { unfold sum_party_votes. apply sum_party_votes_loop.
    eapply List.Forall_impl; [| exact Hvotes]. intros d (v & Hv & _). congruence. }
  destruct (fold_add_votes (all_items data) []) as [Hkeys Hget]. fold totals in Hkeys, Hget.
  assert (Dict.keys totals = first_seen (parties_met data)) as Hk.
  { rewrite Hkeys, parties_met_items. reflexivity. }
  assert (Permutation (sorted_by_value_desc totals) totals) as Hperm by apply sorted_perm.
  assert (top_10 totals = firstn 10 (sorted_by_value_desc totals)) as Htop.
  { unfold top_10. apply of_pairs_id. unfold Dict.keys. rewrite <- firstn_map.
    apply NoDup_firstn. apply (Permutation_NoDup (l := map fst totals)).
    - symmetry. now apply Permutation_map.
    - fold (Dict.keys totals). rewrite Hk. apply first_seen_NoDup. }
  exists totals. repeat split.
  - exact Hsum.
  - unfold V2.plot_top_10_parties. ret_step Hsum. now rewrite Htop.
  - unfold V1.plot_top_10_parties. ret_step Hsum. now rewrite Htop.
  - exact Hk.
  - intros party Hin.
    assert (Dict.get totals party <> None) as Hsome.
    { apply get_In_keys. rewrite Hk. now apply first_seen_In. }
    specialize (Hget party). unfold get0 in Hget. cbn [Dict.get] in Hget.
    rewrite sum_for_all_items in Hget by assumption.
    destruct (Dict.get totals party) as [z |]; [| congruence]. f_equal. lia.
  - exact Hperm.
  - apply sorted_sorted.
  - intros v. apply sorted_stable.
  - intros x y Hx Hy Hny.
    apply (firstn_dominates 10 (sorted_by_value_desc totals)); [apply sorted_sorted | exact Hx |].
    apply (Permutation_in _ (Permutation_sym Hperm)) in Hy.
    rewrite <- (firstn_skipn 10 (sorted_by_value_desc totals)) in Hy.
    apply in_app_or in Hy. tauto.
Qed.

Lemma two_have_votes : Forall has_votes (Dict.values Chart.two).
Proof.
  repeat constructor.
  - exists [("A", 10%Z); ("B", 3%Z)]. split; [reflexivity|].
    repeat (constructor; [cbn; intuition discriminate|]). constructor.
  - exists [("A", 7%Z); ("B", 0%Z)]. split; [reflexivity|].
    repeat (constructor; [cbn; intuition discriminate|]). constructor.
Defined.

(** The two districts of the example: A has 17 votes, B has 3. *)
Lemma top_10_by_total_witness :
  exists totals,
    sum_party_votes Chart.two initial_world = (Ret totals, initial_world)
    /\ Dict.get totals "A" = Some 17%Z
    /\ Dict.get totals "B" = Some 3%Z.
Proof.
  destruct (top_10_by_total Chart.two initial_world two_have_votes)
    as (totals & Hsum & _ & _ & Hget & _).
  exists totals. split; [exact Hsum |]. split.
  - rewrite (Hget "A"); [reflexivity | cbn; tauto].
  - rewrite (Hget "B"); [reflexivity | cbn; tauto].
Defined.

(** The chart of the example, drawn by either script: A before B. *)
Example chart_of_two_districts :
  fs (snd (V2.plot_top_10_parties Chart.two "Praha" Chart.with_results))
     !! "Results/Top_10_Parties_of_Praha.png"
  = Some (File (PngChart [("A", 17%Z); ("B", 3%Z)]))
  /\ fs (snd (V1.plot_top_10_parties Chart.two "Praha" Chart.with_results))
        !! "Results/Top_10_Parties_of_Praha.png"
     = Some (File (PngChart [("A", 17%Z); ("B", 3%Z)])).
Proof. split; vm_compute; reflexivity. Qed.

(** C7.  The claim fails on a result set elections_scraper.py builds
    itself.  The second district of the index page has no party-name
    cells, so its record holds [None] where the claim lets a party
    absent from a district count 0.  The loop that sums the votes raises
    [AttributeError] at that record: no totals are returned, the chart
    renderer ends with the same exception and writes nothing.
    elections-scraper.py stores an empty mapping for the same page and
    returns the totals of the other district, A = 10 and B = 3. *)
Theorem record_without_votes_stops_chart :
  exists praha brno,
    political_parties_votes praha = Some [("A", 10%Z); ("B", 3%Z)]
    /\ political_parties_votes brno = None
    /\ V2.extract_all_districts_data net_without_parties Cases.two_districts
                                     initial_world
       = (Ret [("554782", praha); ("582786", brno)], initial_world)
    /\ sum_party_votes [("554782", praha); ("582786", brno)] Chart.with_results
       = (Raise (Exception AttributeError
                           "'NoneType' object has no attribute 'items'"),
          Chart.with_results)
    /\ V2.plot_top_10_parties [("554782", praha); ("582786", brno)] "Praha"
                              Chart.with_results
       = (Raise (Exception AttributeError
                           "'NoneType' object has no attribute 'items'"),
          Chart.with_results)
    /\ exists data,
        V1.global_data net_without_parties Cases.two_districts initial_world
        = (Ret data, initial_world)
        /\ sum_party_votes data Chart.with_results
           = (Ret [("A", 10%Z); ("B", 3%Z)], Chart.with_results).
Proof.
  eexists _, _. split; [|split; [|split; [vm_compute; reflexivity|]]].
  - reflexivity.
  - reflexivity.
  - split; [vm_compute; reflexivity|].
    split; [vm_compute; reflexivity|].
    eexists. split; vm_compute; reflexivity.
Qed.

(* ===================================================================== *)
(** ** C2: the export and the file that is already there *)
(* ===================================================================== *)

(** The frame of a result set that is not empty is built without error. *)
Lemma csv_frame_nonempty (data : list (string * district_data)) (w : World) :
  data <> [] -> exists df, csv_frame data w = (Ret df, w).
Proof.
  intros H. destruct data as [| kv data]; [congruence|].
  unfold csv_frame. eexists. reflexivity.
Qed.

(** The frame of the empty result set has no columns. *)
Lemma csv_frame_empty (w : World) :
  exists msg, csv_frame [] w = (Raise (Exception KeyError msg), w).
Proof. eexists. reflexivity. Qed.

(** The guard of the export: with the target in place nothing is written
    and [FileExistsError] is raised. *)
Lemma V2_get_csv_guard (data : list (string * district_data)) (filename : string)
      (w : World) (e : entry) :
  data <> [] ->
  fs w !! "Results" = Some Dir ->
  fs w !! Os.path_join "Results" (V2.add_extension filename "csv") = Some e ->
  V2.get_csv data filename w
  = (Raise (Exception FileExistsError ("File " +:+ filename +:+ " already exists.")), w).
Proof.
  intros Hdata Hdir Hfile. destruct (csv_frame_nonempty data w Hdata) as [df Hdf].
  unfold V2.get_csv. ret_step Hdf.
  assert (Os.makedirs "Results" w = (Ret tt, w)) as Hmk.
  { cbv [Os.makedirs bind get_fs]. now rewrite Hdir. }
  ret_step Hmk.
  assert (Os.path_exists (Os.path_join "Results" (V2.add_extension filename "csv")) w
          = (Ret true, w)) as Hex.
  { cbv [Os.path_exists bind get_fs ret]. now rewrite Hfile. }
  now ret_step Hex.
Qed.

(** What follows the building of the frame, for a target that is not
    there. *)
Lemma csv_write_tail (df : DataFrame) (path : string) (failure : exn) (line : string)
      (w : World) :
  (fs w !! "Results" = None \/ fs w !! "Results" = Some Dir) ->
  Os.parent path = Some "Results" ->
  fs w !! path = None ->
  (Os.makedirs "Results" ;;;
   exists_ <- Os.path_exists path ;;
   if (exists_ : bool) then raise failure
   else Pandas.to_csv df path "code" ;;; print line) w
  = (Ret tt,
     {| stdout := stdout w ++ [line];
        fs := <[path := File (CsvFile "code" df)]> (<["Results" := Dir]> (fs w)) |}).
Proof.
  intros Hdir Hparent Hfile.
  assert (path <> "Results") as Hne.
  { intros E. rewrite E in Hparent. discriminate Hparent. }
  assert (Os.makedirs "Results" w
          = (Ret tt, {| stdout := stdout w; fs := <["Results" := Dir]> (fs w) |})) as Hmk.
  { cbv [Os.makedirs bind get_fs put_fs]. destruct Hdir as [Hd | Hd]; rewrite Hd.
    - reflexivity.
    - rewrite insert_id by assumption. now destruct w. }
  ret_step Hmk.
  set (w1 := {| stdout := stdout w; fs := <["Results" := Dir]> (fs w) |}).
  assert (fs w1 !! path = None) as Hfile1.
  { unfold w1. cbn [fs]. now rewrite lookup_insert_ne by congruence. }
  assert (Os.path_exists path w1 = (Ret false, w1)) as Hex.
  { cbv [Os.path_exists bind get_fs ret]. now rewrite Hfile1. }
  ret_step Hex.
  assert (Pandas.to_csv df path "code" w1
          = (Ret tt, {| stdout := stdout w;
                        fs := <[path := File (CsvFile "code" df)]> (fs w1) |})) as Hcsv.
  { cbv [Pandas.to_csv Os.write_file Os.parent_is_dir bind get_fs put_fs].
    assert (fs w1 !! "Results" = Some Dir) as Hr
        by (unfold w1; cbn [fs]; apply lookup_insert_eq).
    rewrite Hparent, Hr. cbn [negb]. rewrite ?Hparent, ?Hr. cbn [negb].
    now rewrite Hfile1. }
  ret_step Hcsv. reflexivity.
Qed.

(** The export proper: without the target, and with a result set that is
    not empty, the directory is created if it is missing and the file is
    written. *)
Lemma V2_get_csv_writes (data : list (string * district_data)) (filename : string)
      (w : World) :
  data <> [] ->
  (fs w !! "Results" = None \/ fs w !! "Results" = Some Dir) ->
  Os.parent (Os.path_join "Results" (V2.add_extension filename "csv")) = Some "Results" ->
  fs w !! Os.path_join "Results" (V2.add_extension filename "csv") = None ->
  exists df line,
    csv_frame data w = (Ret df, w)
    /\ V2.get_csv data filename w
       = (Ret tt,
          {| stdout := stdout w ++ [line];
             fs := <[Os.path_join "Results" (V2.add_extension filename "csv")
                     := File (CsvFile "code" df)]>
                     (<["Results" := Dir]> (fs w)) |}).
Proof.
  intros Hdata Hdir Hparent Hfile. destruct (csv_frame_nonempty data w Hdata) as [df Hdf].
  exists df. eexists. split; [exact Hdf |].
  unfold V2.get_csv. ret_step Hdf. cbv zeta.
  now apply csv_write_tail.
Qed.

(** C2.  The export of an empty result set, as an index page without
    cells gives it, raises [KeyError] before it looks at the file system:
    the directory is not created and no file is written, whether or not
    the target exists.  Both scripts behave so. *)
Theorem export_of_empty_result_set :
  (exists msg,
      V2.get_csv [] "Praha" initial_world
      = (Raise (Exception KeyError msg), initial_world)
      /\ V1.get_csv [] "Praha" initial_world
         = (Raise (Exception KeyError msg), initial_world))
  /\ fs initial_world !! "Results" = None
  /\ fs initial_world !! "Results/Praha.csv" = None
  /\ fst (V2.elections_scraper (Cases.net_of Cases.empty_index Cases.praha)
                               Cases.index_url "Praha" initial_world)
     = fst (V2.get_csv [] "Praha" initial_world).
Proof.
  split; [eexists; split; reflexivity |].
  repeat split; vm_compute; reflexivity.
Qed.

(* ===================================================================== *)
(** ** C3: cells without a link *)
(* ===================================================================== *)

(** elections_scraper.py does what the claim says: the extraction always
    returns, the URLs come in the order of the cells, repetitions
    included, and there is one warning per cell without a reference. *)
Lemma V2_links_total (page : node) (w : World) :
  V2.extract_all_district_links page base_url "td" "cislo" "a" "href" w
  = (Ret (links_of (index_cells page)),
     add_lines w (warnings_of (index_cells page)))
  /\ length (links_of (index_cells page)) + length (warnings_of (index_cells page))
     = length (index_cells page).
Proof.
  split; [apply V2_links_spec |].
  induction (index_cells page) as [| c cells IH]; [reflexivity|].
  unfold links_of, warnings_of in *. cbn [flat_map]. rewrite !length_app.
  destruct (cell_href c); cbn [length]; lia.
Qed.

(** C3.  In elections-scraper.py a cell without a link is not skipped:
    [link.get] raises [AttributeError] on the missing link, the handler
    around it names [TypeError] and [KeyError] only, and the run ends
    there, without a warning and before any district is fetched.
    elections_scraper.py skips the cell with a warning and goes on. *)
Theorem bare_cell_aborts_first_script :
  V1.all_district_links Cases.with_bare_cell base_url "td" "cislo" "a" "href"
                        initial_world
  = (Raise (Exception AttributeError "'NoneType' object has no attribute 'get'"),
     initial_world)
  /\ V1.elections_scraper (Cases.net_of Cases.with_bare_cell Cases.praha)
                          Cases.index_url "Praha" initial_world
     = (Raise (Exception AttributeError "'NoneType' object has no attribute 'get'"),
        add_lines initial_world
                  ["DOWNLOADING DATA FROM THE SELECTED URL: '" +:+ Cases.index_url +:+ "'"])
  /\ V2.extract_all_district_links Cases.with_bare_cell base_url "td" "cislo" "a" "href"
                                   initial_world
     = (Ret [Cases.praha_link], add_lines initial_world [link_warning]).
Proof. repeat split; vm_compute; reflexivity. Qed.

(* ===================================================================== *)
(** ** C4: a district without party-name cells *)
(* ===================================================================== *)

(** C4.  On a district page without party-name cells
    elections_scraper.py stores [None] as the party votes of the record;
    the export still writes the file, but the chart calls [items] on
    [None] and the run ends with [AttributeError], after the export and
    without a chart.  elections-scraper.py stores the empty dictionary
    and finishes. *)
Theorem no_party_cells_breaks_chart :
  fst (V2.extract_all_districts_data (Cases.net_of Cases.two_districts Cases.no_parties)
                                     (Sample.index_page
                                        [Sample.link_cell "ps311?xjazyk=CZ&xobec=554782"
                                                          "554782"])
                                     initial_world)
  = Ret [("554782",
          {| location := " Praha";
             political_parties_votes := None;
             count_registered := Some 205%Z;
             count_envelopes := Some 145%Z;
             count_valid := Some 144%Z |})]
  /\ fst (V2.plot_top_10_parties
            [("554782",
              {| location := " Praha";
                 political_parties_votes := None;
                 count_registered := Some 205%Z;
                 count_envelopes := Some 145%Z;
                 count_valid := Some 144%Z |})]
            "Praha" Chart.with_results)
     = Raise (Exception AttributeError "'NoneType' object has no attribute 'items'")
  /\ (let run :=
        V2.elections_scraper
          (Sample.serve [(Cases.index_url,
                          Sample.index_page
                            [Sample.link_cell "ps311?xjazyk=CZ&xobec=554782" "554782"]);
                         (Cases.praha_link, Cases.no_parties)])
          Cases.index_url "Praha" initial_world in
      fst run = Raise (Exception AttributeError "'NoneType' object has no attribute 'items'")
      /\ exit_status (fst run) = 1%Z
      /\ (exists df, fs (snd run) !! "Results/Praha.csv" = Some (File (CsvFile "code" df)))
      /\ fs (snd run) !! "Results/Top_10_Parties_of_Praha.png" = None)
  /\ (let run :=
        V1.elections_scraper
          (Sample.serve [(Cases.index_url,
                          Sample.index_page
                            [Sample.link_cell "ps311?xjazyk=CZ&xobec=554782" "554782"]);
                         (Cases.praha_link, Cases.no_parties)])
          Cases.index_url "Praha" initial_world in
      fst run = Ret tt
      /\ fs (snd run) !! "Results/Top_10_Parties_of_Praha.png"
         = Some (File (PngChart []))).
Proof.
  split; [vm_compute; reflexivity |].
  split; [vm_compute; reflexivity |].
  split.
  - cbv zeta. split; [vm_compute; reflexivity |].
    split; [vm_compute; reflexivity |].
    split; [eexists; vm_compute; reflexivity | vm_compute; reflexivity].
  - cbv zeta. split; vm_compute; reflexivity.
Qed.

(* ===================================================================== *)
(** ** C9: where the two scripts agree *)
(* ===================================================================== *)

Lemma warnings_of_valid (cells : list node) :
  Forall (fun c => cell_href c <> None) cells -> warnings_of cells = [].
Proof.
  induction 1 as [| c cells Hc _ IH]; [reflexivity|].
  unfold warnings_of. cbn [flat_map]. fold (warnings_of cells).
  destruct (cell_href c); [now rewrite IH | congruence].
Qed.

Lemma get_csv_agree (data : list (string * district_data)) (filename : string)
      (w : World) :
  PyStr.endswith filename ".csv" = false ->
  fst (V1.get_csv data filename w) = fst (V2.get_csv data filename w)
  /\ fs (snd (V1.get_csv data filename w)) = fs (snd (V2.get_csv data filename w)).
Proof.
  intros H. unfold V1.get_csv, V2.get_csv, V2.add_extension, V1.add_extension.
  change ("." +:+ "csv") with ".csv". rewrite H. cbv zeta. unfold bind.
  destruct (csv_frame data w) as [[df | e] w1]; [| now split].
  destruct (Os.makedirs "Results" w1) as [[[] | e] w2]; [| now split].
  destruct (Os.path_exists (Os.path_join "Results" (filename +:+ ".csv")) w2)
    as [[[|] | e] w3]; try now split.
  destruct (Pandas.to_csv df (Os.path_join "Results" (filename +:+ ".csv")) "code" w3)
    as [[[] | e] w4]; now split.
Qed.

Lemma plot_agree (data : list (string * district_data)) (filename : string)
      (w : World) :
  PyStr.splitext_root filename = filename ->
  PyStr.endswith ("Top_10_Parties_of_" +:+ filename) ".png" = false ->
  fst (V1.plot_top_10_parties data filename w) = fst (V2.plot_top_10_parties data filename w)
  /\ fs (snd (V1.plot_top_10_parties data filename w))
     = fs (snd (V2.plot_top_10_parties data filename w)).
Proof.
  intros Hroot H.
  unfold V1.plot_top_10_parties, V2.plot_top_10_parties, V2.add_extension, V1.add_extension.
  rewrite Hroot. change ("." +:+ "png") with ".png". rewrite H. cbv zeta. unfold bind.
  destruct (sum_party_votes data w) as [[totals | e] w1]; [| now split].
  destruct (Pyplot.savefig (top_10 totals)
              (Os.path_join "Results" (("Top_10_Parties_of_" +:+ filename) +:+ ".png"))
              w1) as [[[] | e] w2]; now split.
Qed.

(** C9, as amended.  The two scripts share the fetch, the code
    extraction and the cleaning of numbers word for word, and they agree
    - on the links of an index page all of whose cells have a reference;
    - on what one link does to the result set (the record added, or the
      skip) when its page has a heading with a name that is not empty, a
      party-name cell, and numbers in all vote cells, and on a fetch that
      fails;
    - on the file name built from a name that does not yet end with the
      extension, on the file the export writes under such a name, and on
      the chart file for a name that [os.path.splitext] leaves whole and
      that does not make [Top_10_Parties_of_] followed by the name end
      with [.png];
    - on two command-line arguments that do not start with [-]: both hand
      them to [elections_scraper].
    No agreement is stated outside these conditions. *)
Theorem scripts_agree (net : string -> response) :
  (forall page w,
      Forall (fun c => cell_href c <> None) (index_cells page) ->
      V1.all_district_links page base_url "td" "cislo" "a" "href" w
      = V2.extract_all_district_links page base_url "td" "cislo" "a" "href" w)
  /\ (forall link page c n acc w,
         net link = Page page ->
         heading_name page = Some (String c n) ->
         party_cells page <> [] ->
         vote_values page <> None ->
         fst (V1.district_step net district_selector "sa2" "sa3" "sa6" "td" "cislo"
                               link acc w)
         = fst (V2.district_step net district_selector "sa2" "sa3" "sa6" "td" "cislo"
                                 link acc w))
  /\ (forall link class_name message acc w,
         net link = RequestException class_name message ->
         V1.district_step net district_selector "sa2" "sa3" "sa6" "td" "cislo" link acc w
         = V2.district_step net district_selector "sa2" "sa3" "sa6" "td" "cislo" link acc w)
  /\ (forall filename extension,
         PyStr.endswith filename ("." +:+ extension) = false ->
         V1.add_extension filename extension = V2.add_extension filename extension)
  /\ (forall data filename w,
         PyStr.endswith filename ".csv" = false ->
         fst (V1.get_csv data filename w) = fst (V2.get_csv data filename w)
         /\ fs (snd (V1.get_csv data filename w)) = fs (snd (V2.get_csv data filename w)))
  /\ (forall data filename w,
         PyStr.splitext_root filename = filename ->
         PyStr.endswith ("Top_10_Parties_of_" +:+ filename) ".png" = false ->
         fst (V1.plot_top_10_parties data filename w)
         = fst (V2.plot_top_10_parties data filename w)
         /\ fs (snd (V1.plot_top_10_parties data filename w))
            = fs (snd (V2.plot_top_10_parties data filename w)))
  /\ (forall program url filename,
         V1.plain url = true ->
         V1.plain filename = true ->
         V1.main net [program; url; filename] = Some (V1.elections_scraper net url filename)
         /\ V2.main net [program; url; filename] = V2.elections_scraper net url filename).
Proof.
  repeat apply conj.
  - intros page w Hvalid. unfold V1.all_district_links. fold (index_cells page).
    rewrite V1_link_loop_valid, V2_links_spec by assumption.
    now rewrite warnings_of_valid, add_lines_nil.
  - intros link page c n acc w Hnet Hname Hparty Hvotes.
    destruct (V1_district_step_spec net link page acc w Hnet) as [l1 E1].
    destruct (V2_district_step_spec net link page acc w Hnet) as [l2 E2].
    rewrite E1, E2. cbn [fst]. f_equal. f_equal.
    unfold V1_entry, V2_entry, V2_votes, V1_votes. rewrite Hname.
    destruct (party_cells page); [congruence|].
    destruct (vote_values page); [| congruence].
    now destruct (get_code_from_url link "xobec").
  - intros link class_name message acc w Hnet.
    now rewrite (V1_district_step_failed net link class_name message),
      (V2_district_step_failed net link class_name message).
  - intros filename extension H. unfold V1.add_extension, V2.add_extension. now rewrite H.
  - apply get_csv_agree.
  - apply plot_agree.
  - intros program url filename Hu Hf. split; [| reflexivity].
    cbn [V1.main forallb]. now rewrite Hu, Hf.
Qed.

Lemma scripts_agree_witness :
  V1.all_district_links Cases.two_districts base_url "td" "cislo" "a" "href"
                        initial_world
  = V2.extract_all_district_links Cases.two_districts base_url "td" "cislo" "a" "href"
                                  initial_world
  /\ fst (V1.district_step Cases.net_two district_selector "sa2" "sa3" "sa6" "td" "cislo"
                           Cases.praha_link [] initial_world)
     = fst (V2.district_step Cases.net_two district_selector "sa2" "sa3" "sa6" "td" "cislo"
                             Cases.praha_link [] initial_world)
  /\ V1.district_step Cases.net_index_only district_selector "sa2" "sa3" "sa6" "td"
                      "cislo" Cases.praha_link [] initial_world
     = V2.district_step Cases.net_index_only district_selector "sa2" "sa3" "sa6" "td"
                        "cislo" Cases.praha_link [] initial_world
  /\ V1.add_extension "Praha" "csv" = V2.add_extension "Praha" "csv"
  /\ fs (snd (V1.get_csv Chart.two "Praha" initial_world))
     = fs (snd (V2.get_csv Chart.two "Praha" initial_world))
  /\ fs (snd (V1.plot_top_10_parties Chart.two "Praha" Chart.with_results))
     = fs (snd (V2.plot_top_10_parties Chart.two "Praha" Chart.with_results))
  /\ V1.main Cases.net_two ["election_scraper.py"; Cases.index_url; "Praha"]
     = Some (V1.elections_scraper Cases.net_two Cases.index_url "Praha").
Proof.
  destruct (scripts_agree Cases.net_two)
    as (Hlinks & Hstep & _ & Hext & Hcsv & Hplot & Hmain).
  destruct (scripts_agree Cases.net_index_only) as (_ & _ & Hfail & _).
  split.
  { apply Hlinks. repeat constructor; discriminate. }
  split.
  { apply (Hstep Cases.praha_link Cases.praha " "%char "Praha");
      [reflexivity | reflexivity | discriminate | discriminate]. }
  split.
  { apply (Hfail Cases.praha_link "ConnectionError" "no route to host"). reflexivity. }
  split.
  { apply Hext. reflexivity. }
  split.
  { apply (Hcsv Chart.two "Praha" initial_world). reflexivity. }
  split.
  { apply (Hplot Chart.two "Praha" Chart.with_results); reflexivity. }
  apply (Hmain "election_scraper.py" Cases.index_url "Praha"); reflexivity.
Defined.

(** The claim as stated fails on a name that already ends with the
    extension: elections-scraper.py appends it again. *)
Lemma extension_added_twice :
  V1.add_extension "Praha.csv" "csv" = "Praha.csv.csv"
  /\ V2.add_extension "Praha.csv" "csv" = "Praha.csv"
  /\ V1.add_extension "Praha.csv" "csv" <> V2.add_extension "Praha.csv" "csv".
Proof. repeat split; try reflexivity. vm_compute. discriminate. Qed.

(** With an argument missing the scripts exit with different statuses. *)
Example usage_status_differs :
  option_map (fun m => exit_status (fst (m initial_world)))
             (V1.main Cases.net_two ["election_scraper.py"; Cases.index_url])
  = Some 2%Z
  /\ exit_status (fst (V2.main Cases.net_two ["election_scraper.py"; Cases.index_url]
                               initial_world))
     = 1%Z.
Proof. split; vm_compute; reflexivity. Qed.

(** The chart of the name [.png], which [os.path.splitext] leaves whole:
    elections_scraper.py finds the extension in place, elections-scraper.py
    appends it again. *)
Example chart_name_differs :
  PyStr.splitext_root ".png" = ".png"
  /\ fs (snd (V2.plot_top_10_parties Chart.two ".png" Chart.with_results))
        !! "Results/Top_10_Parties_of_.png"
     = Some (File (PngChart [("A", 17%Z); ("B", 3%Z)]))
  /\ fs (snd (V1.plot_top_10_parties Chart.two ".png" Chart.with_results))
        !! "Results/Top_10_Parties_of_.png"
     = None
  /\ fs (snd (V1.plot_top_10_parties Chart.two ".png" Chart.with_results))
        !! "Results/Top_10_Parties_of_.png.png"
     = Some (File (PngChart [("A", 17%Z); ("B", 3%Z)])).
Proof. repeat split; vm_compute; reflexivity. Qed.

(** Other places where the scripts part: a cell without a link, a heading
    without a name, a district without party-name cells. *)
Example scripts_differ :
  fst (V1.all_district_links Cases.with_bare_cell base_url "td" "cislo" "a" "href"
                             initial_world)
  <> fst (V2.extract_all_district_links Cases.with_bare_cell base_url "td" "cislo" "a"
                                        "href" initial_world)
  /\ fst (V1.district_step (Cases.net_of Cases.two_districts Cases.nameless)
                           district_selector "sa2" "sa3" "sa6" "td" "cislo"
                           Cases.praha_link [] initial_world)
     <> fst (V2.district_step (Cases.net_of Cases.two_districts Cases.nameless)
                              district_selector "sa2" "sa3" "sa6" "td" "cislo"
                              Cases.praha_link [] initial_world)
  /\ fst (V1.district_step (Cases.net_of Cases.two_districts Cases.no_parties)
                           district_selector "sa2" "sa3" "sa6" "td" "cislo"
                           Cases.praha_link [] initial_world)
     <> fst (V2.district_step (Cases.net_of Cases.two_districts Cases.no_parties)
                              district_selector "sa2" "sa3" "sa6" "td" "cislo"
                              Cases.praha_link [] initial_world).
Proof. repeat split; vm_compute; discriminate. Qed.

(* ===================================================================== *)
(** ** Result sets carry dictionaries *)
(* ===================================================================== *)

Lemma last_value_In {V} (l : list (string * V)) (k : string) (v : V) :
  last_value l k = Some v -> In (k, v) l.
Proof.
  induction l as [| [k' v'] l IH]; cbn; [discriminate|].
  destruct (last_value l k) as [v0 |].
  - intros H. inversion H; subst. right. now apply IH.
  - destruct (String.eqb k' k) eqn:E; [| discriminate].
    apply String.eqb_eq in E. intros H. inversion H; subst. now left.
Qed.

Lemma In_get {V} (d : list (string * V)) (k : string) (v : V) :
  List.NoDup (Dict.keys d) -> In (k, v) d -> Dict.get d k = Some v.
Proof.
  induction d as [| [k' v'] d IH]; cbn; intros Hnd Hin; [destruct Hin|].
  inversion Hnd as [| ? ? Hk Hd]; subst.
  destruct Hin as [E | Hin].
  - inversion E; subst. now rewrite String.eqb_refl.
  - destruct (String.eqb k' k) eqn:E.
    + apply String.eqb_eq in E. subst. exfalso. apply Hk.
      change k with (fst (k, v)). now apply in_map.
    + now apply IH.
Qed.

(** Every value of [dict(pairs)] is the value of one of the pairs. *)
Lemma of_pairs_values {V} (l : list (string * V)) (v : V) :
  In v (Dict.values (Dict.of_pairs l)) -> In v (map snd l).
Proof.
  unfold Dict.values. intros H. apply in_map_iff in H. destruct H as ([k v'] & E & Hin).
  cbn in E. subst v'.
  apply (In_get _ _ _ (of_pairs_NoDup l)) in Hin. rewrite get_of_pairs in Hin.
  apply last_value_In in Hin. change v with (snd (k, v)). now apply in_map.
Qed.

Lemma V1_votes_NoDup (page : node) : List.NoDup (Dict.keys (V1_votes page)).
Proof.
  unfold V1_votes. destruct (vote_values page); [apply of_pairs_NoDup | constructor].
Qed.

(** The records elections-scraper.py collects all carry a dictionary of
    party votes with distinct names. *)
Lemma V1_entries_have_votes (net : string -> response) (links : list string) :
  Forall has_votes (Dict.values (Dict.of_pairs (entries V1_entry net links))).
Proof.
  apply List.Forall_forall. intros d Hd. apply of_pairs_values in Hd.
  apply in_map_iff in Hd. destruct Hd as ([code d'] & E & Hin). cbn in E. subst d'.
  unfold entries in Hin. apply in_flat_map in Hin. destruct Hin as (link & _ & Hin).
  destruct (net link) as [page |]; [| destruct Hin].
  unfold V1_entry in Hin.
  destruct (heading_name page) as [name |]; [| destruct Hin].
  destruct (get_code_from_url link "xobec") as [c |]; [| destruct Hin].
  destruct Hin as [E | []]. inversion E; subst.
  exists (V1_votes page). split; [reflexivity | apply V1_votes_NoDup].
Qed.

(** So do the records elections_scraper.py collects from pages that have
    party-name cells. *)
Lemma V2_entries_have_votes (net : string -> response) (links : list string) :
  (forall link page, In link links -> net link = Page page -> party_cells page <> []) ->
  Forall has_votes (Dict.values (Dict.of_pairs (entries V2_entry net links))).
Proof.
  intros Hparty. apply List.Forall_forall. intros d Hd. apply of_pairs_values in Hd.
  apply in_map_iff in Hd. destruct Hd as ([code d'] & E & Hin). cbn in E. subst d'.
  unfold entries in Hin. apply in_flat_map in Hin. destruct Hin as (link & Hlink & Hin).
  destruct (net link) as [page |] eqn:Hnet; [| destruct Hin].
  specialize (Hparty link page Hlink Hnet).
  unfold V2_entry, V2_votes in Hin.
  destruct (get_code_from_url link "xobec") as [c |]; [| destruct Hin].
  destruct (heading_name page) as [[| ch n] |]; try destruct Hin.
  destruct (party_cells page) as [| p ps]; [congruence|].
  destruct (vote_values page) as [vs |]; [| destruct Hin].
  cbn in Hin. destruct Hin as [E | []]. inversion E; subst.
  eexists. split; [reflexivity | apply of_pairs_NoDup].
Qed.

(** A count is null exactly when its cell is missing or holds no
    number. *)
Lemma count_value_None (page : node) (header : string) :
  count_value page header = None
  <-> Soup.find page "td" [("class", ["cislo"]); ("headers", [header])] = None
      \/ exists cell,
          Soup.find page "td" [("class", ["cislo"]); ("headers", [header])] = Some cell
          /\ PyStr.int (clean_data (Soup.get_text cell) nbsp) = None.
Proof.
  unfold count_value.
  destruct (Soup.find page "td" [("class", ["cislo"]); ("headers", [header])]) as [cell |].
  - split.
    + intros H. right. now exists cell.
    + intros [H | (c & E & H)]; [discriminate | now inversion E; subst].
  - split; [now left | reflexivity].
Qed.

(** The guard of the export in both scripts: with the target in place the
    export raises and leaves the world as it was, whatever the result
    set. *)
Lemma csv_guard_tail (path : string) (failure : exn) (rest : M unit) (e : entry)
      (w : World) :
  fs w !! "Results" = Some Dir ->
  fs w !! path = Some e ->
  (Os.makedirs "Results" ;;;
   exists_ <- Os.path_exists path ;;
   if (exists_ : bool) then raise failure else rest) w
  = (Raise failure, w).
Proof.
  intros Hdir Hfile.
  assert (Os.makedirs "Results" w = (Ret tt, w)) as Hmk.
  { cbv [Os.makedirs bind get_fs]. now rewrite Hdir. }
  ret_step Hmk.
  assert (Os.path_exists path w = (Ret true, w)) as Hex.
  { cbv [Os.path_exists bind get_fs ret]. now rewrite Hfile. }
  now ret_step Hex.
Qed.

Lemma export_guard (data : list (string * district_data)) (filename : string)
      (w : World) :
  fs w !! "Results" = Some Dir ->
  (forall e,
      fs w !! Os.path_join "Results" (V2.add_extension filename "csv") = Some e ->
      exists failure, V2.get_csv data filename w = (Raise failure, w))
  /\ (forall e,
         fs w !! Os.path_join "Results" (V1.add_extension filename "csv") = Some e ->
         exists failure, V1.get_csv data filename w = (Raise failure, w)).
Proof.
  intros Hdir. split; intros e Hfile.
  - unfold V2.get_csv. destruct data as [| kv data].
    + destruct (csv_frame_empty w) as [msg E]. raise_step E. eauto.
    + destruct (csv_frame_nonempty (kv :: data) w ltac:(discriminate)) as [df E].
      ret_step E. cbv zeta. eexists. now apply (csv_guard_tail _ _ _ e).
  - unfold V1.get_csv. destruct data as [| kv data].
    + destruct (csv_frame_empty w) as [msg E]. raise_step E. eauto.
    + destruct (csv_frame_nonempty (kv :: data) w ltac:(discriminate)) as [df E].
      ret_step E. cbv zeta. eexists. now apply (csv_guard_tail _ _ _ e).
Qed.

(** The second export under the same name fails and leaves the file of
    the first as it is. *)
Example export_twice :
  let w1 := snd (V2.get_csv Chart.two "Praha" initial_world) in
  fst (V2.get_csv Chart.two "Praha" initial_world) = Ret tt
  /\ fst (V2.get_csv Chart.two "Praha" w1)
     = Raise (Exception FileExistsError "File Praha already exists.")
  /\ fs (snd (V2.get_csv Chart.two "Praha" w1)) = fs w1.
Proof. cbv zeta. repeat split; vm_compute; reflexivity. Qed.

(** The script body of elections_scraper.py with too few arguments. *)
Example usage_exit :
  fst (V2.main Cases.net_two ["election_scraper.py"; Cases.index_url] initial_world)
  = Raise (SystemExit 1)
  /\ fst (V2.main Cases.net_two ["election_scraper.py"; Cases.index_url; "Praha"]
                  initial_world)
     = Ret tt.
Proof. split; vm_compute; reflexivity. Qed.

(** elections-scraper.py, a link without reference: the [ValueError] it
    raises itself is not caught either. *)
Example anchor_without_reference :
  exists msg,
    V1.all_district_links (Sample.index_page [Sample.anchor_cell "top"])
                          base_url "td" "cislo" "a" "href" initial_world
    = (Raise (Exception ValueError msg), initial_world).
Proof. eexists. vm_compute. reflexivity. Qed.

(** elections_scraper.py, a district page without heading: the district
    is dropped and nothing is printed. *)
Example missing_heading_is_silent :
  V2.district_step (Cases.net_of Cases.two_districts
                                 (Sample.district_page [] Sample.three_counts ["A"] ["1"]))
                   district_selector "sa2" "sa3" "sa6" "td" "cislo"
                   Cases.praha_link [] initial_world
  = (Ret [], initial_world).
Proof. vm_compute. reflexivity. Qed.
(* ===================================================================== *)
(** ** Further properties of the scripts *)
(* ===================================================================== *)

Section AppendFacts.

Lemma append_nil (b : string) : EmptyString +:+ b = b.
Proof. reflexivity. Qed.

Lemma append_cons (x : ascii) (a b : string) : String x a +:+ b = String x (a +:+ b).
Proof. reflexivity. Qed.

Lemma append_assoc (a b c : string) : (a +:+ b) +:+ c = a +:+ (b +:+ c).
Proof.
  induction a as [|x a IH]; [reflexivity|].
  now rewrite !append_cons, IH.
Qed.

Lemma length_append (a b : string) :
  String.length (a +:+ b) = String.length a + String.length b.
Proof.
  induction a as [|x a IH]; [reflexivity|].
  rewrite append_cons. cbn. now rewrite IH.
Qed.

Lemma drop_append (a b : string) : PyStr.drop (String.length a) (a +:+ b) = b.
Proof.
  induction a as [|x a IH]; [now destruct b|].
  rewrite append_cons. exact IH.
Qed.

Lemma endswith_append (a b : string) : PyStr.endswith (a +:+ b) b = true.
Proof.
  unfold PyStr.endswith. rewrite length_append.
  replace (String.length a + String.length b - String.length b)
    with (String.length a) by lia.
  rewrite drop_append, String.eqb_refl, andb_true_r.
  apply Nat.leb_le. lia.
Qed.

Lemma contains_char_append (c : ascii) (a b : string) :
  PyStr.contains_char c (a +:+ b)
  = PyStr.contains_char c a || PyStr.contains_char c b.
Proof.
  induction a as [|x a IH]; [reflexivity|].
  rewrite append_cons. cbn. now rewrite IH, orb_assoc.
Qed.

End AppendFacts.

Lemma replace_char_without (c : ascii) (s : string) :
  PyStr.replace (String c EmptyString) EmptyString s = without_char c s.
Proof.
  unfold PyStr.replace.
  induction s as [|d s IH]; [reflexivity|].
  cbn [PyStr.replace_from PyStr.startswith without_char String.length Nat.sub].
  replace (PyStr.startswith s EmptyString) with true by now destruct s.
  rewrite andb_true_r, (eqb_sym c d), append_nil, IH.
  reflexivity.
Qed.

Lemma without_char_absent (c : ascii) (s : string) :
  PyStr.contains_char c (without_char c s) = false.
Proof.
  induction s as [|d s IH]; [reflexivity|].
  cbn. destruct (Ascii.eqb d c) eqn:E; [exact IH|].
  cbn. now rewrite E, IH.
Qed.

Lemma without_char_id (c : ascii) (s : string) :
  PyStr.contains_char c s = false -> without_char c s = s.
Proof.
  induction s as [|d s IH]; [reflexivity|].
  cbn. destruct (Ascii.eqb d c); cbn; [discriminate|].
  intros H. now rewrite IH.
Qed.

Lemma without_char_append (c : ascii) (a b : string) :
  without_char c (a +:+ b) = without_char c a +:+ without_char c b.
Proof.
  induction a as [|d a IH]; [reflexivity|].
  rewrite append_cons. cbn [without_char].
  destruct (Ascii.eqb d c); [exact IH|].
  now rewrite append_cons, IH.
Qed.

(** X1.  [clean_data] with its default argument removes every
    non-breaking space and nothing else: the other characters stay, in
    their order.  Hence it distributes over concatenation and cleaning a
    second time changes nothing. *)
Theorem clean_data_drops_nbsp (text more : string) :
  clean_data text nbsp = without_char "160" text
  /\ PyStr.contains_char "160" (clean_data text nbsp) = false
  /\ clean_data (text +:+ more) nbsp = clean_data text nbsp +:+ clean_data more nbsp
  /\ clean_data (clean_data text nbsp) nbsp = clean_data text nbsp.
Proof.
  unfold clean_data, nbsp. rewrite !replace_char_without.
  repeat split.
  - apply without_char_absent.
  - apply without_char_append.
  - apply without_char_id, without_char_absent.
Qed.

(** X2.  [add_extension] of elections_scraper.py always gives a name that
    ends with the extension, and gives it back unchanged when applied a
    second time; [add_extension] of elections-scraper.py makes the name
    longer every time. *)
Theorem add_extension_once (filename extension : string) :
  PyStr.endswith (V2.add_extension filename extension) ("." +:+ extension) = true
  /\ V2.add_extension (V2.add_extension filename extension) extension
     = V2.add_extension filename extension
  /\ String.length (V1.add_extension filename extension)
     = String.length filename + 1 + String.length extension
  /\ V1.add_extension (V1.add_extension filename extension) extension
     <> V1.add_extension filename extension.
Proof.
  assert (Hends : PyStr.endswith (V2.add_extension filename extension)
                                 ("." +:+ extension) = true).
  { unfold V2.add_extension.
    destruct (PyStr.endswith filename ("." +:+ extension)) eqn:E; [exact E|].
    apply (endswith_append filename ("." +:+ extension)). }
  assert (Hlen : forall f, String.length (V1.add_extension f extension)
                           = String.length f + 1 + String.length extension).
  { intros f. unfold V1.add_extension.
    rewrite !length_append. cbn. lia. }
  repeat split.
  - exact Hends.
  - unfold V2.add_extension at 1. now rewrite Hends.
  - apply Hlen.
  - intros Heq. apply (f_equal String.length) in Heq.
    rewrite !Hlen in Heq. lia.
Qed.

Section QueryFacts.

Variable name : string.

Lemma parse_qs_fold (fields : list (string * string))
      (parsed_result : list (string * list string)) :
  Dict.get
    (fold_left
       (fun parsed_result nv =>
          match Dict.get parsed_result (fst nv) with
          | Some vs => Dict.set (fst nv) (vs ++ [snd nv]) parsed_result
          | None => Dict.set (fst nv) [snd nv] parsed_result
          end)
       fields parsed_result) name
  = match Dict.get parsed_result name, values_of name fields with
    | None, [] => None
    | None, vs => Some vs
    | Some vs0, vs => Some (vs0 ++ vs)
    end.
Proof.
  revert parsed_result.
  induction fields as [|[n v] fields IH]; intros d.
  - cbn. destruct (Dict.get d name); [now rewrite app_nil_r | reflexivity].
  - cbn [fold_left]. rewrite IH. unfold values_of. cbn [List.filter fst snd].
    cbn [fst snd].
    destruct (String.eqb_spec n name) as [-> | Hne].
    + destruct (Dict.get d name) as [vs0|]; rewrite get_set_eq; cbn [map snd].
      * now rewrite <- app_assoc.
      * reflexivity.
    + destruct (Dict.get d n) as [vs0|]; rewrite (get_set_ne _ _ _ _ Hne);
        reflexivity.
Qed.

Lemma first_value_head (fields : list (string * string)) :
  first_value name fields = head (values_of name fields).
Proof.
  unfold first_value, values_of.
  induction fields as [|[n v] fields IH]; [reflexivity|].
  cbn. destruct (String.eqb n name); [reflexivity | exact IH].
Qed.

End QueryFacts.

Section CharFacts.

Variable c : ascii.

Lemma alnum_absent (s : string) :
  alnum c = false -> all_chars alnum s = true -> PyStr.contains_char c s = false.
Proof.
  intros Hc. induction s as [|d s IH]; [reflexivity|].
  cbn. intros H. apply andb_true_iff in H. destruct H as [Hd Hs].
  rewrite (IH Hs), orb_false_r.
  apply eqb_neq. intros ->. congruence.
Qed.

Lemma split_once_absent (s : string) :
  PyStr.contains_char c s = false -> PyStr.split_once c s = None.
Proof.
  induction s as [|d s IH]; [reflexivity|].
  cbn. destruct (Ascii.eqb d c); cbn; [discriminate|].
  intros H. now rewrite (IH H).
Qed.

Lemma split_once_append (a b : string) :
  PyStr.contains_char c a = false ->
  PyStr.split_once c (a +:+ String c b) = Some (a, b).
Proof.
  induction a as [|d a IH].
  - intros _. rewrite append_nil. cbn. now rewrite Ascii.eqb_refl.
  - rewrite append_cons. cbn. destruct (Ascii.eqb d c); cbn; [discriminate|].
    intros H. now rewrite (IH H).
Qed.

Lemma split_absent (s : string) :
  PyStr.contains_char c s = false -> PyStr.split c s = [s].
Proof.
  induction s as [|d s IH]; [reflexivity|].
  cbn. destruct (Ascii.eqb d c); cbn; [discriminate|].
  intros H. now rewrite (IH H).
Qed.

Lemma split_append (a b : string) :
  PyStr.contains_char c a = false ->
  PyStr.split c (a +:+ String c b) = a :: PyStr.split c b.
Proof.
  induction a as [|d a IH].
  - intros _. rewrite append_nil. cbn. now rewrite Ascii.eqb_refl.
  - rewrite append_cons. cbn. destruct (Ascii.eqb d c); cbn; [discriminate|].
    intros H. now rewrite (IH H).
Qed.

Lemma replace_absent (new s : string) :
  PyStr.contains_char c s = false ->
  PyStr.replace (String c EmptyString) new s = s.
Proof.
  unfold PyStr.replace.
  induction s as [|d s IH]; [reflexivity|].
  cbn [PyStr.replace_from PyStr.startswith PyStr.contains_char].
  rewrite (eqb_sym c d).
  destruct (Ascii.eqb d c); cbn [orb andb]; [discriminate|].
  intros H. now rewrite (IH H).
Qed.

End CharFacts.

Lemma unquote_id (s : string) :
  PyStr.contains_char "%" s = false -> Url.unquote s = s.
Proof.
  induction s as [|d s IH]; [reflexivity|].
  cbn [PyStr.contains_char]. intros H. apply orb_false_iff in H.
  destruct H as [Hd Hs]. specialize (IH Hs).
  cbn [Url.unquote]. rewrite Hd.
  destruct s as [|a [|b r]]; now rewrite IH.
Qed.

Lemma parse_qsl_append (a rest : string) :
  PyStr.contains_char "&" a = false ->
  Url.parse_qsl (a +:+ String "&" rest) = Url.parse_qsl a ++ Url.parse_qsl rest.
Proof.
  intros Ha. unfold Url.parse_qsl.
  rewrite (split_append "&" a rest Ha), (split_absent "&" a Ha).
  cbn [flat_map]. now rewrite app_nil_r.
Qed.

Section PlainFields.

Variable nv : string * string.
Hypothesis plain : plain_field nv.

Lemma field_absent (c : ascii) :
  alnum c = false -> Ascii.eqb "=" c = false ->
  PyStr.contains_char c (fst nv +:+ "=" +:+ snd nv) = false.
Proof.
  destruct plain as [Hn Hv]. intros Hc Heq.
  rewrite !contains_char_append.
  rewrite (alnum_absent c (fst nv) Hc Hn), (alnum_absent c (snd nv) Hc Hv).
  cbn [PyStr.contains_char orb]. now rewrite Heq.
Qed.

Lemma parse_qsl_field :
  Url.parse_qsl (fst nv +:+ "=" +:+ snd nv) = List.filter not_blank [nv].
Proof.
  destruct plain as [Hn Hv].
  unfold Url.parse_qsl.
  rewrite split_absent by (apply field_absent; reflexivity).
  cbn [flat_map]. rewrite app_nil_r.
  change (fst nv +:+ "=" +:+ snd nv) with (fst nv +:+ String "=" (snd nv)).
  rewrite split_once_append by (apply alnum_absent; [reflexivity | exact Hn]).
  destruct nv as [name value]. cbn [fst snd] in *.
  destruct value as [|v value]; [reflexivity|].
  rewrite !replace_absent by (apply alnum_absent; [reflexivity | assumption]).
  rewrite !unquote_id by (apply alnum_absent; [reflexivity | assumption]).
  reflexivity.
Qed.

End PlainFields.

Lemma query_absent (c : ascii) (fields : list (string * string)) :
  alnum c = false -> Ascii.eqb "=" c = false -> Ascii.eqb "&" c = false ->
  Forall plain_field fields ->
  PyStr.contains_char c (query_of fields) = false.
Proof.
  intros Hc Heq Hamp. unfold query_of.
  induction fields as [|nv fields IH]; [reflexivity|].
  intros H. inversion H as [|? ? Hnv Hrest]; subst.
  destruct fields as [|nv' fields].
  - cbn [map Soup.join]. now apply field_absent.
  - change (Soup.join "&" (map (fun nv => fst nv +:+ "=" +:+ snd nv) (nv :: nv' :: fields)))
      with ((fst nv +:+ "=" +:+ snd nv) +:+ "&"
            +:+ Soup.join "&" (map (fun nv => fst nv +:+ "=" +:+ snd nv) (nv' :: fields))).
    rewrite (contains_char_append c (fst nv +:+ "=" +:+ snd nv)),
      (contains_char_append c "&"), (IH Hrest), (field_absent nv Hnv c Hc Heq).
    cbn [PyStr.contains_char orb]. now rewrite Hamp.
Qed.

(** Reading a query written from plain fields gives the fields back,
    without those whose value is blank. *)
Lemma parse_qsl_query (fields : list (string * string)) :
  Forall plain_field fields ->
  Url.parse_qsl (query_of fields) = List.filter not_blank fields.
Proof.
  unfold query_of.
  induction fields as [|nv fields IH]; [reflexivity|].
  intros H. inversion H as [|? ? Hnv Hrest]; subst.
  destruct fields as [|nv' fields].
  - cbn [map Soup.join]. now apply parse_qsl_field.
  - change (Soup.join "&" (map (fun nv => fst nv +:+ "=" +:+ snd nv) (nv :: nv' :: fields)))
      with ((fst nv +:+ "=" +:+ snd nv)
            +:+ String "&"
                  (Soup.join "&" (map (fun nv => fst nv +:+ "=" +:+ snd nv) (nv' :: fields)))).
    rewrite parse_qsl_append by (apply field_absent; [exact Hnv | reflexivity ..]).
    rewrite (IH Hrest), (parse_qsl_field nv Hnv).
    change (nv :: nv' :: fields) with ([nv] ++ nv' :: fields).
    now rewrite List.filter_app.
Qed.

Lemma link_to_query (page : string) (fields : list (string * string)) :
  all_chars alnum page = true ->
  Forall plain_field fields ->
  Url.urlparse_query (link_to page fields) = query_of fields.
Proof.
  intros Hp Hf.
  assert (Habsent : forall c, alnum c = false ->
                              Ascii.eqb "=" c = false -> Ascii.eqb "&" c = false ->
                              Ascii.eqb "?" c = false ->
                              PyStr.contains_char c base_url = false ->
                              PyStr.contains_char c (link_to page fields) = false).
  { intros c Hal Heq Hamp Hq Hb. unfold link_to.
    rewrite !contains_char_append, Hb, (alnum_absent c page Hal Hp),
      (query_absent c fields Hal Heq Hamp Hf).
    cbn [PyStr.contains_char orb]. now rewrite Hq. }
  unfold Url.urlparse_query, tab, cr, newline.
  rewrite !replace_char_without.
  rewrite (without_char_id "009") by (apply Habsent; reflexivity).
  rewrite (without_char_id "013") by (apply Habsent; reflexivity).
  rewrite (without_char_id "010") by (apply Habsent; reflexivity).
  rewrite (split_once_absent "#") by (apply Habsent; reflexivity).
  unfold link_to.
  rewrite <- (append_assoc base_url page).
  change ("?" +:+ query_of fields) with (String "?" (query_of fields)).
  rewrite split_once_append; [reflexivity|].
  rewrite contains_char_append.
  now rewrite (alnum_absent "?" page) by (reflexivity || assumption).
Qed.

(** X4.  Writing a query and reading it back: for a link of the site
    whose page, field names and field values are made of letters and
    digits, [get_code_from_url] returns the value of the first field that
    has the parameter name and a value that is not empty, and [None] when
    there is none. *)
Theorem code_of_written_link
        (page parameter_name : string) (fields : list (string * string)) :
  all_chars alnum page = true ->
  Forall plain_field fields ->
  get_code_from_url (link_to page fields) parameter_name
  = first_value parameter_name (List.filter not_blank fields).
Proof.
  intros Hp Hf.
  unfold get_code_from_url, Url.parse_qs.
  rewrite (parse_qs_fold parameter_name), link_to_query, parse_qsl_query,
    first_value_head by assumption.
  cbn [Dict.get].
  now destruct (values_of parameter_name (List.filter not_blank fields)).
Qed.

Lemma code_of_written_link_witness :
  Forall plain_field
         [("xjazyk", "CZ"); ("xkraj", "2"); ("xobec", ""); ("xobec", "529303");
          ("xobec", "7"); ("xvyber", "2101")]
  /\ get_code_from_url
       (base_url +:+ "ps311?xjazyk=CZ&xkraj=2&xobec=&xobec=529303&xobec=7&xvyber=2101")
       "xobec"
     = Some "529303".
Proof.
  assert (H : Forall plain_field
                     [("xjazyk", "CZ"); ("xkraj", "2"); ("xobec", "");
                      ("xobec", "529303"); ("xobec", "7"); ("xvyber", "2101")]).
  { repeat constructor. }
  split; [exact H|].
  exact (code_of_written_link "ps311" "xobec" _ eq_refl H).
Defined.

Lemma startswith_append (a b : string) : PyStr.startswith (a +:+ b) a = true.
Proof.
  induction a as [|x a IH]; [now destruct b|].
  rewrite append_cons. cbn. now rewrite Ascii.eqb_refl, IH.
Qed.

Lemma links_warnings_length (cells : list node) :
  length (links_of cells) + length (warnings_of cells) = length cells.
Proof.
  induction cells as [|c cells IH]; [reflexivity|].
  unfold links_of, warnings_of in *. cbn [flat_map].
  rewrite !length_app. destruct (cell_href c); cbn; lia.
Qed.

Lemma links_of_absolute (cells : list node) :
  Forall (fun url => PyStr.startswith url base_url = true /\ url <> base_url)
         (links_of cells).
Proof.
  induction cells as [|c cells IH]; [constructor|].
  unfold links_of in *. cbn [flat_map].
  destruct (cell_href c) as [h|] eqn:Hc; [|exact IH].
  constructor; [|exact IH]. split; [apply startswith_append|].
  intros Heq. apply (f_equal String.length) in Heq.
  rewrite length_append in Heq.
  unfold cell_href in Hc.
  destruct (Soup.find c "a" []) as [l|]; [|discriminate].
  destruct (Soup.get l "href") as [h'|]; [|discriminate].
  destruct h' as [|x h']; [discriminate|].
  injection Hc as <-. cbn in Heq. lia.
Qed.

Lemma warnings_of_same (cells : list node) :
  Forall (eq link_warning) (warnings_of cells).
Proof.
  induction cells as [|c cells IH]; [constructor|].
  unfold warnings_of in *. cbn [flat_map].
  destruct (cell_href c); [exact IH | now constructor].
Qed.

(** X5.  [extract_all_district_links] of elections_scraper.py returns on
    every page: it gives the absolute URL of every cell that has a link
    with a reference, in the order of the cells, and prints one warning
    for every other cell.  Every URL is the base URL followed by a
    reference that is not empty. *)
Theorem link_extraction_returns (page : node) (w : World) :
  V2.extract_all_district_links page base_url "td" "cislo" "a" "href" w
  = (Ret (links_of (index_cells page)),
     add_lines w (warnings_of (index_cells page)))
  /\ length (links_of (index_cells page)) + length (warnings_of (index_cells page))
     = length (index_cells page)
  /\ Forall (fun url => PyStr.startswith url base_url = true /\ url <> base_url)
            (links_of (index_cells page))
  /\ Forall (eq link_warning) (warnings_of (index_cells page)).
Proof.
  repeat split.
  - apply V2_links_spec.
  - apply links_warnings_length.
  - apply links_of_absolute.
  - apply warnings_of_same.
Qed.

Lemma V1_link_loop (cells : list node) (acc : list string) (w : World) :
  for_each cells (V1.link_step base_url "a" "href") acc w
  = (match List.find no_href cells with
     | Some cell => Raise (link_error cell)
     | None => Ret (acc ++ links_of cells)
     end, w).
Proof.
  revert acc. induction cells as [|c cells IH]; intros acc.
  - cbn. unfold ret. now rewrite app_nil_r.
  - cbn [for_each List.find]. unfold bind at 1. unfold V1.link_step at 1.
    unfold links_of. cbn [flat_map]. fold (links_of cells).
    unfold no_href at 1, cell_href. cbv zeta.
    destruct (Soup.find c "a" []) as [l|] eqn:Hl;
      [|cbn -[link_error]; unfold link_error; now rewrite Hl].
    destruct (Soup.get l "href") as [h|];
      [|cbn -[link_error]; unfold link_error; now rewrite Hl].
    destruct h as [|ch h];
      [cbn -[link_error]; unfold link_error; now rewrite Hl|].
    cbn -[base_url]. rewrite IH. now rewrite <- app_assoc.
Qed.

(** X6.  [all_district_links] of elections-scraper.py never prints its
    warning.  If every cell has a link with a reference it returns their
    absolute URLs; otherwise it stops at the first cell that has none
    with the exception of that cell, an [AttributeError] for a missing
    link and a [ValueError] for a missing reference, which its handler of
    [TypeError] and [KeyError] lets through. *)
Theorem first_script_links (page : node) (w : World) :
  V1.all_district_links page base_url "td" "cislo" "a" "href" w
  = (match List.find no_href (index_cells page) with
     | Some cell => Raise (link_error cell)
     | None => Ret (links_of (index_cells page))
     end, w).
Proof. unfold V1.all_district_links. apply V1_link_loop. Qed.

Lemma apply_count_keeps (page : node) (kh : count_key * string) (r : district_data) :
  location (apply_count page kh r) = location r
  /\ political_parties_votes (apply_count page kh r) = political_parties_votes r.
Proof.
  unfold apply_count. destruct (count_value page kh.2); [|now split].
  now destruct kh.1.
Qed.

Lemma fold_apply_count_keeps (page : node) (headers : list (count_key * string))
      (r : district_data) :
  location (fold_left (fun r kh => apply_count page kh r) headers r) = location r
  /\ political_parties_votes (fold_left (fun r kh => apply_count page kh r) headers r)
     = political_parties_votes r.
Proof.
  revert r. induction headers as [|kh headers IH]; intros r; [now split|].
  cbn [fold_left]. destruct (IH (apply_count page kh r)) as [-> ->].
  apply apply_count_keeps.
Qed.

Lemma count_lines_length (page : node) (name header : string) (lines : list string) :
  count_lines page name header lines ->
  length lines
  = match count_value page header with
    | Some _ => 0
    | None => 1
    end.
Proof.
  unfold count_lines, count_value.
  destruct (Soup.find page "td" [("class", ["cislo"]); ("headers", [header])]);
    [|now intros ->].
  destruct (PyStr.int _); [now intros -> | now intros [message ->]].
Qed.

Lemma V2_header_loop (page : node) (headers : list (count_key * string))
      (record : district_data) (w : World) :
  exists groups,
    V2.extract_headers_data record page headers "td" "cislo" w
    = (Ret (fold_left (fun r kh => apply_count page kh r) headers record),
       add_lines w (concat groups))
    /\ Forall2 (fun kh lines => count_lines page (location record) (snd kh) lines)
               headers groups.
Proof.
  unfold V2.extract_headers_data.
  match goal with |- context [for_each _ ?b _ _] => set (body := b) end.
  assert (Hstep : forall kh r w,
             exists lines,
               body kh r w = (Ret (apply_count page kh r), add_lines w lines)
               /\ count_lines page (location r) (snd kh) lines).
  { intros kh r w0. unfold body, try_except, apply_count, count_value, count_lines.
    destruct (Soup.find page "td" [("class", ["cislo"]); ("headers", [snd kh])])
      as [cell |]; [|eexists; split; reflexivity].
    unfold bind, py_int.
    destruct (PyStr.int (clean_data (Soup.get_text cell) nbsp)) as [z |].
    - exists []. cbn [ret]. now rewrite add_lines_nil.
    - eexists. split; [reflexivity|]. eexists. reflexivity. }
  revert record w. induction headers as [| kh headers IH]; intros record w.
  - exists []. split; [|constructor]. cbn. unfold ret. now rewrite add_lines_nil.
  - destruct (Hstep kh record w) as (lines & Estep & Hlines).
    destruct (IH (apply_count page kh record) (add_lines w lines))
      as (groups & Eloop & Hgroups).
    exists (lines :: groups). split.
    + cbn [for_each fold_left concat]. ret_step Estep. rewrite Eloop.
      now rewrite add_lines_app.
    + constructor; [exact Hlines|].
      now destruct (apply_count_keeps page kh record) as [<- _].
Qed.

(** X7.  [extract_headers_data] never raises.  It fills each count whose
    cell holds a number and leaves the others as they were; for every
    header in turn it prints nothing when it reads the count, one warning
    when the cell is missing, and one error line when the text is no
    number.  The name and the party votes of the record are not
    touched. *)
Theorem headers_data_report (record : district_data) (page : node)
        (headers : list (count_key * string)) (w : World) :
  exists groups,
    V2.extract_headers_data record page headers "td" "cislo" w
    = (Ret (fold_left (fun r kh => apply_count page kh r) headers record),
       add_lines w (concat groups))
    /\ Forall2 (fun kh lines => count_lines page (location record) (snd kh) lines)
               headers groups
    /\ Forall2 (fun kh lines =>
                  length lines = match count_value page (snd kh) with
                                 | Some _ => 0
                                 | None => 1
                                 end)
               headers groups
    /\ location (fold_left (fun r kh => apply_count page kh r) headers record)
       = location record
    /\ political_parties_votes
         (fold_left (fun r kh => apply_count page kh r) headers record)
       = political_parties_votes record.
Proof.
  destruct (V2_header_loop page headers record w) as (groups & Erun & Hgroups).
  exists groups. split; [exact Erun|]. split; [exact Hgroups|]. split.
  - eapply Forall2_impl; [exact Hgroups|].
    intros kh lines. apply count_lines_length.
  - apply fold_apply_count_keeps.
Qed.

Section OneLink.

Variable net : string -> response.
Variables (link : string) (page : node).
Variable acc : list (string * district_data).
Variable w : World.
Hypothesis Hnet : net link = Page page.

Lemma V2_step_without_code :
  get_code_from_url link "xobec" = None ->
  V2.district_step net district_selector "sa2" "sa3" "sa6" "td" "cislo" link acc w
  = (Ret acc, add_lines w [code_not_found link]).
Proof.
  intros Hcode. unfold V2.district_step, try_except, get_soup. rewrite Hnet.
  rewrite (bind_ret_eq _ _ w w page eq_refl), Hcode. reflexivity.
Qed.

Lemma V1_step_without_code :
  get_code_from_url link "xobec" = None ->
  V1.district_step net district_selector "sa2" "sa3" "sa6" "td" "cislo" link acc w
  = (Ret acc,
     add_lines w [match heading_name page with
                  | Some _ => code_not_found link
                  | None => name_not_found link
                  end]).
Proof.
  intros Hcode. unfold V1.district_step, get_soup. rewrite Hnet.
  unfold heading_name. unfold try_except at 1.
  rewrite (bind_ret_eq _ _ w w page eq_refl).
  destruct (Soup.select_one page district_selector) as [el |] eqn:Esel;
    [|reflexivity].
  destruct (heading_two_fields _ _ Esel) as (a & name & t & ->).
  cbn [nth_error]. unfold try_except at 1. rewrite Hcode. reflexivity.
Qed.

Lemma V2_step_without_name (code : string) :
  get_code_from_url link "xobec" = Some code ->
  heading_name page = None \/ heading_name page = Some EmptyString ->
  V2.district_step net district_selector "sa2" "sa3" "sa6" "td" "cislo" link acc w
  = (Ret acc, w).
Proof.
  intros Hcode Hname. unfold V2.district_step, try_except, get_soup. rewrite Hnet.
  rewrite (bind_ret_eq _ _ w w page eq_refl), Hcode.
  pose proof (V2_extract_district_data_spec page w) as Hd.
  destruct Hname as [Hname | Hname]; rewrite Hname in Hd; now ret_step Hd.
Qed.

Lemma V1_step_without_heading :
  heading_name page = None ->
  V1.district_step net district_selector "sa2" "sa3" "sa6" "td" "cislo" link acc w
  = (Ret acc, add_lines w [name_not_found link]).
Proof.
  intros Hname. unfold V1.district_step, get_soup. rewrite Hnet.
  unfold heading_name in Hname. unfold try_except at 1.
  rewrite (bind_ret_eq _ _ w w page eq_refl).
  destruct (Soup.select_one page district_selector) as [el |] eqn:Esel;
    [|reflexivity].
  destruct (heading_two_fields _ _ Esel) as (a & name & t & E).
  rewrite E in Hname. discriminate.
Qed.

Lemma V2_step_unreadable_vote (code : string) (c : ascii) (n : string) :
  get_code_from_url link "xobec" = Some code ->
  heading_name page = Some (String c n) ->
  V2_votes page = None ->
  exists message,
    V2.district_step net district_selector "sa2" "sa3" "sa6" "td" "cislo" link acc w
    = (Ret acc, add_lines w [district_failed link message]).
Proof.
  intros Hcode Hname Hvotes. unfold V2.district_step, try_except, get_soup.
  rewrite Hnet, (bind_ret_eq _ _ w w page eq_refl), Hcode.
  pose proof (V2_extract_district_data_spec page w) as Hd.
  rewrite Hname, Hvotes in Hd. destruct Hd as [msg Hd].
  exists msg. raise_step Hd. reflexivity.
Qed.

End OneLink.

(** X8.  A link without the parameter [xobec] gives no record, and one
    line tells so: elections_scraper.py reports the missing code whatever
    the page holds; elections-scraper.py reads the heading first and
    reports the missing name instead when the page has no heading. *)
Theorem district_without_code
        (net : string -> response) (link : string) (page : node)
        (acc : list (string * district_data)) (w : World) :
  net link = Page page ->
  get_code_from_url link "xobec" = None ->
  V2.district_step net district_selector "sa2" "sa3" "sa6" "td" "cislo" link acc w
  = (Ret acc, add_lines w [code_not_found link])
  /\ V1.district_step net district_selector "sa2" "sa3" "sa6" "td" "cislo" link acc w
     = (Ret acc,
        add_lines w [match heading_name page with
                     | Some _ => code_not_found link
                     | None => name_not_found link
                     end]).
Proof.
  intros Hnet Hcode. split.
  - exact (V2_step_without_code net link page acc w Hnet Hcode).
  - exact (V1_step_without_code net link page acc w Hnet Hcode).
Qed.

Lemma district_without_code_witness :
  get_code_from_url (base_url +:+ "ps311?xjazyk=CZ") "xobec" = None
  /\ V2.district_step (Sample.serve [(base_url +:+ "ps311?xjazyk=CZ", Cases.praha)])
                      district_selector "sa2" "sa3" "sa6" "td" "cislo"
                      (base_url +:+ "ps311?xjazyk=CZ") [] initial_world
     = (Ret [], add_lines initial_world
                          [code_not_found (base_url +:+ "ps311?xjazyk=CZ")]).
Proof.
  split; [reflexivity|].
  apply (district_without_code
           (Sample.serve [(base_url +:+ "ps311?xjazyk=CZ", Cases.praha)])
           (base_url +:+ "ps311?xjazyk=CZ") Cases.praha [] initial_world);
    reflexivity.
Defined.

(** X9.  A district page without the heading, or with a heading that has
    nothing after the colon, gives no record in elections_scraper.py, and
    nothing is printed for it.  elections-scraper.py prints an error for
    a page without the heading. *)
Theorem district_without_name
        (net : string -> response) (link : string) (page : node) (code : string)
        (acc : list (string * district_data)) (w : World) :
  net link = Page page ->
  get_code_from_url link "xobec" = Some code ->
  heading_name page = None \/ heading_name page = Some EmptyString ->
  V2.district_step net district_selector "sa2" "sa3" "sa6" "td" "cislo" link acc w
  = (Ret acc, w)
  /\ (heading_name page = None ->
      V1.district_step net district_selector "sa2" "sa3" "sa6" "td" "cislo" link acc w
      = (Ret acc, add_lines w [name_not_found link])).
Proof.
  intros Hnet Hcode Hname. split.
  - exact (V2_step_without_name net link page acc w Hnet code Hcode Hname).
  - intros Hnone. exact (V1_step_without_heading net link page acc w Hnet Hnone).
Qed.

Lemma district_without_name_witness :
  heading_name (Sample.district_page [] Sample.three_counts ["A"] ["1"]) = None
  /\ V2.district_step
       (Cases.net_of Cases.two_districts
                     (Sample.district_page [] Sample.three_counts ["A"] ["1"]))
       district_selector "sa2" "sa3" "sa6" "td" "cislo"
       Cases.praha_link [] initial_world
     = (Ret [], initial_world)
  /\ V1.district_step
       (Cases.net_of Cases.two_districts
                     (Sample.district_page [] Sample.three_counts ["A"] ["1"]))
       district_selector "sa2" "sa3" "sa6" "td" "cislo"
       Cases.praha_link [] initial_world
     = (Ret [], add_lines initial_world [name_not_found Cases.praha_link]).
Proof.
  assert (Hname : heading_name (Sample.district_page [] Sample.three_counts ["A"] ["1"])
                  = None) by reflexivity.
  pose proof (district_without_name
                (Cases.net_of Cases.two_districts
                              (Sample.district_page [] Sample.three_counts ["A"] ["1"]))
                Cases.praha_link _ "554782" [] initial_world
                eq_refl eq_refl (or_introl Hname)) as [H2 H1].
  split; [exact Hname|]. split; [exact H2 | exact (H1 Hname)].
Defined.

(** X10.  A vote cell that holds no number costs elections_scraper.py the
    whole district: the error leaves [get_votes_of_parties], the handler
    of the link prints it with the link, and no record is added.
    elections-scraper.py keeps the district, with its name and counts and
    an empty mapping of party votes. *)
Theorem unreadable_vote_cell
        (net : string -> response) (link : string) (page : node)
        (code : string) (c : ascii) (n : string)
        (acc : list (string * district_data)) (w : World) :
  net link = Page page ->
  get_code_from_url link "xobec" = Some code ->
  heading_name page = Some (String c n) ->
  party_cells page <> [] ->
  vote_values page = None ->
  (exists message,
      V2.district_step net district_selector "sa2" "sa3" "sa6" "td" "cislo" link acc w
      = (Ret acc, add_lines w [district_failed link message]))
  /\ (exists lines,
         V1.district_step net district_selector "sa2" "sa3" "sa6" "td" "cislo" link acc w
         = (Ret (Dict.set code (counted page (String c n) (Some [])) acc),
            add_lines w lines)).
Proof.
  intros Hnet Hcode Hname Hparties Hvotes. split.
  - apply (V2_step_unreadable_vote net link page acc w Hnet code c n); try assumption.
    unfold V2_votes. destruct (party_cells page); [contradiction|].
    now rewrite Hvotes.
  - destruct (V1_district_step_spec net link page acc w Hnet) as [lines E].
    exists lines. rewrite E. unfold V1_entry, V1_votes.
    now rewrite Hname, Hcode, Hvotes.
Qed.

Lemma unreadable_vote_cell_witness :
  vote_values Cases.bad_vote = None
  /\ (exists message,
         V2.district_step (Cases.net_of Cases.two_districts Cases.bad_vote)
                          district_selector "sa2" "sa3" "sa6" "td" "cislo"
                          Cases.praha_link [] initial_world
         = (Ret [], add_lines initial_world
                              [district_failed Cases.praha_link message])).
Proof.
  split; [reflexivity|].
  apply (unreadable_vote_cell (Cases.net_of Cases.two_districts Cases.bad_vote)
                              Cases.praha_link Cases.bad_vote "554782" " " "Praha"
                              [] initial_world);
    try reflexivity.
  discriminate.
Defined.

Section ResultSet.

Variable net : string -> response.
Variable entry : string -> node -> option (string * district_data).

Hypothesis entry_code :
  forall link page code record,
    entry link page = Some (code, record) ->
    get_code_from_url link "xobec" = Some code.

Lemma entries_length (links : list string) :
  length (entries entry net links) <= length links.
Proof.
  induction links as [|link links IH]; [reflexivity|].
  unfold entries in *. cbn [flat_map]. rewrite length_app.
  destruct (net link) as [page|]; [destruct (entry link page)|]; cbn; lia.
Qed.

Lemma entries_In (links : list string) (code : string) (record : district_data) :
  In (code, record) (entries entry net links) ->
  exists link page,
    In link links /\ net link = Page page /\ entry link page = Some (code, record).
Proof.
  unfold entries. rewrite in_flat_map. intros (link & Hin & H).
  destruct (net link) as [page|] eqn:Hnet; [|contradiction].
  destruct (entry link page) as [e|] eqn:He; [|contradiction].
  destruct H as [<- | []]. eauto.
Qed.

Lemma codes_of_In (links : list string) (link code : string) :
  In link links -> get_code_from_url link "xobec" = Some code ->
  In code (codes_of links).
Proof.
  intros Hin Hcode. unfold codes_of. apply in_flat_map.
  exists link. split; [exact Hin|]. rewrite Hcode. now left.
Qed.

Lemma result_set_keys (links : list string) :
  List.NoDup (Dict.keys (Dict.of_pairs (entries entry net links)))
  /\ length (Dict.of_pairs (entries entry net links)) <= length links
  /\ incl (Dict.keys (Dict.of_pairs (entries entry net links))) (codes_of links).
Proof.
  split; [apply of_pairs_NoDup|]. split.
  - rewrite <- (length_map fst). fold (Dict.keys (Dict.of_pairs (entries entry net links))).
    rewrite keys_of_pairs.
    etransitivity; [apply first_seen_length|].
    rewrite length_map. apply entries_length.
  - intros code Hin. rewrite keys_of_pairs in Hin.
    apply first_seen_In, in_map_iff in Hin.
    destruct Hin as ([code' record] & <- & Hin).
    destruct (entries_In _ _ _ Hin) as (link & page & Hl & _ & He).
    exact (codes_of_In links link code' Hl (entry_code _ _ _ _ He)).
Qed.

Lemma result_set_values (P : district_data -> Prop) (links : list string) :
  (forall link page code record, entry link page = Some (code, record) -> P record) ->
  Forall P (Dict.values (Dict.of_pairs (entries entry net links))).
Proof.
  intros HP. apply List.Forall_forall. intros record Hin.
  apply of_pairs_values, in_map_iff in Hin.
  destruct Hin as ([code record'] & <- & Hin).
  destruct (entries_In _ _ _ Hin) as (link & page & _ & _ & He).
  exact (HP _ _ _ _ He).
Qed.

End ResultSet.

Lemma V2_entry_named (link : string) (page : node) (code : string)
      (record : district_data) :
  V2_entry link page = Some (code, record) -> location record <> EmptyString.
Proof.
  unfold V2_entry.
  destruct (get_code_from_url link "xobec"); [|discriminate].
  destruct (heading_name page) as [[|c n]|]; try discriminate.
  destruct (V2_votes page); [|discriminate].
  intros [= <- <-]. discriminate.
Qed.

Lemma links_of_length_le (cells : list node) :
  length (links_of cells) <= length cells.
Proof. pose proof (links_warnings_length cells). lia. Qed.

(** X11.  When every district page is fetched, whatever the pages hold,
    [extract_all_districts_data] returns; the result set has distinct
    keys, at most one entry per cell of the index page, every key is the
    code of one of the extracted links, and no record has an empty
    name. *)
Theorem result_set_invariants (net : string -> response) (soup : node) (w : World) :
  first_failure net (links_of (index_cells soup)) = None ->
  exists data lines,
    V2.extract_all_districts_data net soup w = (Ret data, add_lines w lines)
    /\ List.NoDup (Dict.keys data)
    /\ length data <= length (index_cells soup)
    /\ incl (Dict.keys data) (codes_of (links_of (index_cells soup)))
    /\ Forall (fun d => location d <> EmptyString) (Dict.values data).
Proof.
  intros Hfetched.
  destruct (V2_extract_all_fetched net soup w Hfetched) as [lines E].
  destruct (result_set_keys net V2_entry V2_entry_code (links_of (index_cells soup)))
    as (Hnodup & Hlen & Hincl).
  eexists _, lines. split; [exact E|]. split; [exact Hnodup|]. split.
  - etransitivity; [exact Hlen | apply links_of_length_le].
  - split; [exact Hincl|].
    apply result_set_values. exact V2_entry_named.
Qed.

Lemma result_set_invariants_witness :
  exists data lines,
    V2.extract_all_districts_data Cases.net_two Cases.two_districts initial_world
    = (Ret data, add_lines initial_world lines)
    /\ List.NoDup (Dict.keys data)
    /\ length data <= length (index_cells Cases.two_districts)
    /\ incl (Dict.keys data) (codes_of (links_of (index_cells Cases.two_districts)))
    /\ Forall (fun d => location d <> EmptyString) (Dict.values data).
Proof.
  apply (result_set_invariants Cases.net_two Cases.two_districts initial_world).
  reflexivity.
Defined.

(** X12.  In elections-scraper.py every record of the result set carries
    a mapping of party votes with distinct names, so the chart can always
    sum the votes: when every cell of the index page has a reference and
    every district page is fetched, [global_data] returns a result set
    with distinct keys, each the code of one of the links, and
    [sum_party_votes] returns on it without printing. *)
Theorem first_script_result_set (net : string -> response) (soup : node) (w : World) :
  Forall (fun c => cell_href c <> None) (index_cells soup) ->
  first_failure net (links_of (index_cells soup)) = None ->
  exists data lines,
    V1.global_data net soup w = (Ret data, add_lines w lines)
    /\ List.NoDup (Dict.keys data)
    /\ incl (Dict.keys data) (codes_of (links_of (index_cells soup)))
    /\ Forall has_votes (Dict.values data)
    /\ forall w', exists totals, sum_party_votes data w' = (Ret totals, w').
Proof.
  intros Hcells Hfetched.
  destruct (V1_global_data_fetched net soup w Hcells Hfetched) as [lines E].
  destruct (result_set_keys net V1_entry V1_entry_code (links_of (index_cells soup)))
    as (Hnodup & _ & Hincl).
  pose proof (V1_entries_have_votes net (links_of (index_cells soup))) as Hvotes.
  eexists _, lines. split; [exact E|]. split; [exact Hnodup|].
  split; [exact Hincl|]. split; [exact Hvotes|].
  intros w'. eexists. unfold sum_party_votes.
  apply sum_party_votes_loop.
  eapply List.Forall_impl; [|exact Hvotes].
  intros d (v & -> & _). discriminate.
Qed.

Lemma first_script_result_set_witness :
  exists data lines,
    V1.global_data Cases.net_two Cases.two_districts initial_world
    = (Ret data, add_lines initial_world lines)
    /\ Forall has_votes (Dict.values data).
Proof.
  destruct (first_script_result_set Cases.net_two Cases.two_districts initial_world)
    as (data & lines & E & _ & _ & Hv & _).
  - repeat constructor; discriminate.
  - reflexivity.
  - exists data, lines. split; assumption.
Defined.






Lemma insert_fresh_keeps (f : gmap string entry) (k path : string) (v e : entry) :
  f !! k = None -> f !! path = Some e -> <[k := v]> f !! path = Some e.
Proof.
  intros Hk Hp. rewrite lookup_insert_ne; [exact Hp|]. congruence.
Qed.

(** What follows the building of the frame never changes an entry that is
    already there. *)
Lemma export_tail_keeps (df : DataFrame) (target : string) (failure : exn)
      (line : string) (w : World) (path : string) (e : entry) :
  fs w !! path = Some e ->
  fs (snd ((Os.makedirs "Results" ;;;
            exists_ <- Os.path_exists target ;;
            if (exists_ : bool) then raise failure
            else Pandas.to_csv df target "code" ;;; print line) w)) !! path
  = Some e.
Proof.
  intros Hp.
  cbv [Os.makedirs Os.path_exists Pandas.to_csv Os.write_file bind get_fs put_fs
       ret raise print add_lines].
  destruct (fs w !! "Results") as [[|c]|] eqn:Hdir; cbn [fs snd]; try exact Hp.
  - destruct (fs w !! target) as [e'|] eqn:Ht; cbn [fs snd]; [exact Hp|].
    destruct (Os.parent_is_dir (fs w) target) eqn:Hpar;
      cbn [negb fs snd]; [|exact Hp].
    rewrite Hpar, Ht. cbn [negb fs snd]. now apply insert_fresh_keeps.
  - assert (Hp1 : <["Results" := Dir]> (fs w) !! path = Some e)
      by now apply insert_fresh_keeps.
    destruct (<["Results" := Dir]> (fs w) !! target) as [e'|] eqn:Ht;
      cbn [fs snd]; [exact Hp1|].
    destruct (Os.parent_is_dir (<["Results" := Dir]> (fs w)) target) eqn:Hpar;
      cbn [negb fs snd]; [|exact Hp1].
    rewrite Hpar, Ht. cbn [negb fs snd]. now apply insert_fresh_keeps.
Qed.

Lemma csv_frame_world (data : list (string * district_data)) (w : World) :
  snd (csv_frame data w) = w.
Proof.
  destruct data as [|kv data].
  - now destruct (csv_frame_empty w) as [msg ->].
  - destruct (csv_frame_nonempty (kv :: data) w) as [df ->]; [discriminate|].
    reflexivity.
Qed.

(** X14.  [get_csv] never changes what is already on disk: whatever the
    result set and the name, and whether the export succeeds or fails,
    every file and directory that exists before the call is the same
    after it.  Both scripts behave so. *)
Theorem export_keeps_files
        (data : list (string * district_data)) (filename : string) (w : World)
        (path : string) (e : entry) :
  fs w !! path = Some e ->
  fs (snd (V2.get_csv data filename w)) !! path = Some e
  /\ fs (snd (V1.get_csv data filename w)) !! path = Some e.
Proof.
  intros Hp.
  pose proof (csv_frame_world data w) as Hw.
  split.
  - unfold V2.get_csv. unfold bind at 1.
    destruct (csv_frame data w) as [[df|err] w'] eqn:E; cbn [snd] in Hw; subst w'.
    + now apply export_tail_keeps.
    + exact Hp.
  - unfold V1.get_csv. unfold bind at 1.
    destruct (csv_frame data w) as [[df|err] w'] eqn:E; cbn [snd] in Hw; subst w'.
    + now apply export_tail_keeps.
    + exact Hp.
Qed.

Lemma export_keeps_files_witness :
  let w1 := snd (V2.get_csv Chart.two "Praha" initial_world) in
  fs w1 !! "Results/Praha.csv" = Some (File (CsvFile "code" (csv_table Chart.two)))
  /\ fs (snd (V2.get_csv Chart.two "Praha" w1)) !! "Results/Praha.csv"
     = Some (File (CsvFile "code" (csv_table Chart.two))).
Proof.
  cbv zeta.
  assert (H : fs (snd (V2.get_csv Chart.two "Praha" initial_world)) !! "Results/Praha.csv"
              = Some (File (CsvFile "code" (csv_table Chart.two))))
    by (vm_compute; reflexivity).
  split; [exact H|].
  exact (proj1 (export_keeps_files Chart.two "Praha" _ _ _ H)).
Defined.

Section Paths.

Lemma parent_scan_plain (s pre : string) (best : option string) :
  PyStr.contains_char "/" s = false -> Os.parent_scan s pre best = best.
Proof.
  revert pre best. induction s as [|c s IH]; intros pre best; [reflexivity|].
  cbn. destruct (Ascii.eqb c "/"); cbn; [discriminate|].
  intros H. now apply IH.
Qed.

Lemma parent_scan_component (a rest pre : string) (best : option string) :
  PyStr.contains_char "/" a = false ->
  Os.parent_scan (a +:+ String "/" rest) pre best
  = Os.parent_scan rest ((pre +:+ a) +:+ "/")
                   match pre +:+ a with
                   | EmptyString => None
                   | _ => Some (pre +:+ a)
                   end.
Proof.
  revert pre best. induction a as [|c a IH]; intros pre best.
  - intros _. rewrite append_nil, append_empty_r. reflexivity.
  - rewrite append_cons. cbn [PyStr.contains_char Os.parent_scan].
    destruct (Ascii.eqb c "/"); cbn [orb]; [discriminate|].
    intros H. rewrite (IH _ _ H).
    replace ((pre +:+ String c EmptyString) +:+ a) with (pre +:+ String c a)
      by now rewrite append_assoc.
    reflexivity.
Qed.

Lemma path_join_results (name : string) :
  PyStr.contains_char "/" name = false ->
  Os.path_join "Results" name = "Results/" +:+ name.
Proof.
  unfold Os.path_join. destruct name as [|c name]; [reflexivity|].
  cbn [PyStr.contains_char]. intros H. apply orb_false_iff in H.
  destruct H as [Hc _]. apply eqb_neq in Hc.
  destruct c as [[] [] [] [] [] [] [] []]; try reflexivity.
  now contradiction Hc.
Qed.

Lemma parent_in_results (name : string) :
  PyStr.contains_char "/" name = false ->
  Os.parent ("Results/" +:+ name) = Some "Results".
Proof.
  intros H. unfold Os.parent.
  change ("Results/" +:+ name) with ("Results" +:+ String "/" name).
  rewrite parent_scan_component by reflexivity.
  now rewrite parent_scan_plain.
Qed.


Lemma splitext_scan_plain (s pre : string) (lead : bool) (best : option string)
      (r : string) :
  PyStr.contains_char "/" s = false ->
  PyStr.contains_char "/" pre = false ->
  (forall b, best = Some b -> PyStr.contains_char "/" b = false) ->
  PyStr.splitext_scan s pre lead best = Some r ->
  PyStr.contains_char "/" r = false.
Proof.
  revert pre lead best. induction s as [|c s IH]; intros pre lead best Hs Hpre Hbest.
  - cbn. intros ->. now apply Hbest.
  - cbn [PyStr.contains_char] in Hs. apply orb_false_iff in Hs. destruct Hs as [Hc Hs].
    cbn [PyStr.splitext_scan]. rewrite Hc.
    destruct (Ascii.eqb c ".").
    + apply IH; [exact Hs | now rewrite contains_char_append, Hpre |].
      intros b. destruct lead; [apply Hbest|]. now intros [= <-].
    + apply IH; [exact Hs | | exact Hbest].
      rewrite contains_char_append, Hpre. cbn. now rewrite Hc.
Qed.

Lemma splitext_root_plain (filename : string) :
  PyStr.contains_char "/" filename = false ->
  PyStr.contains_char "/" (PyStr.splitext_root filename) = false.
Proof.
  intros H. unfold PyStr.splitext_root.
  destruct (PyStr.splitext_scan filename "" true None) as [r|] eqn:E; [|exact H].
  apply (splitext_scan_plain filename "" true None r H eq_refl); [|exact E].
  discriminate.
Qed.

Lemma V2_add_extension_plain (filename : string) (extension : string) :
  PyStr.contains_char "/" filename = false ->
  PyStr.contains_char "/" extension = false ->
  PyStr.contains_char "/" (V2.add_extension filename extension) = false.
Proof.
  intros Hf He. unfold V2.add_extension.
  destruct (PyStr.endswith filename ("." +:+ extension)); [exact Hf|].
  now rewrite !contains_char_append, Hf, He.
Qed.

Lemma V1_add_extension_plain (filename : string) (extension : string) :
  PyStr.contains_char "/" filename = false ->
  PyStr.contains_char "/" extension = false ->
  PyStr.contains_char "/" (V1.add_extension filename extension) = false.
Proof.
  intros Hf He. unfold V1.add_extension.
  now rewrite !contains_char_append, Hf, He.
Qed.

End Paths.







Lemma savefig_in_results (bars : list (string * Z)) (name : string) (w : World) :
  fs w !! "Results" = Some Dir ->
  PyStr.contains_char "/" name = false ->
  fs w !! ("Results/" +:+ name) <> Some Dir ->
  Pyplot.savefig bars ("Results/" +:+ name) w
  = (Ret tt,
     {| stdout := stdout w;
        fs := <["Results/" +:+ name := File (PngChart bars)]> (fs w) |}).
Proof.
  intros Hdir Hplain Hfile.
  cbv [Pyplot.savefig Os.write_file Os.parent_is_dir bind get_fs put_fs].
  rewrite (parent_in_results name Hplain), Hdir. cbn [negb].
  destruct (fs w !! ("Results/" +:+ name)) as [[|c]|]; [contradiction | |]; reflexivity.
Qed.

Lemma sum_party_votes_returns (data : list (string * district_data)) (w : World) :
  Forall (fun d => political_parties_votes d <> None) (Dict.values data) ->
  sum_party_votes data w
  = (Ret (fold_left (fun a pv => add_votes pv a) (all_items data) []), w).
Proof. intros H. unfold sum_party_votes, all_items. now apply sum_party_votes_loop. Qed.

Lemma V2_plot_writes
      (data : list (string * district_data)) (filename : string) (w : World) :
  Forall (fun d => political_parties_votes d <> None) (Dict.values data) ->
  fs w !! "Results" = Some Dir ->
  PyStr.contains_char "/" filename = false ->
  let path :=
    "Results/" +:+ V2.add_extension
                     ("Top_10_Parties_of_" +:+ PyStr.splitext_root filename) "png" in
  fs w !! path <> Some Dir ->
  V2.plot_top_10_parties data filename w
  = (Ret tt,
     {| stdout := stdout w ++ ["BAR PLOT SUCCESSFULLY CREATED: '" +:+ path +:+ "'"];
        fs := <[path := File (PngChart
                                (top_10 (fold_left (fun a pv => add_votes pv a)
                                                   (all_items data) [])))]>
                (fs w) |}).
Proof.
  intros Hvotes Hdir Hplain path Hfile. subst path.
  pose proof (sum_party_votes_returns data w Hvotes) as Hsum.
  assert (H2 : PyStr.contains_char "/"
                 (V2.add_extension ("Top_10_Parties_of_" +:+ PyStr.splitext_root filename)
                                   "png") = false).
  { apply V2_add_extension_plain; [|reflexivity].
    now rewrite contains_char_append, splitext_root_plain. }
  unfold V2.plot_top_10_parties. ret_step Hsum. cbv zeta.
  rewrite (path_join_results _ H2).
  rewrite (bind_ret_eq _ _ _ _ _ (savefig_in_results _ _ w Hdir H2 Hfile)).
  reflexivity.
Qed.

Lemma V1_plot_writes
      (data : list (string * district_data)) (filename : string) (w : World) :
  Forall (fun d => political_parties_votes d <> None) (Dict.values data) ->
  fs w !! "Results" = Some Dir ->
  PyStr.contains_char "/" filename = false ->
  let path :=
    "Results/" +:+ V1.add_extension ("Top_10_Parties_of_" +:+ filename) "png" in
  fs w !! path <> Some Dir ->
  V1.plot_top_10_parties data filename w
  = (Ret tt,
     {| stdout := stdout w
                  ++ ["BAR PLOT SUCCESSFULLY CREATED: 'Top_10_Parties_of_"
                      +:+ filename +:+ ".png'"];
        fs := <[path := File (PngChart
                                (top_10 (fold_left (fun a pv => add_votes pv a)
                                                   (all_items data) [])))]>
                (fs w) |}).
Proof.
  intros Hvotes Hdir Hplain path Hfile. subst path.
  pose proof (sum_party_votes_returns data w Hvotes) as Hsum.
  assert (H1 : PyStr.contains_char "/"
                 (V1.add_extension ("Top_10_Parties_of_" +:+ filename) "png") = false).
  { apply V1_add_extension_plain; [|reflexivity].
    now rewrite contains_char_append, Hplain. }
  unfold V1.plot_top_10_parties. ret_step Hsum. cbv zeta.
  rewrite (path_join_results _ H1).
  rewrite (bind_ret_eq _ _ _ _ _ (savefig_in_results _ _ w Hdir H1 Hfile)).
  reflexivity.
Qed.

(** X15.  The chart has no guard of the kind the export has: when every
    record carries its party votes and the directory [Results] exists,
    [plot_top_10_parties] replaces a chart of the same name that is
    already there by the chart of the ten largest totals, and prints one
    line.  elections_scraper.py drops the extension of the name first;
    elections-scraper.py uses the name as given. *)
Theorem chart_replaces_file
        (data : list (string * district_data)) (filename : string) (w : World)
        (old : file_content) :
  Forall (fun d => political_parties_votes d <> None) (Dict.values data) ->
  fs w !! "Results" = Some Dir ->
  PyStr.contains_char "/" filename = false ->
  exists totals,
    sum_party_votes data w = (Ret totals, w)
    /\ (let path :=
          "Results/" +:+ V2.add_extension
                           ("Top_10_Parties_of_" +:+ PyStr.splitext_root filename) "png" in
        fs w !! path = Some (File old) ->
        V2.plot_top_10_parties data filename w
        = (Ret tt,
           {| stdout := stdout w ++ ["BAR PLOT SUCCESSFULLY CREATED: '" +:+ path +:+ "'"];
              fs := <[path := File (PngChart (top_10 totals))]> (fs w) |}))
    /\ (let path :=
          "Results/" +:+ V1.add_extension ("Top_10_Parties_of_" +:+ filename) "png" in
        fs w !! path = Some (File old) ->
        V1.plot_top_10_parties data filename w
        = (Ret tt,
           {| stdout := stdout w
                        ++ ["BAR PLOT SUCCESSFULLY CREATED: 'Top_10_Parties_of_"
                            +:+ filename +:+ ".png'"];
              fs := <[path := File (PngChart (top_10 totals))]> (fs w) |})).
Proof.
  intros Hvotes Hdir Hplain.
  eexists. split; [exact (sum_party_votes_returns data w Hvotes)|].
  split; cbv zeta; intros Hfile.
  - apply V2_plot_writes; try assumption. rewrite Hfile. discriminate.
  - apply V1_plot_writes; try assumption. rewrite Hfile. discriminate.
Qed.

Lemma chart_replaces_file_witness :
  let w1 := snd (V2.plot_top_10_parties Chart.two "Praha.csv" Chart.with_results) in
  fs w1 !! "Results/Top_10_Parties_of_Praha.png"
  = Some (File (PngChart [("A", 17%Z); ("B", 3%Z)]))
  /\ fs (snd (V2.plot_top_10_parties [("554782", Chart.record [("C", 1%Z)])] "Praha" w1))
        !! "Results/Top_10_Parties_of_Praha.png"
     = Some (File (PngChart [("C", 1%Z)])).
Proof.
  cbv zeta.
  assert (H : fs (snd (V2.plot_top_10_parties Chart.two "Praha.csv" Chart.with_results))
                 !! "Results/Top_10_Parties_of_Praha.png"
              = Some (File (PngChart [("A", 17%Z); ("B", 3%Z)])))
    by (vm_compute; reflexivity).
  split; [exact H|].
  destruct (chart_replaces_file
              [("554782", Chart.record [("C", 1%Z)])] "Praha"
              (snd (V2.plot_top_10_parties Chart.two "Praha.csv" Chart.with_results))
              (PngChart [("A", 17%Z); ("B", 3%Z)]))
    as (totals & Hsum & H2 & _).
  - repeat constructor; discriminate.
  - vm_compute; reflexivity.
  - reflexivity.
  - cbv zeta in H2. rewrite (H2 H). cbn [snd fs].
    rewrite lookup_insert_eq.
    assert (totals = [("C", 1%Z)]) as ->; [|reflexivity].
    vm_compute in Hsum. now injection Hsum as <-.
Defined.

Section Respect.

Variable R : World -> World -> Prop.
Variable E : exn -> Prop.
Variable allowed : string -> Prop.

Hypothesis R_refl : forall w, R w w.
Hypothesis R_trans : forall w1 w2 w3, R w1 w2 -> R w2 w3 -> R w1 w3.
Hypothesis R_print : forall w lines, R w (add_lines w lines).
Hypothesis R_makedirs : forall w, R w {| stdout := stdout w; fs := <["Results" := Dir]> (fs w) |}.
Hypothesis R_write :
  forall path content w,
    allowed path ->
    R w {| stdout := stdout w; fs := <[path := File content]> (fs w) |}.
Hypothesis E_exception : forall cls msg, E (Exception cls msg).
Hypothesis E_exit : E (SystemExit 1).

Lemma respects_ret {A} (a : A) : respects R E (ret a).
Proof. intros w. split; [apply R_refl | discriminate]. Qed.

Lemma respects_raise {A} (e : exn) : E e -> respects R E (@raise A e).
Proof. intros He w. split; [apply R_refl | now intros e' [= <-]]. Qed.

Lemma respects_print (line : string) : respects R E (print line).
Proof. intros w. split; [apply R_print | discriminate]. Qed.

Lemma respects_lift {A} (o : outcome A) :
  (forall e, o = Raise e -> E e) -> respects R E (lift o).
Proof. intros Ho w. split; [apply R_refl | exact Ho]. Qed.

Lemma respects_bind {A B} (m : M A) (k : A -> M B) :
  respects R E m -> (forall a, respects R E (k a)) -> respects R E (bind m k).
Proof.
  intros Hm Hk w. unfold bind. destruct (Hm w) as [HR HE].
  destruct (m w) as [[a|e] w1]; cbn [fst snd] in *.
  - destruct (Hk a w1) as [HR1 HE1]. split; [eauto | exact HE1].
  - split; [exact HR | intros e0 [= <-]; exact (HE e eq_refl)].
Qed.

Lemma respects_try {A} (m : M A) (handles : exn -> bool) (handler : exn -> M A) :
  respects R E m -> (forall e, respects R E (handler e)) ->
  respects R E (try_except m handles handler).
Proof.
  intros Hm Hh w. unfold try_except. destruct (Hm w) as [HR HE].
  destruct (m w) as [[a|e] w1]; cbn [fst snd] in *.
  - split; [exact HR | discriminate].
  - destruct (handles e).
    + destruct (Hh e w1) as [HR1 HE1]. split; [eauto | exact HE1].
    + split; [exact HR | exact HE].
Qed.

Lemma respects_try_else {A B} (m : M A) (handles : exn -> bool)
      (handler : exn -> M B) (orelse : A -> M B) :
  respects R E m -> (forall e, respects R E (handler e)) ->
  (forall a, respects R E (orelse a)) ->
  respects R E (try_except_else m handles handler orelse).
Proof.
  intros Hm Hh Ho w. unfold try_except_else. destruct (Hm w) as [HR HE].
  destruct (m w) as [[a|e] w1]; cbn [fst snd] in *.
  - destruct (Ho a w1) as [HR1 HE1]. split; [eauto | exact HE1].
  - destruct (handles e).
    + destruct (Hh e w1) as [HR1 HE1]. split; [eauto | exact HE1].
    + split; [exact HR | intros e0 [= <-]; exact (HE e eq_refl)].
Qed.

Lemma respects_for_each {A S} (l : list A) (body : A -> S -> M S) (acc : S) :
  (forall x s, respects R E (body x s)) -> respects R E (for_each l body acc).
Proof.
  intros Hb. revert acc. induction l as [|x l IH]; intros acc; cbn [for_each].
  - apply respects_ret.
  - apply respects_bind; [apply Hb | exact IH].
Qed.

Lemma respects_map_M {A B} (f : A -> M B) (l : list A) :
  (forall x, respects R E (f x)) -> respects R E (map_M f l).
Proof.
  intros Hf. induction l as [|x l IH]; cbn [map_M].
  - apply respects_ret.
  - apply respects_bind; [apply Hf|]. intros y.
    apply respects_bind; [exact IH|]. intros ys. apply respects_ret.
Qed.

Lemma respects_py_int (text : string) : respects R E (py_int text).
Proof.
  unfold py_int. destruct (PyStr.int text);
    [apply respects_ret | apply respects_raise, E_exception].
Qed.

Lemma respects_get_soup (net : string -> response) (url : string) :
  respects R E (get_soup net url).
Proof.
  unfold get_soup. destruct (net url); [apply respects_ret|].
  apply respects_bind; [apply respects_print|]. intros _.
  apply respects_raise, E_exit.
Qed.

Lemma respects_items (v : option (list (string * Z))) : respects R E (items v).
Proof.
  unfold items. destruct v; [apply respects_ret | apply respects_raise, E_exception].
Qed.

Lemma respects_sum_party_votes (data : list (string * district_data)) :
  respects R E (sum_party_votes data).
Proof.
  unfold sum_party_votes. apply respects_for_each. intros d s.
  apply respects_bind; [apply respects_items|]. intros its.
  apply respects_for_each. intros pv acc. apply respects_ret.
Qed.

Lemma respects_csv_frame (data : list (string * district_data)) :
  respects R E (csv_frame data).
Proof.
  intros w. rewrite csv_frame_world. split; [apply R_refl|].
  destruct data as [|kv data].
  - destruct (csv_frame_empty w) as [msg ->]. intros e [= <-]. apply E_exception.
  - destruct (csv_frame_nonempty (kv :: data) w) as [df ->]; [|]; discriminate.
Qed.

Lemma respects_makedirs : respects R E (Os.makedirs "Results").
Proof.
  intros w. cbv [Os.makedirs bind get_fs put_fs raise ret].
  destruct (fs w !! "Results") as [[|c]|]; cbn [fst snd].
  - split; [apply R_refl | discriminate].
  - split; [apply R_refl | intros e [= <-]; apply E_exception].
  - split; [apply R_makedirs | discriminate].
Qed.

Lemma respects_path_exists (path : string) : respects R E (Os.path_exists path).
Proof. intros w. split; [apply R_refl | discriminate]. Qed.

Lemma respects_write_file (path : string) (content : file_content) :
  allowed path -> respects R E (Os.write_file path content).
Proof.
  intros Hp w. cbv [Os.write_file bind get_fs put_fs raise].
  destruct (negb (Os.parent_is_dir (fs w) path)); cbn [fst snd].
  - split; [apply R_refl | intros e [= <-]; apply E_exception].
  - destruct (fs w !! path) as [[|c]|]; cbn [fst snd].
    + split; [apply R_refl | intros e [= <-]; apply E_exception].
    + split; [now apply R_write | discriminate].
    + split; [now apply R_write | discriminate].
Qed.

Lemma respects_to_csv (df : DataFrame) (path label : string) :
  allowed path -> respects R E (Pandas.to_csv df path label).
Proof.
  intros Hp. unfold Pandas.to_csv.
  apply respects_bind; [intros w; split; [apply R_refl | discriminate]|].
  intros f. destruct (negb (Os.parent_is_dir f path)).
  - apply respects_raise, E_exception.
  - now apply respects_write_file.
Qed.

Section Scripts.

Variable net : string -> response.

Lemma respects_V2_links (page : node) :
  respects R E (V2.extract_all_district_links page base_url "td" "cislo" "a" "href").
Proof.
  unfold V2.extract_all_district_links. apply respects_for_each. intros cell links.
  unfold V2.link_step. cbv zeta.
  destruct (negb _); [|apply respects_ret].
  apply respects_bind; [apply respects_print|]. intros _. apply respects_ret.
Qed.

Lemma respects_V1_links (page : node) :
  respects R E (V1.all_district_links page base_url "td" "cislo" "a" "href").
Proof.
  unfold V1.all_district_links. apply respects_for_each. intros cell links.
  unfold V1.link_step. cbv zeta.
  apply respects_try.
  - apply respects_bind.
    + destruct (Soup.find cell "a" []);
        [apply respects_ret | apply respects_raise, E_exception].
    + intros href. destruct (negb _);
        [apply respects_raise, E_exception | apply respects_ret].
  - intros e. apply respects_bind; [apply respects_print|]. intros _.
    apply respects_ret.
Qed.

Lemma respects_header_loop (page : node)
      (missing : string -> district_data -> string) (failed : string -> exn -> string)
      (headers : list (count_key * string)) (record : district_data) :
  respects R E
    (for_each headers
       (fun kh record =>
          try_except
            (match Soup.find page "td" [("class", ["cislo"]); ("headers", [snd kh])] with
             | Some cell =>
                 v <- py_int (clean_data (Soup.get_text cell) nbsp) ;;
                 ret (set_count (fst kh) v record)
             | None => print (missing (snd kh) record) ;;; ret record
             end)
            (except_classes [AttributeError; ValueError; KeyError])
            (fun e => print (failed (snd kh) e) ;;; ret record))
       record).
Proof.
  apply respects_for_each. intros kh r. apply respects_try.
  - destruct (Soup.find page "td" _).
    + apply respects_bind; [apply respects_py_int|]. intros v. apply respects_ret.
    + apply respects_bind; [apply respects_print|]. intros _. apply respects_ret.
  - intros e. apply respects_bind; [apply respects_print|]. intros _.
    apply respects_ret.
Qed.

Lemma respects_V2_votes (page : node) :
  respects R E (V2.get_votes_of_parties page "overflow_name" "cislo" vote_headers "td").
Proof.
  unfold V2.get_votes_of_parties. cbv zeta.
  destruct (Soup.find_all page "td" [("class", ["overflow_name"])]);
    [apply respects_ret|].
  apply respects_try_else.
  - apply respects_ret.
  - intros e. apply respects_bind; [apply respects_print|]. intros _.
    apply respects_ret.
  - intros names. apply respects_bind.
    + apply respects_map_M. intros cell. apply respects_py_int.
    + intros votes. apply respects_ret.
Qed.

Lemma respects_V1_votes (page : node) :
  respects R E (V1.get_votes_of_parties page "overflow_name" "cislo" vote_headers "td").
Proof.
  unfold V1.get_votes_of_parties. cbv zeta. apply respects_try.
  - apply respects_bind.
    + apply respects_map_M. intros cell. apply respects_py_int.
    + intros votes. apply respects_ret.
  - intros e. apply respects_bind; [apply respects_print|]. intros _.
    apply respects_ret.
Qed.

Lemma respects_V2_name (page : node) :
  respects R E (V2.get_district_name page district_selector).
Proof.
  intros w. rewrite V2_get_district_name_spec. split; [apply R_refl | discriminate].
Qed.

Lemma respects_V2_district (page : node) :
  respects R E
    (V2.extract_district_data page district_selector "sa2" "sa3" "sa6" "td" "cislo").
Proof.
  unfold V2.extract_district_data. cbv zeta.
  apply respects_bind; [apply respects_V2_name|]. intros name.
  destruct (negb _); [apply respects_ret|].
  apply respects_bind; [apply respects_V2_votes|]. intros votes.
  apply respects_bind; [|intros r; apply respects_ret].
  apply (respects_header_loop page
           (fun header record =>
              "WARNING: Data cell not found for header " +:+ header
              +:+ " in district " +:+ location record)
           (fun header error =>
              "ERROR: An error occurred while extracting data for header '"
              +:+ header +:+ "': " +:+ exn_str error)).
Qed.

Lemma respects_V2_step (link : string) (acc : list (string * district_data)) :
  respects R E
    (V2.district_step net district_selector "sa2" "sa3" "sa6" "td" "cislo" link acc).
Proof.
  unfold V2.district_step. apply respects_try.
  - apply respects_bind; [apply respects_get_soup|]. intros page.
    destruct (get_code_from_url link "xobec").
    + apply respects_bind; [apply respects_V2_district|]. intros [d|];
        apply respects_ret.
    + apply respects_bind; [apply respects_print|]. intros _. apply respects_ret.
  - intros e. apply respects_bind; [apply respects_print|]. intros _.
    apply respects_ret.
Qed.

Lemma respects_V1_step (link : string) (acc : list (string * district_data)) :
  respects R E
    (V1.district_step net district_selector "sa2" "sa3" "sa6" "td" "cislo" link acc).
Proof.
  unfold V1.district_step. cbv zeta.
  assert (Hh : forall name e,
             respects R E
               (print ("Error: An exception occurred for district " +:+ name
                       +:+ ": " +:+ exn_str e) ;;; ret acc)).
  { intros name e. apply respects_bind; [apply respects_print|]. intros _.
    apply respects_ret. }
  apply respects_try; [|apply Hh].
  apply respects_bind; [apply respects_get_soup|]. intros page.
  destruct (Soup.select_one page district_selector) as [el|].
  - destruct (PyStr.split ":" (PyStr.strip (Soup.get_text el))) as [|a [|name t]];
      try (apply respects_raise, E_exception).
    apply respects_try; [|apply Hh].
    destruct (get_code_from_url link "xobec").
    + apply respects_bind; [apply respects_V1_votes|]. intros votes.
      apply respects_bind; [|intros r; apply respects_ret].
      apply (respects_header_loop page
               (fun header _ =>
                  "ERROR: Data cell not found for header " +:+ header
                  +:+ " in district " +:+ name)
               (fun header e =>
                  "ERROR: An error occurred while extracting data for header '"
                  +:+ header +:+ "': " +:+ exn_str e)).
    + apply respects_bind; [apply respects_print|]. intros _. apply respects_ret.
  - apply respects_bind; [apply respects_print|]. intros _. apply respects_ret.
Qed.

Lemma respects_V2_all (soup : node) :
  respects R E (V2.extract_all_districts_data net soup).
Proof.
  unfold V2.extract_all_districts_data.
  apply respects_bind; [apply respects_V2_links|]. intros links.
  apply respects_for_each. intros link acc. apply respects_V2_step.
Qed.

Lemma respects_V1_all (soup : node) : respects R E (V1.global_data net soup).
Proof.
  unfold V1.global_data.
  apply respects_bind; [apply respects_V1_links|]. intros links.
  apply respects_for_each. intros link acc. apply respects_V1_step.
Qed.

Lemma respects_export_tail (df : DataFrame) (path : string) (failure : exn)
      (line : string) :
  allowed path -> E failure ->
  respects R E
    (Os.makedirs "Results" ;;;
     exists_ <- Os.path_exists path ;;
     if (exists_ : bool) then raise failure
     else Pandas.to_csv df path "code" ;;; print line).
Proof.
  intros Hp Hf.
  apply respects_bind; [apply respects_makedirs|]. intros _.
  apply respects_bind; [apply respects_path_exists|]. intros [|].
  - now apply respects_raise.
  - apply respects_bind; [now apply respects_to_csv|]. intros _.
    apply respects_print.
Qed.

Lemma respects_V2_get_csv (data : list (string * district_data)) (filename : string) :
  allowed (Os.path_join "Results" (V2.add_extension filename "csv")) ->
  respects R E (V2.get_csv data filename).
Proof.
  intros Hp. unfold V2.get_csv.
  apply respects_bind; [apply respects_csv_frame|]. intros df.
  apply respects_export_tail; [exact Hp | apply E_exception].
Qed.

Lemma respects_V1_get_csv (data : list (string * district_data)) (filename : string) :
  allowed (Os.path_join "Results" (V1.add_extension filename "csv")) ->
  respects R E (V1.get_csv data filename).
Proof.
  intros Hp. unfold V1.get_csv.
  apply respects_bind; [apply respects_csv_frame|]. intros df.
  apply respects_export_tail; [exact Hp | apply E_exception].
Qed.

Lemma respects_V2_plot (data : list (string * district_data)) (filename : string) :
  allowed (Os.path_join "Results"
             (V2.add_extension ("Top_10_Parties_of_" +:+ PyStr.splitext_root filename)
                               "png")) ->
  respects R E (V2.plot_top_10_parties data filename).
Proof.
  intros Hp. unfold V2.plot_top_10_parties.
  apply respects_bind; [apply respects_sum_party_votes|]. intros totals. cbv zeta.
  apply respects_bind; [now apply respects_write_file|]. intros _.
  apply respects_print.
Qed.

Lemma respects_V1_plot (data : list (string * district_data)) (filename : string) :
  allowed (Os.path_join "Results"
             (V1.add_extension ("Top_10_Parties_of_" +:+ filename) "png")) ->
  respects R E (V1.plot_top_10_parties data filename).
Proof.
  intros Hp. unfold V1.plot_top_10_parties.
  apply respects_bind; [apply respects_sum_party_votes|]. intros totals. cbv zeta.
  apply respects_bind; [now apply respects_write_file|]. intros _.
  apply respects_print.
Qed.

Lemma respects_V2_run (url filename : string) :
  allowed (Os.path_join "Results" (V2.add_extension filename "csv")) ->
  allowed (Os.path_join "Results"
             (V2.add_extension ("Top_10_Parties_of_" +:+ PyStr.splitext_root filename)
                               "png")) ->
  respects R E (V2.elections_scraper net url filename).
Proof.
  intros Hcsv Hpng. unfold V2.elections_scraper.
  apply respects_bind; [apply respects_print|]. intros _.
  apply respects_bind; [apply respects_get_soup|]. intros soup.
  apply respects_bind; [apply respects_V2_all|]. intros data.
  apply respects_bind; [now apply respects_V2_get_csv|]. intros _.
  apply respects_bind; [now apply respects_V2_plot|]. intros _.
  apply respects_print.
Qed.

Lemma respects_V1_run (url filename : string) :
  allowed (Os.path_join "Results" (V1.add_extension filename "csv")) ->
  allowed (Os.path_join "Results"
             (V1.add_extension ("Top_10_Parties_of_" +:+ filename) "png")) ->
  respects R E (V1.elections_scraper net url filename).
Proof.
  intros Hcsv Hpng. unfold V1.elections_scraper.
  apply respects_bind; [apply respects_print|]. intros _.
  apply respects_bind; [apply respects_get_soup|]. intros soup.
  apply respects_bind; [apply respects_V1_all|]. intros data.
  apply respects_bind; [now apply respects_V1_get_csv|]. intros _.
  apply respects_bind; [now apply respects_V1_plot|]. intros _.
  apply respects_print.
Qed.

End Scripts.
End Respect.

Lemma startswith_slash_append (a b : string) :
  a <> EmptyString -> PyStr.startswith (a +:+ b) "/" = PyStr.startswith a "/".
Proof.
  destruct a as [|c a]; [contradiction|]. intros _.
  rewrite append_cons. cbn. now destruct (a +:+ b), a.
Qed.

Lemma path_join_relative (name : string) :
  PyStr.startswith name "/" = false ->
  Os.path_join "Results" name = "Results/" +:+ name.
Proof.
  unfold Os.path_join. destruct name as [|c name]; [reflexivity|].
  cbn [PyStr.startswith]. intros H.
  assert (Hc : c <> "/"%char).
  { intros ->. now destruct name. }
  destruct c as [[] [] [] [] [] [] [] []]; try reflexivity.
  now contradiction Hc.
Qed.

Lemma V2_add_extension_relative (filename extension : string) :
  PyStr.startswith filename "/" = false ->
  PyStr.startswith (V2.add_extension filename extension) "/" = false.
Proof.
  intros H. unfold V2.add_extension.
  destruct (PyStr.endswith filename ("." +:+ extension)); [exact H|].
  destruct filename as [|c f]; [reflexivity|].
  now rewrite startswith_slash_append.
Qed.

Lemma V1_add_extension_relative (filename extension : string) :
  PyStr.startswith filename "/" = false ->
  PyStr.startswith (V1.add_extension filename extension) "/" = false.
Proof.
  intros H. unfold V1.add_extension.
  destruct filename as [|c f]; [reflexivity|].
  now rewrite startswith_slash_append.
Qed.

Lemma join_in_results (name : string) :
  PyStr.startswith name "/" = false -> in_results (Os.path_join "Results" name).
Proof.
  intros H. rewrite (path_join_relative name H). apply startswith_append.
Qed.

Section OutsideResults.

Lemma same_outside_refl (w : World) : same_outside_results w w.
Proof. now intros path _ _. Qed.

Lemma same_outside_trans (w1 w2 w3 : World) :
  same_outside_results w1 w2 -> same_outside_results w2 w3 ->
  same_outside_results w1 w3.
Proof. intros H12 H23 path Hne Hout. now rewrite H23, H12. Qed.

Lemma same_outside_print (w : World) (lines : list string) :
  same_outside_results w (add_lines w lines).
Proof. now intros path _ _. Qed.

Lemma same_outside_makedirs (w : World) :
  same_outside_results w {| stdout := stdout w; fs := <["Results" := Dir]> (fs w) |}.
Proof. intros path Hne _. cbn [fs]. now rewrite lookup_insert_ne by congruence. Qed.

Lemma same_outside_write (target : string) (content : file_content) (w : World) :
  in_results target ->
  same_outside_results
    w {| stdout := stdout w; fs := <[target := File content]> (fs w) |}.
Proof.
  intros Hin path _ Hout. cbn [fs].
  rewrite lookup_insert_ne; [reflexivity|]. now intros ->.
Qed.

End OutsideResults.

Lemma plain_name_relative (name : string) :
  PyStr.contains_char "/" name = false -> PyStr.startswith name "/" = false.
Proof.
  destruct name as [|c name]; [reflexivity|].
  cbn [PyStr.contains_char PyStr.startswith]. intros H.
  apply orb_false_iff in H. destruct H as [Hc _].
  rewrite (eqb_sym "/" c), Hc. reflexivity.
Qed.

(** X16.  A run changes the file system only at the directory [Results]
    and below it: for an output name that contains no [/], every other
    path holds after the run what it held before, whatever the pages hold
    and however the run ends.  Both scripts behave so.  (The keys of the
    file system are paths in normal form, relative to the working
    directory; a name with a [/] in it, such as [../notes], can lead out
    of [Results] and is outside this statement.) *)
Theorem run_writes_below_results
        (net : string -> response) (url filename : string) (w : World)
        (path : string) :
  PyStr.contains_char "/" filename = false ->
  path <> "Results" ->
  PyStr.startswith path "Results/" = false ->
  fs (snd (V2.elections_scraper net url filename w)) !! path = fs w !! path
  /\ fs (snd (V1.elections_scraper net url filename w)) !! path = fs w !! path.
Proof.
  intros Hplain Hne Hout.
  pose proof (plain_name_relative filename Hplain) as Hname.
  assert (Hout' : ~ in_results path) by (unfold in_results; congruence).
  split.
  - refine (proj1 (respects_V2_run same_outside_results (fun _ => True) in_results
                     same_outside_refl same_outside_trans same_outside_print
                     same_outside_makedirs same_outside_write
                     (fun _ _ => I) I net url filename _ _ w) path Hne Hout').
    + now apply join_in_results, V2_add_extension_relative.
    + now apply join_in_results, V2_add_extension_relative.
  - refine (proj1 (respects_V1_run same_outside_results (fun _ => True) in_results
                     same_outside_refl same_outside_trans same_outside_print
                     same_outside_makedirs same_outside_write
                     (fun _ _ => I) I net url filename _ _ w) path Hne Hout').
    + now apply join_in_results, V1_add_extension_relative.
    + now apply join_in_results, V1_add_extension_relative.
Qed.

Lemma run_writes_below_results_witness :
  fs (snd (V2.elections_scraper Cases.net_two Cases.index_url "Praha"
                                {| stdout := [];
                                   fs := {[ "notes.txt" := File (OtherFile "x") ]} |}))
     !! "notes.txt"
  = Some (File (OtherFile "x")).
Proof.
  refine (eq_trans
            (proj1 (run_writes_below_results
                      Cases.net_two Cases.index_url "Praha"
                      {| stdout := [];
                         fs := {[ "notes.txt" := File (OtherFile "x") ]} |}
                      "notes.txt" eq_refl _ eq_refl)) _).
  - discriminate.
  - reflexivity.
Defined.

Lemma exit_status_of_1 {A} (o : outcome A) :
  (forall e, o = Raise e -> ends_with_1 e) ->
  exit_status o = 0%Z \/ exit_status o = 1%Z.
Proof.
  intros H. destruct o as [a|[cls msg|status]]; cbn; [now left | now right |].
  right. now apply (H _ eq_refl).
Qed.

Lemma ends_with_1_exception (cls : exn_class) (msg : string) :
  ends_with_1 (Exception cls msg).
Proof. intros status. discriminate. Qed.

Lemma ends_with_1_exit : ends_with_1 (SystemExit 1).
Proof. now intros status [= <-]. Qed.

(** X17.  elections_scraper.py ends with status 0 or 1 on every input:
    whatever the arguments, the pages and the file system, the script
    body either returns, or raises an exception, or exits with status 1;
    so does [elections_scraper] of elections-scraper.py. *)
Theorem exit_status_0_or_1
        (net : string -> response) (argv : list string) (url filename : string)
        (w : World) :
  (exit_status (fst (V2.main net argv w)) = 0%Z
   \/ exit_status (fst (V2.main net argv w)) = 1%Z)
  /\ (exit_status (fst (V1.elections_scraper net url filename w)) = 0%Z
      \/ exit_status (fst (V1.elections_scraper net url filename w)) = 1%Z).
Proof.
  pose proof (fun url filename =>
                respects_V2_run (fun _ _ => True) ends_with_1 (fun _ => True)
                  (fun _ => I) (fun _ _ _ _ _ => I) (fun _ _ => I) (fun _ => I)
                  (fun _ _ _ _ => I) ends_with_1_exception ends_with_1_exit
                  net url filename I I) as H2.
  pose proof (respects_V1_run (fun _ _ => True) ends_with_1 (fun _ => True)
                (fun _ => I) (fun _ _ _ _ _ => I) (fun _ _ => I) (fun _ => I)
                (fun _ _ _ _ => I) ends_with_1_exception ends_with_1_exit
                net url filename I I w) as [_ H1].
  split; [|exact (exit_status_of_1 _ H1)].
  assert (Husage : exit_status
                     (fst ((print usage ;;; @raise unit (SystemExit 1)) w)) = 1%Z)
    by reflexivity.
  unfold V2.main.
  destruct argv as [|a0 [|a1 [|a2 [|a3 argv]]]]; try (right; exact Husage).
  exact (exit_status_of_1 _ (proj2 (H2 a1 a2 w))).
Qed.

Lemma get_soup_page (net : string -> response) (url : string) (page : node) (w : World) :
  net url = Page page -> get_soup net url w = (Ret page, w).
Proof. intros H. unfold get_soup. now rewrite H. Qed.



(** X19.  The guard of the export comes after the scraping.  The index
    page is fetched, the output name has no directory part, and the file
    of the export is already there.  elections_scraper.py then still
    runs the whole scrape, right after its first line.  If every
    district page is fetched, the scrape returns the result set, and the
    run fails in the world the scrape left, with every line of the scrape
    printed and no file changed: with [FileExistsError] naming the output
    name when the result set is not empty, with [KeyError] when it is
    empty.  If the fetch of a district page fails, the existing file
    plays no part: the run exits with status 1 after the diagnostic of
    that fetch. *)
Theorem existing_export_stops_run
        (net : string -> response) (url filename : string) (soup : node) (w : World)
        (e : entry) :
  net url = Page soup ->
  PyStr.contains_char "/" filename = false ->
  fs w !! "Results" = Some Dir ->
  fs w !! ("Results/" +:+ V2.add_extension filename "csv") = Some e ->
  match first_failure net (links_of (index_cells soup)) with
  | None =>
      exists lines failure,
        V2.extract_all_districts_data
          net soup
          (add_lines w ["DOWNLOADING DATA FROM THE SELECTED URL: '" +:+ url +:+ "'"])
        = (Ret (V2_result_set net soup),
           add_lines w (["DOWNLOADING DATA FROM THE SELECTED URL: '" +:+ url +:+ "'"]
                          ++ lines))
        /\ V2.elections_scraper net url filename w
           = (Raise failure,
              add_lines w (["DOWNLOADING DATA FROM THE SELECTED URL: '" +:+ url +:+ "'"]
                             ++ lines))
        /\ (V2_result_set net soup <> [] ->
            failure = Exception FileExistsError
                                ("File " +:+ filename +:+ " already exists."))
        /\ (V2_result_set net soup = [] ->
            exists msg, failure = Exception KeyError msg)
  | Some (link, class_name, message) =>
      fatal_fetch (V2.elections_scraper net url filename) w link class_name message
  end.
Proof.
  intros Hnet Hplain Hdir Hfile.
  rewrite <- (path_join_relative (V2.add_extension filename "csv")) in Hfile
    by (apply V2_add_extension_relative, plain_name_relative, Hplain).
  set (w1 := add_lines w ["DOWNLOADING DATA FROM THE SELECTED URL: '" +:+ url +:+ "'"]).
  destruct (first_failure net (links_of (index_cells soup)))
    as [[[link class_name] message]|] eqn:Hfetched.
  - unfold V2.elections_scraper, fatal_fetch. rewrite bind_print. fold w1.
    ret_step (get_soup_page net url soup w1 Hnet).
    destruct (V2_extract_all_failed net soup w1 _ _ _ Hfetched) as [lines E].
    raise_step E. eexists. unfold w1. rewrite add_lines_app.
    now rewrite app_assoc.
  - destruct (V2_extract_all_fetched net soup w1 Hfetched) as [lines Hall].
    fold (V2_result_set net soup) in Hall.
    assert (Hw2 : add_lines w1 lines
                  = add_lines w (["DOWNLOADING DATA FROM THE SELECTED URL: '"
                                  +:+ url +:+ "'"] ++ lines))
      by (unfold w1; apply add_lines_app).
    rewrite Hw2 in Hall.
    set (w2 := add_lines w (["DOWNLOADING DATA FROM THE SELECTED URL: '"
                             +:+ url +:+ "'"] ++ lines)) in *.
    exists lines.
    assert (Hrun : forall failure,
               V2.get_csv (V2_result_set net soup) filename w2 = (Raise failure, w2) ->
               V2.elections_scraper net url filename w = (Raise failure, w2)).
    { intros failure Hcsv. unfold V2.elections_scraper. rewrite bind_print. fold w1.
      ret_step (get_soup_page net url soup w1 Hnet).
      ret_step Hall. now raise_step Hcsv. }
    destruct (V2_result_set net soup) as [|kv data] eqn:Hdata.
    + destruct (csv_frame_empty w2) as [msg Hframe].
      exists (Exception KeyError msg).
      split; [exact Hall|]. split; [|split; [congruence | now exists msg]].
      apply Hrun. unfold V2.get_csv. now raise_step Hframe.
    + exists (Exception FileExistsError ("File " +:+ filename +:+ " already exists.")).
      split; [exact Hall|]. split; [|split; [reflexivity | discriminate]].
      apply Hrun.
      apply (V2_get_csv_guard (kv :: data) filename w2 e); [discriminate | exact Hdir | exact Hfile].
Qed.

Lemma existing_export_stops_run_witness :
  exists lines,
    V2.elections_scraper
      Cases.net_two Cases.index_url "Praha"
      (snd (V2.elections_scraper Cases.net_two Cases.index_url "Praha" initial_world))
    = (Raise (Exception FileExistsError "File Praha already exists."),
       add_lines
         (snd (V2.elections_scraper Cases.net_two Cases.index_url "Praha" initial_world))
         (["DOWNLOADING DATA FROM THE SELECTED URL: '" +:+ Cases.index_url +:+ "'"]
            ++ lines)).
Proof.
  pose proof (existing_export_stops_run
                Cases.net_two Cases.index_url "Praha" Cases.two_districts
                (snd (V2.elections_scraper Cases.net_two Cases.index_url "Praha"
                                           initial_world))
                (File (CsvFile "code" (csv_table
                                         (V2_result_set Cases.net_two
                                                        Cases.two_districts))))
                eq_refl eq_refl) as H.
  assert (Hfetched : first_failure Cases.net_two
                                   (links_of (index_cells Cases.two_districts)) = None)
    by reflexivity.
  rewrite Hfetched in H.
  destruct H as (lines & failure & _ & E & Hfull & _).
  - vm_compute. reflexivity.
  - vm_compute. reflexivity.
  - exists lines. rewrite E, Hfull; [reflexivity|].
    vm_compute. discriminate.
Defined.

(** X20.  The scripts called with a wrong number of arguments.
    elections_scraper.py prints its usage and exits with status 1; it
    fetches nothing and writes nothing.  elections-scraper.py, whose
    arguments are read by argparse, exits with status 2 and prints
    nothing on standard output. *)
Theorem wrong_number_of_arguments
        (net : string -> response) (argv : list string) (w : World) :
  length argv <> 3 ->
  V2.main net argv w = (Raise (SystemExit 1), add_lines w [usage])
  /\ match argv with
     | [] => True
     | _ :: args =>
         forallb V1.plain args = true ->
         option_map (fun run => run w) (V1.main net argv)
         = Some (Raise (SystemExit 2), w)
     end.
Proof.
  intros Hlen. split.
  - destruct argv as [|a0 [|a1 [|a2 [|a3 argv]]]]; try reflexivity.
    now contradiction Hlen.
  - destruct argv as [|a0 args]; [exact I|].
    intros Hplain. unfold V1.main. rewrite Hplain.
    destruct args as [|a1 [|a2 [|a3 args]]]; try reflexivity.
    now contradiction Hlen.
Qed.

Lemma wrong_number_of_arguments_witness :
  V2.main Cases.net_two ["election_scraper.py"; Cases.index_url] initial_world
  = (Raise (SystemExit 1), add_lines initial_world [usage])
  /\ option_map (fun run => run initial_world)
                (V1.main Cases.net_two ["election_scraper.py"; Cases.index_url])
     = Some (Raise (SystemExit 2), initial_world).
Proof.
  destruct (wrong_number_of_arguments Cases.net_two
              ["election_scraper.py"; Cases.index_url] initial_world)
    as [H2 H1].
  - discriminate.
  - split; [exact H2 | exact (H1 eq_refl)].
Defined.




Section PlainNames.

Variable name : string.
Hypothesis name_alnum : all_chars alnum name = true.
Hypothesis name_given : name <> EmptyString.

Lemma all_chars_drop (p : ascii -> bool) (n : nat) (s : string) :
  all_chars p s = true -> all_chars p (PyStr.drop n s) = true.
Proof.
  revert s. induction n as [|n IH]; intros s H; [now destruct s|].
  destruct s as [|c s]; [exact H|].
  cbn in H. apply andb_true_iff in H. cbn. now apply IH.
Qed.

Lemma plain_name_no_extension (extension : string) :
  PyStr.endswith name ("." +:+ extension) = false.
Proof.
  unfold PyStr.endswith. apply andb_false_iff. right.
  apply String.eqb_neq. intros Heq.
  pose proof (all_chars_drop alnum
                (String.length name - String.length ("." +:+ extension)) name
                name_alnum) as H.
  rewrite Heq in H. discriminate H.
Qed.

Lemma splitext_scan_plain_prefix (a rest pre : string) (lead : bool)
      (best : option string) :
  all_chars alnum a = true ->
  PyStr.splitext_scan (a +:+ rest) pre lead best
  = PyStr.splitext_scan rest (pre +:+ a)
                        match a with
                        | EmptyString => lead
                        | _ => false
                        end best.
Proof.
  revert pre lead. induction a as [|c a IH]; intros pre lead.
  - intros _. now rewrite append_nil, append_empty_r.
  - cbn [all_chars]. intros H. apply andb_true_iff in H. destruct H as [Hc Ha].
    rewrite append_cons. cbn [PyStr.splitext_scan].
    assert (H1 : Ascii.eqb c "/" = false)
      by (apply eqb_neq; intros ->; discriminate Hc).
    assert (H2 : Ascii.eqb c "." = false)
      by (apply eqb_neq; intros ->; discriminate Hc).
    rewrite H1, H2, (IH _ _ Ha).
    replace ((pre +:+ String c EmptyString) +:+ a) with (pre +:+ String c a)
      by now rewrite append_assoc.
    now destruct a.
Qed.

Lemma splitext_root_plain_name : PyStr.splitext_root name = name.
Proof.
  unfold PyStr.splitext_root.
  rewrite <- (append_empty_r name) at 1.
  rewrite splitext_scan_plain_prefix by exact name_alnum.
  reflexivity.
Qed.

Lemma splitext_root_with_csv : PyStr.splitext_root (name +:+ ".csv") = name.
Proof.
  unfold PyStr.splitext_root.
  rewrite splitext_scan_plain_prefix by exact name_alnum.
  destruct name as [|c n]; [contradiction|].
  reflexivity.
Qed.

Lemma add_extension_with_csv :
  V2.add_extension (name +:+ ".csv") "csv" = V2.add_extension name "csv".
Proof.
  unfold V2.add_extension.
  rewrite (plain_name_no_extension "csv").
  replace (PyStr.endswith (name +:+ ".csv") ("." +:+ "csv")) with true
    by (symmetry; apply (endswith_append name ".csv")).
  reflexivity.
Qed.

Lemma plot_with_csv (data : list (string * district_data)) :
  V2.plot_top_10_parties data (name +:+ ".csv") = V2.plot_top_10_parties data name.
Proof.
  unfold V2.plot_top_10_parties.
  now rewrite splitext_root_with_csv, splitext_root_plain_name.
Qed.

Lemma get_csv_with_csv (data : list (string * district_data)) (w : World) :
  V2.get_csv data (name +:+ ".csv") w = V2.get_csv data name w
  \/ exists w',
      V2.get_csv data (name +:+ ".csv") w
      = (Raise (Exception FileExistsError
                          ("File " +:+ (name +:+ ".csv") +:+ " already exists.")), w')
      /\ V2.get_csv data name w
         = (Raise (Exception FileExistsError ("File " +:+ name +:+ " already exists.")),
            w').
Proof.
  unfold V2.get_csv. rewrite add_extension_with_csv. cbv zeta.
  destruct (csv_frame data w) as [[df|err] w0] eqn:Hf.
  - rewrite !(bind_ret_eq _ _ _ _ _ Hf).
    destruct (Os.makedirs "Results" w0) as [[[]|err] w1] eqn:Hm.
    + rewrite !(bind_ret_eq _ _ _ _ _ Hm).
      destruct (Os.path_exists (Os.path_join "Results" (V2.add_extension name "csv")) w1)
        as [[[|]|err] w2] eqn:He.
      * right. exists w2. now rewrite !(bind_ret_eq _ _ _ _ _ He).
      * left. now rewrite !(bind_ret_eq _ _ _ _ _ He).
      * left. now rewrite !(bind_raise_eq _ _ _ _ _ He).
    + left. now rewrite !(bind_raise_eq _ _ _ _ _ Hm).
  - left. now rewrite !(bind_raise_eq _ _ _ _ _ Hf).
Qed.

End PlainNames.

(** X22.  The output name of elections_scraper.py may carry the
    extension or not: for a name of letters and digits, a run under the
    name followed by [.csv] prints the same lines, leaves the same file
    system and ends with the same status as the run under the bare name.
    The export and the chart have the same paths in both. *)
Theorem extension_is_optional
        (net : string -> response) (url name : string) (w : World) :
  all_chars alnum name = true ->
  name <> EmptyString ->
  snd (V2.elections_scraper net url (name +:+ ".csv") w)
  = snd (V2.elections_scraper net url name w)
  /\ exit_status (fst (V2.elections_scraper net url (name +:+ ".csv") w))
     = exit_status (fst (V2.elections_scraper net url name w))
  /\ V2.add_extension (name +:+ ".csv") "csv" = name +:+ ".csv"
  /\ V2.add_extension name "csv" = name +:+ ".csv"
  /\ PyStr.splitext_root (name +:+ ".csv") = name
  /\ PyStr.splitext_root name = name.
Proof.
  intros Halnum Hgiven.
  assert (Hrun : snd (V2.elections_scraper net url (name +:+ ".csv") w)
                 = snd (V2.elections_scraper net url name w)
                 /\ exit_status (fst (V2.elections_scraper net url (name +:+ ".csv") w))
                    = exit_status (fst (V2.elections_scraper net url name w))).
  { unfold V2.elections_scraper. rewrite !bind_print.
    match goal with |- context [bind (get_soup net url) _ ?w0] => set (w1 := w0) end.
    destruct (get_soup net url w1) as [[soup|err] w2] eqn:Hs.
    - rewrite !(bind_ret_eq _ _ _ _ _ Hs).
      destruct (V2.extract_all_districts_data net soup w2) as [[data|err] w3] eqn:Ha.
      + rewrite !(bind_ret_eq _ _ _ _ _ Ha).
        destruct (get_csv_with_csv name Halnum data w3)
          as [Hc | (w4 & Hc1 & Hc2)].
        * destruct (V2.get_csv data name w3) as [[[]|err] w4] eqn:Hg.
          -- rewrite !(bind_ret_eq _ _ _ _ _ Hc), !(bind_ret_eq _ _ _ _ _ Hg).
             now rewrite (plot_with_csv name Halnum Hgiven).
          -- now rewrite !(bind_raise_eq _ _ _ _ _ Hc), !(bind_raise_eq _ _ _ _ _ Hg).
        * now rewrite (bind_raise_eq _ _ _ _ _ Hc1), (bind_raise_eq _ _ _ _ _ Hc2).
      + now rewrite !(bind_raise_eq _ _ _ _ _ Ha).
    - now rewrite !(bind_raise_eq _ _ _ _ _ Hs). }
  destruct Hrun as [Hworld Hstatus].
  split; [exact Hworld|]. split; [exact Hstatus|].
  split; [|split; [|split]].
  - rewrite (add_extension_with_csv name Halnum). unfold V2.add_extension.
    now rewrite (plain_name_no_extension name Halnum "csv").
  - unfold V2.add_extension. now rewrite (plain_name_no_extension name Halnum "csv").
  - now apply splitext_root_with_csv.
  - now apply splitext_root_plain_name.
Qed.

Lemma extension_is_optional_witness :
  fs (snd (V2.elections_scraper Cases.net_two Cases.index_url "Praha.csv" initial_world))
  = fs (snd (V2.elections_scraper Cases.net_two Cases.index_url "Praha" initial_world))
  /\ V2.add_extension "Praha.csv" "csv" = "Praha.csv".
Proof.
  destruct (extension_is_optional Cases.net_two Cases.index_url "Praha" initial_world
                                  eq_refl)
    as (Hworld & _ & Hext & _).
  - discriminate.
  - split; [|exact Hext].
    exact (f_equal fs Hworld).
Defined.

